(** * github2.core: date codec, attribute descriptors, record types,
      command dispatch and authentication guards

    A shallow embedding of [github2/core.py] and the properties of its
    behaviour.  Python values are modelled by the type [value], raised
    exceptions by [result], dictionaries by [gmap], and the calls made on
    the transport object by an explicit log that every operation threads. *)

From Stdlib Require Import ZArith Ascii String Lia.
From stdpp Require Import gmap strings list.

#[local] Set Warnings "-register-all".

(** ** Exceptions and results *)

Inductive exn :=
| ValueError
| TypeError
| AttributeError
| KeyError
| IndexError
| AuthError (msg : string).

Inductive result (A : Type) :=
| Ok (a : A)
| Raise (e : exn).
Arguments Ok {A} a.
Arguments Raise {A} e.

(** Sequencing: an exception raised by the first computation ends the
    whole one.  With these instances [x ← r; k] is stdpp's notation. *)
Global Instance result_ret : MRet result := @Ok.
Global Instance result_bind : MBind result := λ A B k r,
  match r with
  | Ok a => k a
  | Raise e => Raise e
  end.

(** ** Characters and strings, as Python's [str] has them *)

Module Str.

Definition code (c : ascii) : nat := nat_of_ascii c.

Definition in_range (lo hi c : ascii) : bool :=
  (code lo <=? code c) && (code c <=? code hi).

(** [\d] of the [re] module on byte strings. *)
Definition is_digit (c : ascii) : bool := in_range "0" "9" c.

(** [\s] of the [re] module, and the characters [str.split] and
    [str.strip] treat as blank: space, tab, newline, vertical tab, form
    feed and carriage return. *)
Definition is_space (c : ascii) : bool :=
  (code c =? 32) || ((9 <=? code c) && (code c <=? 13)).

Definition upper_char (c : ascii) : ascii :=
  if in_range "a" "z" c then ascii_of_nat (code c - 32) else c.

Definition lower_char (c : ascii) : ascii :=
  if in_range "A" "Z" c then ascii_of_nat (code c + 32) else c.

(** [s.upper()] *)
Fixpoint upper (s : string) : string :=
  match s with
  | EmptyString => EmptyString
  | String c s' => String (upper_char c) (upper s')
  end.

Definition digit_val (c : ascii) : Z := Z.of_nat (code c) - 48.

Definition digit_char (n : Z) : ascii := ascii_of_nat (Z.to_nat (n + 48)).

Definition is_empty (s : string) : bool :=
  match s with EmptyString => true | _ => false end.

(** [s.lstrip()] and [s.rstrip()] without argument. *)
Fixpoint lstrip (s : string) : string :=
  match s with
  | EmptyString => EmptyString
  | String c s' => if is_space c then lstrip s' else s
  end.

Fixpoint rstrip (s : string) : string :=
  match s with
  | EmptyString => EmptyString
  | String c s' =>
      match rstrip s' with
      | EmptyString => if is_space c then EmptyString else String c EmptyString
      | r => String c r
      end
  end.

(** [s.strip()] *)
Definition strip (s : string) : string := rstrip (lstrip s).

(** [s.split()] without argument: the maximal runs of non-blank
    characters, in order.  [cur] is the run being read. *)
Fixpoint split_go (cur : string) (s : string) : list string :=
  match s with
  | EmptyString => if is_empty cur then [] else [cur]
  | String c s' =>
      if is_space c
      then (if is_empty cur then split_go EmptyString s'
            else cur :: split_go EmptyString s')
      else split_go (cur +:+ String c EmptyString) s'
  end.

Definition split (s : string) : list string := split_go EmptyString s.

(** [sep.join(l)] *)
Fixpoint join (sep : string) (l : list string) : string :=
  match l with
  | [] => EmptyString
  | [x] => x
  | x :: l' => x +:+ sep +:+ join sep l'
  end.

(** [s[:n]] for [n >= 0] *)
Fixpoint take (n : nat) (s : string) : string :=
  match n, s with
  | S n', String c s' => String c (take n' s')
  | _, _ => EmptyString
  end.

(** [s[:-n]] for [n > 0]: all but the last [n] characters, nothing when
    the string is shorter. *)
Definition drop_last (n : nat) (s : string) : string :=
  take (String.length s - n) s.

(** [int(s)] on the text of a captured group: blanks around the digits
    are skipped, anything but a non-empty run of digits is refused. *)
Fixpoint digits_value (acc : Z) (s : string) : option Z :=
  match s with
  | EmptyString => Some acc
  | String c s' =>
      if is_digit c then digits_value (10 * acc + digit_val c) s' else None
  end.

Definition to_int (s : string) : option Z :=
  match strip s with
  | EmptyString => None
  | t => digits_value 0 t
  end.

(** [%02d] and [%04d] of a number that has at most that many digits. *)
Definition fmt02 (n : Z) : string :=
  String (digit_char (n / 10 mod 10)) (String (digit_char (n mod 10)) EmptyString).

Definition fmt04 (n : Z) : string :=
  String (digit_char (n / 1000 mod 10))
    (String (digit_char (n / 100 mod 10)) (fmt02 n)).

End Str.


(** ** The regular expressions of [time.strptime]

    [_strptime] turns a format into a regular expression, compiles it with
    [IGNORECASE] and calls [match] on the data: the first match in the
    priority order of a backtracking matcher is taken.  [rmatch] lists all
    matches of a prefix of the data in that order, each with the text of
    its groups, the text matched and the rest of the data. *)

Inductive group := GY | Gm | Gd | GH | GM | GS.

Global Instance group_eq_dec : EqDecision group.
Proof. solve_decision. Defined.

(** A set of characters: [\d], [\s], a range [[a-b]], or one character
    (matched without regard to case, as the pattern is compiled). *)
Inductive cset :=
| CDigit
| CSpace
| CRange (lo hi : ascii)
| CLit (c : ascii).

Definition cset_mem (cs : cset) (x : ascii) : bool :=
  match cs with
  | CDigit => Str.is_digit x
  | CSpace => Str.is_space x
  | CRange lo hi => Str.in_range lo hi x
  | CLit c => bool_decide (Str.lower_char x = Str.lower_char c)
  end.

Inductive regex :=
| REps
| RSet (p : cset)
| RPlus (p : cset)
| RSeq (r1 r2 : regex)
| RAlt (r1 r2 : regex)
| RGroup (g : group) (r : regex).

Definition captures := list (group * string).

(** [p+], greedy: the longest run first. *)
Fixpoint rplus (p : cset) (s : string) : list (string * string) :=
  match s with
  | EmptyString => []
  | String c s' =>
      if cset_mem p c
      then map (λ mr, (String c mr.1, mr.2)) (rplus p s') ++ [(String c EmptyString, s')]
      else []
  end.

Fixpoint rmatch (r : regex) (s : string) : list (captures * string * string) :=
  match r with
  | REps => [([], EmptyString, s)]
  | RSet p =>
      match s with
      | String c s' => if cset_mem p c then [([], String c EmptyString, s')] else []
      | EmptyString => []
      end
  | RPlus p => map (λ mr, ([], mr.1, mr.2)) (rplus p s)
  | RSeq r1 r2 =>
      x ← rmatch r1 s;
      y ← rmatch r2 x.2;
      [(x.1.1 ++ y.1.1, x.1.2 +:+ y.1.2, y.2)]
  | RAlt r1 r2 => rmatch r1 s ++ rmatch r2 s
  | RGroup g r => map (λ x, (x.1.1 ++ [(g, x.1.2)], x.1.2, x.2)) (rmatch r s)
  end.

Module TimeRE.
Import Str.

Definition digit : regex := RSet CDigit.
Definition range (lo hi : ascii) : regex := RSet (CRange lo hi).
Definition lit (c : ascii) : regex := RSet (CLit c).
Definition alt (rs : list regex) (last : regex) : regex := foldr RAlt last rs.

(** The entries of [TimeRE.__init__] for the directives the formats of
    this module use. *)
Definition re_d : regex :=
  RGroup Gd (alt [RSeq (lit "3") (range "0" "1"); RSeq (range "1" "2") digit;
                  RSeq (lit "0") (range "1" "9"); range "1" "9"]
                 (RSeq (lit " ") (range "1" "9"))).
Definition re_H : regex :=
  RGroup GH (alt [RSeq (lit "2") (range "0" "3"); RSeq (range "0" "1") digit] digit).
Definition re_m : regex :=
  RGroup Gm (alt [RSeq (lit "1") (range "0" "2"); RSeq (lit "0") (range "1" "9")]
                 (range "1" "9")).
Definition re_M : regex :=
  RGroup GM (alt [RSeq (range "0" "5") digit] digit).
Definition re_S : regex :=
  RGroup GS (alt [RSeq (lit "6") (range "0" "1"); RSeq (range "0" "5") digit] digit).
Definition re_Y : regex :=
  RGroup GY (RSeq digit (RSeq digit (RSeq digit digit))).

Definition directive (d : ascii) : option regex :=
  if bool_decide (d = "d"%char) then Some re_d
  else if bool_decide (d = "H"%char) then Some re_H
  else if bool_decide (d = "m"%char) then Some re_m
  else if bool_decide (d = "M"%char) then Some re_M
  else if bool_decide (d = "S"%char) then Some re_S
  else if bool_decide (d = "Y"%char) then Some re_Y
  else if bool_decide (d = "%"%char) then Some (lit "%")
  else None.

(** [TimeRE.pattern]: every run of blanks of the format becomes [\s+],
    every directive its expression, every other character itself.
    [blank] tells that the character before was a blank.  A directive
    outside the table is a bad directive. *)
Fixpoint pattern_go (blank : bool) (fmt : string) : option regex :=
  match fmt with
  | EmptyString => Some REps
  | String c rest =>
      if bool_decide (c = "%"%char) then
        match rest with
        | String d rest' =>
            r ← directive d; rs ← pattern_go false rest'; Some (RSeq r rs)
        | EmptyString => None
        end
      else if is_space c then
        rs ← pattern_go true rest;
        Some (if blank then rs else RSeq (RPlus CSpace) rs)
      else
        rs ← pattern_go false rest; Some (RSeq (lit c) rs)
  end.

Definition pattern (fmt : string) : option regex := pattern_go false fmt.
End TimeRE.

(** ** Native timestamps: [datetime.datetime] without time zone *)

Record datetime := mk_datetime {
  year : Z; month : Z; day : Z;
  hour : Z; minute : Z; second : Z;
  microsecond : Z
}.

Global Instance datetime_eq_dec : EqDecision datetime.
Proof. solve_decision. Defined.

Definition is_leap (y : Z) : bool :=
  ((y mod 4 =? 0) && (negb (y mod 100 =? 0) || (y mod 400 =? 0)))%Z.

Definition days_in_month (y m : Z) : Z :=
  (if m =? 2 then (if is_leap y then 29 else 28)
   else if (m =? 4) || (m =? 6) || (m =? 9) || (m =? 11) then 30
   else 31)%Z.

(** The check of [datetime.date(y, m, d)]: years 1 to 9999, a month of the
    year, a day of that month. *)
Definition valid_date (y m d : Z) : bool :=
  ((1 <=? y) && (y <=? 9999) && (1 <=? m) && (m <=? 12)
   && (1 <=? d) && (d <=? days_in_month y m))%Z.

Definition valid_time (H M S : Z) : bool :=
  ((0 <=? H) && (H <=? 23) && (0 <=? M) && (M <=? 59)
   && (0 <=? S) && (S <=? 59))%Z.

(** [datetime(y, m, d, H, M, S)]: a [ValueError] for a field out of range,
    microseconds default to zero. *)
Definition datetime_new (y m d H M S : Z) : result datetime :=
  if valid_date y m d && valid_time H M S
  then Ok (mk_datetime y m d H M S 0)
  else Raise ValueError.

(** The first six fields of the [struct_time] that [time.strptime] returns;
    [core.strptime] slices the other three off. *)
Record struct_time := mk_tm {
  tm_year : Z; tm_mon : Z; tm_mday : Z;
  tm_hour : Z; tm_min : Z; tm_sec : Z
}.

Fixpoint found_get (g : group) (found : captures) : option string :=
  match found with
  | [] => None
  | (g', s) :: found' => if decide (g' = g) then Some s else found_get g found'
  end.

(** The value of a group of the match, or the default of a field the
    format does not have. *)
Definition found_int (g : group) (default : Z) (found : captures) : result Z :=
  match found_get g found with
  | None => Ok default
  | Some s => match Str.to_int s with Some n => Ok n | None => Raise ValueError end
  end.

(** [time.strptime(data, fmt)]: [ValueError] when the format has a bad
    directive, when the data does not match, when data remains after the
    match, and when the day does not exist (the day of the year is
    computed from a [datetime.date]). *)
Definition time_strptime (data fmt : string) : result struct_time :=
  match TimeRE.pattern fmt with
  | None => Raise ValueError
  | Some re =>
      match rmatch re data with
      | [] => Raise ValueError
      | (found, _, rest) :: _ =>
          if negb (Str.is_empty rest) then Raise ValueError
          else
            y ← found_int GY 1900 found;
            m ← found_int Gm 1 found;
            d ← found_int Gd 1 found;
            H ← found_int GH 0 found;
            M ← found_int GM 0 found;
            S ← found_int GS 0 found;
            if valid_date y m d then Ok (mk_tm y m d H M S) else Raise ValueError
      end
  end.

(** [datetime.strftime(fmt)] of Python 2, which refuses years before 1900.
    The conversions are those of the C library: four digits for the year
    (it is at most 9999), two for the other fields; a conversion outside
    the table is left as it is. *)
Definition strftime_conv (d : datetime) (x : ascii) : string :=
  if bool_decide (x = "Y"%char) then Str.fmt04 (year d)
  else if bool_decide (x = "m"%char) then Str.fmt02 (month d)
  else if bool_decide (x = "d"%char) then Str.fmt02 (day d)
  else if bool_decide (x = "H"%char) then Str.fmt02 (hour d)
  else if bool_decide (x = "M"%char) then Str.fmt02 (minute d)
  else if bool_decide (x = "S"%char) then Str.fmt02 (second d)
  else if bool_decide (x = "%"%char) then "%"
  else String "%" (String x EmptyString).

Fixpoint strftime_go (d : datetime) (fmt : string) : string :=
  match fmt with
  | EmptyString => EmptyString
  | String c rest =>
      if bool_decide (c = "%"%char) then
        match rest with
        | String x rest' => strftime_conv d x +:+ strftime_go d rest'
        | EmptyString => "%"
        end
      else String c (strftime_go d rest)
  end.

Definition strftime (d : datetime) (fmt : string) : result string :=
  if (year d <? 1900)%Z then Raise ValueError else Ok (strftime_go d fmt).

(** [datetime.isoformat()]: ["%04d-%02d-%02dT%02d:%02d:%02d"], and the
    microseconds after a dot when they are not zero. *)
Definition fmt06 (n : Z) : string :=
  (Str.fmt02 (n / 10000) +:+ Str.fmt02 (n / 100) +:+ Str.fmt02 n)%Z.

Definition isoformat (d : datetime) : string :=
  Str.fmt04 (year d) +:+ "-" +:+ Str.fmt02 (month d) +:+ "-" +:+ Str.fmt02 (day d)
  +:+ "T" +:+ Str.fmt02 (hour d) +:+ ":" +:+ Str.fmt02 (minute d)
  +:+ ":" +:+ Str.fmt02 (second d)
  +:+ (if (microsecond d =? 0)%Z then "" else "." +:+ fmt06 (microsecond d)).

(** ** Python values *)

Inductive value :=
| VNone
| VBool (b : bool)
| VInt (n : Z)
| VStr (s : string)
| VDatetime (d : datetime)
| VList (l : list value)
| VDict (d : gmap string value).

(** The truth value of an object: [None], [False], zero and the empty
    string, list and dictionary are false; a [datetime] is always true. *)
Definition truthy (v : value) : bool :=
  match v with
  | VNone => false
  | VBool b => b
  | VInt n => negb (n =? 0)%Z
  | VStr s => negb (Str.is_empty s)
  | VDatetime _ => true
  | VList l => match l with [] => false | _ => true end
  | VDict d => match map_to_list d with [] => false | _ => true end
  end.

(** [isinstance(v, datetime)] *)
Definition is_datetime (v : value) : bool :=
  match v with VDatetime _ => true | _ => false end.

(** ** The date codec of [core.py] *)

Definition GITHUB_TIMEZONE : string := "-0700".
Definition GITHUB_DATE_FORMAT : string := "%Y/%m/%d %H:%M:%S".
Definition COMMIT_DATE_FORMAT : string := "%Y-%m-%dT%H:%M:%S".
Definition COMMIT_TIMEZONE : string := "-07:00".

Definition strptime (s fmt : string) : result datetime :=
  t ← time_strptime s fmt;
  datetime_new (tm_year t) (tm_mon t) (tm_mday t) (tm_hour t) (tm_min t) (tm_sec t).

(** Only a string has [strip]: any other object gives an [AttributeError]. *)
Definition ghdate_to_datetime (github_date : value) : result datetime :=
  match github_date with
  | VStr s =>
      let date_without_tz := Str.join " " (take 2 (Str.split (Str.strip s))) in
      strptime date_without_tz GITHUB_DATE_FORMAT
  | _ => Raise AttributeError
  end.

Definition datetime_to_ghdate (datetime_ : datetime) : result string :=
  date_without_tz ← strftime datetime_ GITHUB_DATE_FORMAT;
  Ok (Str.join " " [date_without_tz; GITHUB_TIMEZONE]).

(** A slice of anything but a string is no string, and [time.strptime]
    refuses it with a [TypeError], as does slicing an object without
    slices. *)
Definition commitdate_to_datetime (commit_date : value) : result datetime :=
  match commit_date with
  | VStr s => strptime (Str.drop_last 6 s) COMMIT_DATE_FORMAT
  | _ => Raise TypeError
  end.

Definition datetime_to_commitdate (datetime_ : datetime) : result string :=
  date_without_tz ← strftime datetime_ COMMIT_DATE_FORMAT;
  Ok (Str.join "" [date_without_tz; COMMIT_TIMEZONE]).

Definition userdate_to_datetime (user_date : value) : result datetime :=
  match ghdate_to_datetime user_date with
  | Raise ValueError =>
      match user_date with
      | VStr s => strptime s "%Y-%m-%dT%H:%M:%SZ"
      | _ => Raise TypeError
      end
  | r => r
  end.

Definition isodate_to_datetime (iso_date : value) : result datetime :=
  match iso_date with
  | VStr s => strptime (Str.drop_last 1 s) COMMIT_DATE_FORMAT
  | _ => Raise TypeError
  end.

Definition datetime_to_isodate (datetime_ : datetime) : result string :=
  Ok (isoformat datetime_ +:+ "Z").

(** ** Attribute descriptors *)

Record converter := mk_converter {
  conv_to : value → result datetime;
  conv_from : datetime → result string
}.

(** [DateAttribute.converter_for_format] *)
Definition converter_for_format : gmap string converter :=
  {[ "github" := mk_converter ghdate_to_datetime datetime_to_ghdate;
     "commit" := mk_converter commitdate_to_datetime datetime_to_commitdate;
     "user" := mk_converter userdate_to_datetime datetime_to_ghdate;
     "iso" := mk_converter isodate_to_datetime datetime_to_isodate ]}.

(** The two classes of descriptors: [Attribute(help)] and
    [DateAttribute(help, format=...)], whose format is ["github"] when none
    is given. *)
Inductive attribute :=
| Attribute (help : string)
| DateAttribute (help : string) (format : string).

Definition default_format : string := "github".

Definition new_DateAttribute (help : string) (format : option string) : attribute :=
  DateAttribute help (default default_format format).

(** [attr.to_python(value)].  An unknown format name is a [KeyError] of
    the table of converters. *)
Definition to_python (attr : attribute) (v : value) : result value :=
  match attr with
  | Attribute _ => Ok v
  | DateAttribute _ format =>
      if truthy v && negb (is_datetime v) then
        match converter_for_format !! format with
        | Some c => d ← conv_to c v; Ok (VDatetime d)
        | None => Raise KeyError
        end
      else Ok v
  end.

(** [attr.from_python(value)]; for [Attribute] it is [to_python] itself. *)
Definition from_python (attr : attribute) (v : value) : result value :=
  match attr with
  | Attribute _ => Ok v
  | DateAttribute _ format =>
      match v with
      | VDatetime d =>
          if truthy v then
            match converter_for_format !! format with
            | Some c => s ← conv_from c d; Ok (VStr s)
            | None => Raise KeyError
            end
          else Ok v
      | _ => Ok v
      end
  end.

(** ** Record types: the metaclass [BaseDataType]

    An instance is its dictionary, [vars(self)]: a new object has an empty
    one.  The class keeps its schema under the name [_meta], and the
    object keeps its machinery under [__class__], [__dict__] and
    [__weakref__]; these four names are no fields, and what the code does
    with them is written out below.  Values are those of a decoded
    response and native timestamps, each an object of its own. *)

(** A member of a class body: a descriptor or anything else. *)
Inductive member :=
| MAttribute (a : attribute)
| MOther (v : value).

Record record_type := mk_record_type {
  _meta : gmap string attribute;     (* the schema *)
  cls_dict : gmap string member      (* the other attributes of the class *)
}.

(** [BaseDataType.__new__]: the descriptors of the class body make the
    schema, and [None] takes their place in the class. *)
Definition BaseDataType_new (attrs : gmap string member) : record_type :=
  {| _meta := omap (λ m, match m with MAttribute a => Some a | MOther _ => None end) attrs;
     cls_dict := (λ m, match m with MAttribute _ => MOther VNone | MOther v => MOther v end)
                   <$> attrs |}.

(** The attribute [_meta] of the class: the schema, which
    [attrs["_meta"] = _meta] puts there; but [None], when the schema
    declares a field of that very name, since [attrs.update] comes after
    it. *)
Definition class_meta (cls : record_type) : option (gmap string attribute) :=
  match _meta cls !! "_meta" with
  | Some _ => None
  | None => Some (_meta cls)
  end.

(** The names that are no fields of an instance. *)
Definition machinery : list string :=
  ["_meta"; "__class__"; "__dict__"; "__weakref__"].

Definition machinery_name (s : string) : bool := bool_decide (s ∈ machinery).

(** The names that no entry of a construction can have: those of the
    machinery and [self], which the call of the constructor binds. *)
Definition reserved_name (s : string) : bool :=
  bool_decide (s = "self") || machinery_name s.

(** A name that a field of a record can have: not [_meta], where the
    class keeps its schema, and not one of the names between double
    underscores, which Python reads itself. *)
Definition field_name (s : string) : bool :=
  negb (bool_decide (s = "_meta")) && negb (String.prefix "__" s).

(** A class whose body is made of fields: it declares nothing, and holds
    nothing, under a name of the machinery of Python.  The model of an
    instance is that of such a class. *)
Definition plain_class (cls : record_type) : Prop :=
  ∀ k, is_Some (_meta cls !! k) ∨ is_Some (cls_dict cls !! k) → field_name k = true.

(** [setattr(self, name, value)] on an instance.  [__class__] takes a
    class only and [__dict__] a dictionary only, which then is the
    dictionary of the instance; [__weakref__] cannot be written.  Any
    other name is a key of the dictionary. *)
Definition setattr (self : gmap string value) (name : string) (v : value)
  : result (gmap string value) :=
  if bool_decide (name = "__class__") then Raise TypeError
  else if bool_decide (name = "__weakref__") then Raise AttributeError
  else if bool_decide (name = "__dict__") then
    match v with VDict d => Ok d | _ => Raise TypeError end
  else Ok (<[name := v]> self).

(** What [self._meta.get(attr_name)] gives: a descriptor of the schema,
    or a value. *)
Inductive looked_up :=
| Descriptor (a : attribute)
| Value (v : value).

(** [self._meta.get(attr_name)].  [self._meta] is the attribute of the
    instance when its dictionary has one, else that of the class; only a
    dictionary has [get]. *)
Definition meta_get (cls : record_type) (self : gmap string value)
    (attr_name : string) : result looked_up :=
  match self !! "_meta" with
  | Some (VDict d) => Ok (Value (default VNone (d !! attr_name)))
  | Some _ => Raise AttributeError
  | None =>
      match class_meta cls with
      | Some schema =>
          Ok (match schema !! attr_name with
              | Some a => Descriptor a
              | None => Value VNone
              end)
      | None => Raise AttributeError
      end
  end.

(** One turn of the loop of the generated [__init__].  A descriptor is
    true; a value that is true has no [to_python]. *)
Definition constructor_step (cls : record_type) (self : gmap string value)
    (attr_name : string) (attr_value : value) : result (gmap string value) :=
  attr ← meta_get cls self attr_name;
  match attr with
  | Descriptor a => v ← to_python a attr_value; setattr self attr_name v
  | Value x =>
      if truthy x then Raise AttributeError
      else setattr self attr_name attr_value
  end.

(** The loop of the generated [__init__] over [kwargs.items()], on the
    instance dictionary [self]. *)
Fixpoint constructor_go (cls : record_type) (self : gmap string value)
    (items : list (string * value)) : result (gmap string value) :=
  match items with
  | [] => Ok self
  | (attr_name, attr_value) :: rest =>
      self' ← constructor_step cls self attr_name attr_value;
      constructor_go cls self' rest
  end.

(** [cls( **kwargs)], the call of [constructor(self, **kwargs)] on a new
    object, whose dictionary is empty.  [items] is [kwargs.items()], the
    entries of the mapping in the order the dictionary gives them.  The
    call binds [self] to the object, and a keyword of that name is a
    [TypeError] of the call. *)
Definition constructor (cls : record_type) (items : list (string * value))
  : result (gmap string value) :=
  if bool_decide ("self" ∈ items.*1) then Raise TypeError
  else constructor_go cls ∅ items.

Definition not_empty (e : string * value) : bool :=
  match e.2 with VNone => false | _ => true end.

(** The generated [__iter__]: the entries of [vars(self)] that are not
    [None]. *)
Definition iterate (self : gmap string value) : list (string * value) :=
  List.filter not_empty (map_to_list self).

(** Reading a field of an instance: its own dictionary, then the class,
    where a declared field is [None]. *)
Definition getattr (cls : record_type) (self : gmap string value) (name : string)
  : result value :=
  match self !! name with
  | Some v => Ok v
  | None =>
      match cls_dict cls !! name with
      | Some (MOther v) => Ok v
      | _ => Raise AttributeError
      end
  end.

(** ** The transport and the command dispatcher *)

Inductive verb := GET | POST | PUT | DELETE.

(** One call of a method of the transport object:
    [request.verb(domain, command, *args, **fields)]. *)
Record call := mk_call {
  call_verb : verb;
  call_domain : string;
  call_command : value;
  call_args : list value;
  call_fields : gmap string value
}.

(** The session object held by a command group. *)
Record session := mk_session {
  access_token : value;
  api_token : value
}.

Record command := mk_command {
  request : session;
  domain : string
}.

(** An operation runs on the log of the calls made so far and extends
    it. *)
Definition op (A : Type) : Type := list call → result A * list call.

Definition op_ret {A} (a : A) : op A := λ log, (Ok a, log).
Definition op_raise {A} (e : exn) : op A := λ log, (Raise e, log).
Definition op_bind {A B} (m : op A) (k : A → op B) : op B := λ log,
  match m log with
  | (Ok a, log') => k a log'
  | (Raise e, log') => (Raise e, log')
  end.

(** [obj[key]] *)
Definition index_list {A} (l : list A) (i : Z) : result A :=
  let n := Z.of_nat (length l) in
  let j := (if i <? 0 then i + n else i)%Z in
  if (j <? 0)%Z then Raise IndexError
  else match l !! Z.to_nat j with Some x => Ok x | None => Raise IndexError end.

Definition getitem (obj key : value) : result value :=
  match obj with
  | VDict d =>
      match key with
      | VStr k => match d !! k with Some v => Ok v | None => Raise KeyError end
      | VList _ | VDict _ => Raise TypeError
      | _ => Raise KeyError
      end
  | VList l =>
      match key with
      | VInt i => index_list l i
      | VBool b => index_list l (if b then 1 else 0)
      | _ => Raise TypeError
      end
  | VStr s =>
      match key with
      | VInt i => c ← index_list (list_ascii_of_string s) i; Ok (VStr (String c EmptyString))
      | VBool b =>
          c ← index_list (list_ascii_of_string s) (if b then 1 else 0);
          Ok (VStr (String c EmptyString))
      | _ => Raise TypeError
      end
  | _ => Raise TypeError
  end.

(** [KeyError] and [IndexError] are the subclasses of [LookupError]. *)
Definition is_lookup_error (e : exn) : bool :=
  match e with KeyError | IndexError => true | _ => false end.

(** [**post_data] needs a mapping. *)
Definition as_mapping (v : value) : result (gmap string value) :=
  match v with VDict d => Ok d | _ => Raise TypeError end.

(** [method.upper()]: only a string has it. *)
Definition method_upper (v : value) : result string :=
  match v with VStr s => Ok (Str.upper s) | _ => Raise AttributeError end.

(** The three keyword arguments that [make_request] reads:
    [kwargs.get("filter")], [kwargs.get("post_data") or {}] and
    [kwargs.get("method", "GET")]. *)
Definition kw_filter (kwargs : gmap string value) : value :=
  default VNone (kwargs !! "filter").

Definition kw_post_data (kwargs : gmap string value) : value :=
  match kwargs !! "post_data" with
  | Some v => if truthy v then v else VDict ∅
  | None => VDict ∅
  end.

Definition kw_method (kwargs : gmap string value) : value :=
  default (VStr "GET") (kwargs !! "method").

Section Dispatch.

(** What the transport answers to a call, given the calls before it. *)
Variable respond : list call → call → result value.

(** The outcome of a call [c] made on the transport after [log]. *)
Definition issues (c : call) : op value := λ log, (respond log c, log ++ [c]).

Definition transport (v : verb) (self : command) (cmd : value)
    (args : list value) (fields : gmap string value) : op value :=
  issues (mk_call v (domain self) cmd args fields).

Definition lift {A} (r : result A) : op A := λ log, (r, log).

(** [GithubCommand.make_request(self, command, *args, **kwargs)]: first
    the call that gives [response], *)
Definition make_request_response (self : command) (cmd : value)
    (args : list value) (kwargs : gmap string value) : op value :=
  let post_data := kw_post_data kwargs in
  let method := kw_method kwargs in
  op_bind (lift (method_upper method)) (λ m,
    if (bool_decide (m = "POST") || bool_decide (m = "GET")) && truthy post_data then
      op_bind (lift (as_mapping post_data)) (transport POST self cmd args)
    else if bool_decide (m = "PUT") then
      op_bind (lift (as_mapping post_data)) (transport PUT self cmd args)
    else if bool_decide (m = "DELETE") then
      op_bind (lift (as_mapping post_data)) (transport DELETE self cmd args)
    else transport GET self cmd args ∅).

(** then the filter. *)
Definition make_request (self : command) (cmd : value) (args : list value)
    (kwargs : gmap string value) : op value :=
  let filter := kw_filter kwargs in
  op_bind (make_request_response self cmd args kwargs) (λ response,
    if truthy filter then lift (getitem response filter)
    else op_ret response).

End Dispatch.

(** ** Authentication guards *)

(** A method of a command group: its name, its documentation and what a
    call does. *)
Record pyfunc := mk_pyfunc {
  func_name : string;
  func_doc : option string;
  func_requires_auth : bool;
  func_enhanced_by_auth : bool;
  func_call : command → list value → gmap string value → op value
}.

Module Repr.
Import Str.

Fixpoint contains (x : ascii) (s : string) : bool :=
  match s with
  | EmptyString => false
  | String c s' => bool_decide (c = x) || contains x s'
  end.

(** The double quote. *)
Definition dquote : ascii := ascii_of_nat 34.

Definition hex_digit (n : nat) : ascii :=
  if n <? 10 then ascii_of_nat (48 + n) else ascii_of_nat (87 + n).

Definition escape (quote c : ascii) : string :=
  if bool_decide (c = quote) || bool_decide (c = "\"%char)
  then String "\" (String c EmptyString)
  else if bool_decide (c = "009"%char) then "\t"
  else if bool_decide (c = "010"%char) then "\n"
  else if bool_decide (c = "013"%char) then "\r"
  else if (code c <? 32) || (127 <=? code c)
  then String "\" (String "x" (String (hex_digit (code c / 16))
                                 (String (hex_digit (code c mod 16)) EmptyString)))
  else String c EmptyString.

Fixpoint escape_all (quote : ascii) (s : string) : string :=
  match s with
  | EmptyString => EmptyString
  | String c s' => escape quote c +:+ escape_all quote s'
  end.

(** [repr(s)] of a byte string: single quotes, unless the string has a
    single quote and no double one. *)
Definition repr (s : string) : string :=
  let quote : ascii :=
    if contains "'" s && negb (contains dquote s) then dquote else "'"%char in
  String quote (escape_all quote s) +:+ String quote EmptyString.
End Repr.

(** The inner function of [requires_auth]. *)
Definition wrapper (f : pyfunc) (self : command) (args : list value)
    (kwargs : gmap string value) : op value :=
  if negb (truthy (access_token (request self)))
     && negb (truthy (api_token (request self)))
  then op_raise (AuthError (Repr.repr (func_name f) +:+ " requires an authenticated session"))
  else func_call f self args kwargs.

Definition newline : string := String "010" EmptyString.

(** [requires_auth(f)].  Adding the warning to a missing docstring is a
    [TypeError]. *)
Definition requires_auth (f : pyfunc) : result pyfunc :=
  match func_doc f with
  | None => Raise TypeError
  | Some doc =>
      Ok {| func_name := func_name f;
            func_doc := Some (doc +:+ newline +:+ ".. warning:: Requires authentication");
            func_requires_auth := true;
            func_enhanced_by_auth := false;
            func_call := wrapper f |}
  end.

(** [enhanced_by_auth(f)]: the function itself, marked. *)
Definition enhanced_by_auth (f : pyfunc) : result pyfunc :=
  match func_doc f with
  | None => Raise TypeError
  | Some doc =>
      Ok {| func_name := func_name f;
            func_doc := Some (doc +:+ newline
                              +:+ ".. note:: This call is enhanced with authentication");
            func_requires_auth := func_requires_auth f;
            func_enhanced_by_auth := true;
            func_call := func_call f |}
  end.

(** ** The wire formats of dates

    [github] is ["YYYY/MM/DD HH:MM:SS ±HHMM"], [commit] is
    ["YYYY-MM-DDTHH:MM:SS±HH:MM"], [iso] is ["YYYY-MM-DDTHH:MM:SSZ"] and
    [user] is either [github] or [iso].  In a template [9] stands for a
    digit, [+] for a sign and every other character for itself. *)

Definition shape_char (t c : ascii) : bool :=
  if bool_decide (t = "9"%char) then Str.is_digit c
  else if bool_decide (t = "+"%char)
       then bool_decide (c = "+"%char) || bool_decide (c = "-"%char)
       else bool_decide (c = t).

Fixpoint has_shape (tpl s : string) : bool :=
  match tpl, s with
  | EmptyString, EmptyString => true
  | String t tpl', String c s' => shape_char t c && has_shape tpl' s'
  | _, _ => false
  end.

Definition github_shape : string := "9999/99/99 99:99:99 +9999".
Definition commit_shape : string := "9999-99-99T99:99:99+99:99".
Definition iso_shape : string := "9999-99-99T99:99:99Z".

(** The number written by the [len] digits at position [pos]. *)
Definition num_at (pos len : nat) (s : string) : Z :=
  default 0%Z (Str.digits_value 0 (substring pos len s)).

(** The date and the time are at the same places in the three formats;
    they have to exist. *)
Definition denotes_datetime (s : string) : bool :=
  valid_date (num_at 0 4 s) (num_at 5 2 s) (num_at 8 2 s)
  && valid_time (num_at 11 2 s) (num_at 14 2 s) (num_at 17 2 s).

(** [strftime] of the Python 2 runtime, for which the module is written,
    formats the years from 1900 on. *)
Definition strftime_year (s : string) : bool := (1900 <=? num_at 0 4 s)%Z.

Definition valid_ghdate (s : string) : bool :=
  has_shape github_shape s && denotes_datetime s && strftime_year s.

Definition valid_commitdate (s : string) : bool :=
  has_shape commit_shape s && denotes_datetime s && strftime_year s.

Definition valid_isodate (s : string) : bool :=
  has_shape iso_shape s && denotes_datetime s.

Definition valid_userdate (s : string) : bool :=
  (has_shape github_shape s || has_shape iso_shape s)
  && denotes_datetime s && strftime_year s.

(** The date and time of a wire text, which are its first 19 characters. *)
Definition date_time_prefix (s : string) : string := Str.take 19 s.

(** The same date and time written as the [github] format writes them. *)
Definition github_prefix (s : string) : string :=
  substring 0 4 s +:+ "/" +:+ substring 5 2 s +:+ "/" +:+ substring 8 2 s
  +:+ " " +:+ substring 11 8 s.

(** [format(parse(text))] *)
Definition format_parse (parse : value → result datetime)
    (format : datetime → result string) (text : string) : result string :=
  d ← parse (VStr text); format d.

(** A format round-trips when formatting what was parsed gives the text
    back, for every valid text. *)
Definition round_trips (valid : string → bool) (parse : value → result datetime)
    (format : datetime → result string) : Prop :=
  ∀ text, valid text = true → format_parse parse format text = Ok text.

(** A name made of letters, digits and underscores, as the name of a
    function is. *)
Definition plain_char (c : ascii) : bool :=
  Str.in_range "a" "z" c || Str.in_range "A" "Z" c || Str.is_digit c
  || bool_decide (c = "_"%char).

Fixpoint plain_name (s : string) : bool :=
  match s with
  | EmptyString => true
  | String c s' => plain_char c && plain_name s'
  end.

(** ** Notions used to state the properties of the codec *)

(** A string without blanks. *)
Fixpoint nonblank (s : string) : bool :=
  match s with
  | EmptyString => true
  | String c s' => negb (Str.is_space c) && nonblank s'
  end.

(** A string of digits. *)
Fixpoint all_digits (s : string) : bool :=
  match s with
  | EmptyString => true
  | String c s' => Str.is_digit c && all_digits s'
  end.

(** The first match of [r] on [s] has the groups [found], is the text [m]
    and leaves [rest]. *)
Definition hd_match (r : regex) (s : string) (found : captures) (m rest : string) : Prop :=
  ∃ tl, rmatch r s = (found, m, rest) :: tl.

(** The timestamp that the digits of a wire text write. *)
Definition datetime_at (s : string) : datetime :=
  mk_datetime (num_at 0 4 s) (num_at 5 2 s) (num_at 8 2 s)
              (num_at 11 2 s) (num_at 14 2 s) (num_at 17 2 s) 0.

(** A timestamp as the constructor of [datetime] accepts it. *)
Definition datetime_ok (d : datetime) : bool :=
  valid_date (year d) (month d) (day d)
  && valid_time (hour d) (minute d) (second d)
  && (microsecond d =? 0)%Z.

(** ** Sample data *)

Module Sample.

(** A method that answers without a call on the transport. *)
Definition add_key : pyfunc :=
  mk_pyfunc "add_key" (Some "Add a public key") false false
    (λ _ _ _, op_ret (VStr "added")).

Definition anonymous : command := mk_command (mk_session VNone VNone) "user".
Definition with_token : command :=
  mk_command (mk_session VNone (VStr "s3cret")) "user".

(** A transport that answers every call with the same mapping. *)
Definition respond (log : list call) (c : call) : result value :=
  Ok (VDict {[ "items" := VInt 7 ]}).

Definition issues_cmd : command := mk_command (mk_session VNone VNone) "issues".

(** A record type with a date field and a plain one. *)
Definition repository : record_type :=
  BaseDataType_new
    {[ "created_at" := MAttribute (new_DateAttribute "Creation date" None);
       "name" := MAttribute (Attribute "Name") ]}.

(** A record type with a date field in the format of commits. *)
Definition commit : record_type :=
  BaseDataType_new
    {[ "committed_date" := MAttribute (new_DateAttribute "Commit date" (Some "commit"));
       "message" := MAttribute (Attribute "Message") ]}.

Definition repository_kwargs : gmap string value :=
  {[ "created_at" := VStr "2009/05/20 12:30:45 -0700"; "forks" := VInt 3 ]}.

(** The dictionary of the instance that these arguments build. *)
Definition repository_instance : gmap string value :=
  {[ "created_at" := VDatetime (mk_datetime 2009 5 20 12 30 45 0);
     "forks" := VInt 3 ]}.

Definition post_kwargs : gmap string value :=
  {[ "method" := VStr "get"; "post_data" := VDict {[ "title" := VStr "Bug" ]} ]}.

Definition filter_kwargs : gmap string value := {[ "filter" := VStr "items" ]}.

Definition put_kwargs : gmap string value :=
  {[ "method" := VStr "put"; "post_data" := VDict {[ "title" := VStr "Bug" ]} ]}.

Definition delete_kwargs : gmap string value :=
  {[ "method" := VStr "Delete"; "post_data" := VDict ∅ ]}.

(** Post data that is no mapping, with a verb of its own. *)
Definition odd_kwargs : gmap string value :=
  {[ "method" := VStr "patch"; "post_data" := VList [VInt 1] ]}.

End Sample.

(** ** Typed retrieval: [get_value] and [get_values] *)

Section Retrieval.

(** What the transport answers, and the order in which a dictionary
    gives its items. *)
Variable respond : list call → call → result value.
Variable items : gmap string value → list (string * value).

(** [self.make_request( *args, **kwargs)], a call of
    [make_request(self, command, *args, **kwargs)]: the command is the
    first of the positional arguments, or the keyword [command] when
    there is none; given both ways, or not at all, the call is a
    [TypeError], as is a keyword [self]. *)
Definition call_make_request (self : command) (args : list value)
    (kwargs : gmap string value) : op value :=
  match kwargs !! "self" with
  | Some _ => op_raise TypeError
  | None =>
      match args, kwargs !! "command" with
      | [], None => op_raise TypeError
      | [], Some cmd => make_request respond self cmd [] (delete "command" kwargs)
      | cmd :: rest, None => make_request respond self cmd rest kwargs
      | _ :: _, Some _ => op_raise TypeError
      end
  end.

(** [datatype( **dict((str(k), v) for (k, v) in value.iteritems()))]:
    only a dictionary has [iteritems]; its entries are the keywords of
    the call of the constructor. *)
Definition build (datatype : record_type) (v : value)
  : result (gmap string value) :=
  match v with
  | VDict d => constructor datatype (items d)
  | _ => Raise AttributeError
  end.

(** [GithubCommand.get_value(self, *args, **kwargs)], with the keyword
    [datatype] apart: the response, or an instance made of it. *)
Definition get_value (self : command) (args : list value)
    (kwargs : gmap string value) (datatype : option record_type)
  : op (value + gmap string value) :=
  op_bind (call_make_request self args kwargs) (λ v,
    match datatype with
    | Some cls => lift (inst ← build cls v; Ok (inr inst))
    | None => op_ret (inl v)
    end).

(** What a [for] loop over an object goes through: the elements of a
    list, the keys of a dictionary, the characters of a string. *)
Definition iter_values (v : value) : result (list value) :=
  match v with
  | VList l => Ok l
  | VDict d => Ok ((λ e, VStr e.1) <$> items d)
  | VStr s => Ok ((λ c, VStr (String c EmptyString)) <$> list_ascii_of_string s)
  | _ => Raise TypeError
  end.

(** The list comprehension of [get_values]. *)
Fixpoint build_all (datatype : record_type) (l : list value)
  : result (list (gmap string value)) :=
  match l with
  | [] => Ok []
  | v :: l' =>
      inst ← build datatype v;
      insts ← build_all datatype l';
      Ok (inst :: insts)
  end.

(** [GithubCommand.get_values(self, *args, **kwargs)] *)
Definition get_values (self : command) (args : list value)
    (kwargs : gmap string value) (datatype : option record_type)
  : op (value + list (gmap string value)) :=
  op_bind (call_make_request self args kwargs) (λ values,
    match datatype with
    | Some cls =>
        lift (l ← iter_values values; insts ← build_all cls l; Ok (inr insts))
    | None => op_ret (inl values)
    end).

End Retrieval.

(** ** Documentation of record types: [doc_generator] *)

Definition help_of (attr : attribute) : string :=
  match attr with
  | Attribute help => help
  | DateAttribute help _ => help
  end.

(** The inner function [bullet]. *)
Definition bullet (title text : string) : string :=
  ".. attribute:: " +:+ title +:+ newline +:+ newline +:+ "   " +:+ text +:+ newline.

(** [doc_generator(docstring, attributes)]; [attributes] is
    [attributes.items()]. *)
Definition doc_generator (docstring : option string)
    (attributes : list (string * attribute)) : string :=
  let docstring := default EmptyString docstring in
  let b := Str.join newline ((λ e, bullet e.1 (help_of e.2)) <$> attributes) in
  Str.join (newline +:+ newline) [docstring; b].

(** ** [repr_string] *)

Section Runtime.

(** Whether the interpreter is Python 3, and which byte strings its
    UTF-8 decoder takes. *)
Variable PY3K : bool.
Variable decodes : string → bool.

(** [repr_string(string)].  [str.decode] raises a [UnicodeDecodeError],
    which is a [ValueError]; what it returns is dropped. *)
Definition repr_string (string : String.string) : result String.string :=
  let string :=
    if 20 <? String.length string
    then Str.take 17 string +:+ "..."
    else string in
  if negb PY3K && negb (decodes string) then Raise ValueError else Ok string.

End Runtime.

(** ** More notions used to state properties *)

(** A string of blanks. *)
Fixpoint all_blank (s : string) : bool :=
  match s with
  | EmptyString => true
  | String c s' => Str.is_space c && all_blank s'
  end.

(** The date and the time as [strftime] writes them for the Github
    format. *)
Definition github_date (d : datetime) : string :=
  Str.fmt04 (year d) +:+ "/" +:+ Str.fmt02 (month d) +:+ "/" +:+ Str.fmt02 (day d).

Definition clock (d : datetime) : string :=
  Str.fmt02 (hour d) +:+ ":" +:+ Str.fmt02 (minute d) +:+ ":" +:+ Str.fmt02 (second d).

(** A timestamp with its microseconds set to zero. *)
Definition whole_second (d : datetime) : datetime :=
  mk_datetime (year d) (month d) (day d) (hour d) (minute d) (second d) 0.

(** The formats of [DateAttribute.converter_for_format]. *)
Definition known_formats : list string := ["github"; "commit"; "user"; "iso"].

(** One string holds another. *)
Definition holds (s part : string) : Prop :=
  ∃ before after, s = before +:+ part +:+ after.

(** ** More sample data *)

Module Sample2.

(** A transport that answers every call with a repository and a list of
    two. *)
Definition respond (log : list call) (c : call) : result value :=
  Ok (VDict {[ "repository" := VDict Sample.repository_kwargs;
               "repositories" := VList [VDict Sample.repository_kwargs; VDict ∅] ]}).

Definition show_kwargs : gmap string value := {[ "filter" := VStr "repository" ]}.
Definition list_kwargs : gmap string value := {[ "filter" := VStr "repositories" ]}.

Definition show_call : call := mk_call GET "issues" (VStr "show") [] ∅.

End Sample2.

(** * Properties *)

(** ** Authentication guards *)

Section AuthGuard.

Variables (f g : pyfunc).
Hypothesis guarded : requires_auth f = Ok g.

Lemma guarded_call : func_call g = wrapper f.
Proof.
  unfold requires_auth in guarded.
  destruct (func_doc f); [|discriminate].
  injection guarded as <-. reflexivity.
Qed.

Lemma guarded_marks : func_name g = func_name f ∧ func_requires_auth g = true.
Proof.
  unfold requires_auth in guarded.
  destruct (func_doc f); [|discriminate].
  injection guarded as <-. split; reflexivity.
Qed.

End AuthGuard.

Lemma wrapper_refuses f self args kwargs log :
  truthy (access_token (request self)) = false →
  truthy (api_token (request self)) = false →
  wrapper f self args kwargs log
  = (Raise (AuthError (Repr.repr (func_name f) +:+ " requires an authenticated session")),
     log).
Proof. intros Ha Hb. unfold wrapper. rewrite Ha, Hb. reflexivity. Qed.

Lemma wrapper_delegates f self args kwargs :
  truthy (access_token (request self)) = true
  ∨ truthy (api_token (request self)) = true →
  wrapper f self args kwargs = func_call f self args kwargs.
Proof.
  intros H. unfold wrapper.
  destruct H as [-> | ->]; simpl; [reflexivity|].
  rewrite andb_false_r. reflexivity.
Qed.

Lemma escape_plain q c :
  plain_char c = true → q = "'"%char ∨ q = Repr.dquote →
  Repr.escape q c = String c EmptyString.
Proof.
  intros Hc Hq.
  destruct c as [[] [] [] [] [] [] [] []]; try discriminate Hc;
    destruct Hq as [-> | ->]; reflexivity.
Qed.

Lemma contains_plain x s :
  plain_name s = true → plain_char x = false → Repr.contains x s = false.
Proof.
  intros Hs Hx. induction s as [|c s IH]; [reflexivity|].
  simpl in *. apply andb_true_iff in Hs as [Hc Hs].
  rewrite (IH Hs), orb_false_r.
  apply bool_decide_eq_false. intros ->. congruence.
Qed.

Lemma escape_all_plain q s :
  plain_name s = true → q = "'"%char ∨ q = Repr.dquote →
  Repr.escape_all q s = s.
Proof.
  intros Hs Hq. induction s as [|c s IH]; [reflexivity|].
  simpl in *. apply andb_true_iff in Hs as [Hc Hs].
  rewrite (escape_plain _ _ Hc Hq), (IH Hs). reflexivity.
Qed.

(** [repr] writes the name of a function between single quotes, as it
    is. *)
Lemma repr_plain s : plain_name s = true → Repr.repr s = "'" +:+ s +:+ "'".
Proof.
  intros Hs. unfold Repr.repr.
  rewrite (contains_plain "'" s Hs eq_refl). simpl.
  rewrite escape_all_plain by auto. reflexivity.
Qed.

(** C3: a call of an operation guarded by [requires_auth] on a session
    with neither an access token nor an API token raises an [AuthError]
    whose message holds the name of the operation, and leaves the log of
    transport calls as it was, whatever the operation would have done; with
    either token set, the call is the call of the wrapped operation: same
    result, same transport calls. *)
Theorem requires_auth_guard (f g : pyfunc) (self : command)
    (args : list value) (kwargs : gmap string value) (log : list call) :
  requires_auth f = Ok g →
  (truthy (access_token (request self)) = false →
   truthy (api_token (request self)) = false →
   func_call g self args kwargs log
   = (Raise (AuthError (Repr.repr (func_name f)
                        +:+ " requires an authenticated session")), log)
   ∧ (plain_name (func_name f) = true →
      Repr.repr (func_name f) = "'" +:+ func_name f +:+ "'"))
  ∧ (truthy (access_token (request self)) = true
     ∨ truthy (api_token (request self)) = true →
     func_call g self args kwargs log = func_call f self args kwargs log).
Proof.
  intros Hg. rewrite (guarded_call f g Hg). split.
  - intros Ha Hb. split; [by apply wrapper_refuses | apply repr_plain].
  - intros H. by rewrite wrapper_delegates.
Qed.

(** C10: the guard tests the truth value of the tokens, not their presence:
    a session whose two tokens are there but hold [None], the empty
    string, zero or [False] is refused with an [AuthError], and a true
    value in either of them lets the call through. *)
Theorem requires_auth_truthiness (f g : pyfunc) (dom : string)
    (args : list value) (kwargs : gmap string value) (log : list call) :
  requires_auth f = Ok g →
  (∀ a b : value,
     a ∈ [VNone; VStr ""; VInt 0; VBool false] →
     b ∈ [VNone; VStr ""; VInt 0; VBool false] →
     ∃ msg, func_call g (mk_command (mk_session a b) dom) args kwargs log
            = (Raise (AuthError msg), log))
  ∧ (∀ a b : value,
       truthy a = true ∨ truthy b = true →
       func_call g (mk_command (mk_session a b) dom) args kwargs log
       = func_call f (mk_command (mk_session a b) dom) args kwargs log).
Proof.
  intros Hg. rewrite (guarded_call f g Hg). split.
  - intros a b Ha Hb. eexists. apply wrapper_refuses; simpl.
    + repeat (apply elem_of_cons in Ha as [-> | Ha]; [reflexivity|]).
      by apply elem_of_nil in Ha.
    + repeat (apply elem_of_cons in Hb as [-> | Hb]; [reflexivity|]).
      by apply elem_of_nil in Hb.
  - intros a b H. by rewrite wrapper_delegates.
Qed.

(** ** The command dispatcher *)

Lemma truthy_dict (d : gmap string value) : truthy (VDict d) = true ↔ d ≠ ∅.
Proof.
  simpl. destruct (map_to_list d) as [|x l] eqn:E.
  - apply map_to_list_empty_iff in E. split; [discriminate | congruence].
  - split; [|reflexivity]. intros _ ->. by rewrite map_to_list_empty in E.
Qed.

Lemma truthy_dict_false (d : gmap string value) : truthy (VDict d) = false ↔ d = ∅.
Proof.
  rewrite <- not_true_iff_false, truthy_dict.
  destruct (decide (map_to_list d = [])) as [E|E].
  - apply map_to_list_empty_iff in E. naive_solver.
  - split; [intros H; exfalso; apply H; intros ->; by rewrite map_to_list_empty in E|].
    intros ->. by rewrite map_to_list_empty in E.
Qed.

Section DispatchProps.

Variable respond : list call → call → result value.
Variables (self : command) (cmd : value) (args : list value).

Lemma response_select (kwargs : gmap string value) (m : string)
    (pd : gmap string value) (log : list call) :
  method_upper (kw_method kwargs) = Ok m →
  kw_post_data kwargs = VDict pd →
  make_request_response respond self cmd args kwargs log
  = if (bool_decide (m = "POST") || bool_decide (m = "GET")) && truthy (VDict pd)
    then issues respond (mk_call POST (domain self) cmd args pd) log
    else if bool_decide (m = "PUT")
    then issues respond (mk_call PUT (domain self) cmd args pd) log
    else if bool_decide (m = "DELETE")
    then issues respond (mk_call DELETE (domain self) cmd args pd) log
    else issues respond (mk_call GET (domain self) cmd args ∅) log.
Proof.
  intros Hm Hpd. unfold make_request_response, op_bind, lift.
  rewrite Hm, Hpd.
  destruct (_ && _); [reflexivity|].
  repeat (case_bool_decide; [reflexivity|]). reflexivity.
Qed.

Lemma make_request_unfold (kwargs : gmap string value) (log : list call) :
  make_request respond self cmd args kwargs log
  = match make_request_response respond self cmd args kwargs log with
    | (Ok response, log') =>
        (if truthy (kw_filter kwargs) then getitem response (kw_filter kwargs)
         else Ok response, log')
    | (Raise e, log') => (Raise e, log')
    end.
Proof.
  unfold make_request, op_bind.
  destruct (make_request_response _ _ _ _ _ _) as [[response|e] log']; [|reflexivity].
  destruct (truthy _); reflexivity.
Qed.

(** The filter makes no call of its own. *)
Lemma make_request_log (kwargs : gmap string value) (log : list call) :
  (make_request respond self cmd args kwargs log).2
  = (make_request_response respond self cmd args kwargs log).2.
Proof.
  rewrite make_request_unfold.
  by destruct (make_request_response _ _ _ _ _ _) as [[response|e] log'].
Qed.

End DispatchProps.

(** What [make_request] reads from the keywords [method] and
    [post_data] of its caller. *)
Lemma kw_method_given (kwargs : gmap string value) (method : string) :
  kwargs !! "method" = Some (VStr method)
  ∨ (kwargs !! "method" = None ∧ method = "GET") →
  method_upper (kw_method kwargs) = Ok (Str.upper method).
Proof. unfold kw_method. by intros [-> | [-> ->]]. Qed.

Lemma kw_post_data_given (kwargs pd : gmap string value) :
  kwargs !! "post_data" = Some (VDict pd)
  ∨ (pd = ∅ ∧ (kwargs !! "post_data" = None
               ∨ ∃ v, kwargs !! "post_data" = Some v ∧ truthy v = false)) →
  kw_post_data kwargs = VDict pd.
Proof.
  unfold kw_post_data. intros [-> | [-> [-> | (v & -> & ->)]]]; [|done..].
  destruct (truthy (VDict pd)) eqn:E; [done|].
  apply truthy_dict_false in E. by subst.
Qed.

(** C2: the verb is chosen from the keywords [method] and [post_data] of
    the caller, in this order: POST when the method upper-cased is POST or
    GET and the post data is not empty, with the post data as named
    arguments; else PUT for PUT and DELETE for DELETE, with the same
    arguments; else GET with the path and the positional arguments alone.
    The method is [GET] when the caller gives none, and the post data is
    empty when the caller gives none, or gives a false value.  Exactly
    that one call is made.  So with post data that is not empty, the
    method [GET] gives the call, and the result, of the method [POST]. *)
Theorem make_request_verb (respond : list call → call → result value)
    (self : command) (cmd : value) (args : list value)
    (kwargs : gmap string value) (method : string) (pd : gmap string value)
    (log : list call) :
  kwargs !! "method" = Some (VStr method)
  ∨ (kwargs !! "method" = None ∧ method = "GET") →
  kwargs !! "post_data" = Some (VDict pd)
  ∨ (pd = ∅ ∧ (kwargs !! "post_data" = None
               ∨ ∃ v, kwargs !! "post_data" = Some v ∧ truthy v = false)) →
  let m := Str.upper method in
  let calls := (make_request respond self cmd args kwargs log).2 in
  let with_method (x : string) := <["method" := VStr x]> kwargs in
  ((m = "POST" ∨ m = "GET") ∧ pd ≠ ∅ →
     calls = log ++ [mk_call POST (domain self) cmd args pd])
  ∧ (¬ ((m = "POST" ∨ m = "GET") ∧ pd ≠ ∅) → m = "PUT" →
     calls = log ++ [mk_call PUT (domain self) cmd args pd])
  ∧ (¬ ((m = "POST" ∨ m = "GET") ∧ pd ≠ ∅) → m ≠ "PUT" → m = "DELETE" →
     calls = log ++ [mk_call DELETE (domain self) cmd args pd])
  ∧ (¬ ((m = "POST" ∨ m = "GET") ∧ pd ≠ ∅) → m ≠ "PUT" → m ≠ "DELETE" →
     calls = log ++ [mk_call GET (domain self) cmd args ∅])
  ∧ (pd ≠ ∅ →
     make_request respond self cmd args (with_method "GET") log
     = make_request respond self cmd args (with_method "POST") log
     ∧ (make_request respond self cmd args (with_method "GET") log).2
       = log ++ [mk_call POST (domain self) cmd args pd]).
Proof.
  intros Hmethod Hdata m calls with_method. subst calls.
  pose proof (kw_method_given kwargs method Hmethod) as Hm.
  pose proof (kw_post_data_given kwargs pd Hdata) as Hpd.
  fold m in Hm. clearbody m. clear Hmethod Hdata.
  rewrite make_request_log, (response_select respond self cmd args kwargs m pd log Hm Hpd).
  assert (Hcond : (bool_decide (m = "POST") || bool_decide (m = "GET"))
                  && truthy (VDict pd) = true
                  ↔ (m = "POST" ∨ m = "GET") ∧ pd ≠ ∅).
  { rewrite andb_true_iff, orb_true_iff, !bool_decide_eq_true, truthy_dict. tauto. }
  split_and!.
  - intros H. apply Hcond in H. rewrite H. reflexivity.
  - intros H ->. apply not_iff_compat in Hcond. apply Hcond in H.
    apply not_true_is_false in H. rewrite H. reflexivity.
  - intros H Hput ->. apply not_iff_compat in Hcond. apply Hcond in H.
    apply not_true_is_false in H. rewrite H. reflexivity.
  - intros H Hput Hdel. apply not_iff_compat in Hcond. apply Hcond in H.
    apply not_true_is_false in H. rewrite H.
    rewrite !bool_decide_eq_false_2 by done. reflexivity.
  - intros Hne.
    assert (Hne' : truthy (VDict pd) = true) by by apply truthy_dict.
    assert (Hf : ∀ x, kw_filter (with_method x) = kw_filter kwargs).
    { intros x. unfold kw_filter, with_method. by rewrite lookup_insert_ne. }
    assert (Hx : ∀ x, x = "GET" ∨ x = "POST" →
              make_request_response respond self cmd args (with_method x) log
              = issues respond (mk_call POST (domain self) cmd args pd) log).
    { intros x Hx.
      rewrite (response_select respond self cmd args (with_method x) x pd log).
      - rewrite Hne'. by destruct Hx as [-> | ->].
      - unfold kw_method, with_method. rewrite lookup_insert_eq.
        by destruct Hx as [-> | ->].
      - unfold kw_post_data, with_method.
        rewrite lookup_insert_ne by done. exact Hpd. }
    split.
    + rewrite !make_request_unfold, !Hf, !Hx by auto. reflexivity.
    + rewrite make_request_log, Hx by auto. reflexivity.
Qed.

(** C8: with a filter, [make_request] gives the item of the response under
    that key; when the response has no such key the call raises the
    [KeyError] of the lookup; without a filter it gives the response as it
    is.  The filter counts as given when it is true: [None] and the empty
    string are no filter. *)
Theorem make_request_filter (respond : list call → call → result value)
    (self : command) (cmd : value) (args : list value)
    (kwargs : gmap string value) (log log' : list call) (raw : value) :
  make_request_response respond self cmd args kwargs log = (Ok raw, log') →
  (∀ key, kwargs !! "filter" = Some key → truthy key = true →
     make_request respond self cmd args kwargs log = (getitem raw key, log'))
  ∧ (∀ k d, kwargs !! "filter" = Some (VStr k) → k ≠ "" → raw = VDict d →
       (∀ v, d !! k = Some v →
          make_request respond self cmd args kwargs log = (Ok v, log'))
       ∧ (d !! k = None →
          make_request respond self cmd args kwargs log = (Raise KeyError, log')
          ∧ is_lookup_error KeyError = true))
  ∧ (kwargs !! "filter" = None ∨ kwargs !! "filter" = Some VNone
     ∨ kwargs !! "filter" = Some (VStr "") →
     make_request respond self cmd args kwargs log = (Ok raw, log')).
Proof.
  intros Hraw. rewrite make_request_unfold, Hraw. unfold kw_filter.
  split_and!.
  - intros key -> Hk. simpl. by rewrite Hk.
  - intros k d -> Hk ->. destruct k; [done|]. simpl. split.
    + intros v ->. reflexivity.
    + intros ->. done.
  - intros [-> | [-> | ->]]; reflexivity.
Qed.

(** ** Attribute descriptors *)

Lemma to_python_native (attr : attribute) (v : value) :
  is_datetime v = true ∨ truthy v = false → to_python attr v = Ok v.
Proof.
  intros H. destruct attr as [help|help format]; [reflexivity|]. simpl.
  destruct H as [H|H]; rewrite H; [|reflexivity].
  by rewrite andb_false_r.
Qed.

Lemma to_python_result (attr : attribute) (v w : value) :
  to_python attr v = Ok w → w = v ∨ is_datetime w = true.
Proof.
  destruct attr as [help|help format]; simpl.
  - intros [= ->]. by left.
  - destruct (truthy v && negb (is_datetime v)).
    + destruct (converter_for_format !! format) as [c|]; [|discriminate].
      destruct (conv_to c v) as [d|e]; [|discriminate].
      intros [= <-]. by right.
    + intros [= ->]. by left.
Qed.

(** C9: the conversions of a date descriptor are guarded.  [to_python]
    gives back a value that is a native timestamp already, or that is
    absent ([None], or any false value), so that converting twice is
    converting once, an exception of the first conversion included;
    [from_python] gives back a value that is no native timestamp, or that
    is absent.  The plain descriptor converts nothing. *)
Theorem date_conversions_guarded (attr : attribute) (v : value) :
  (is_datetime v = true ∨ v = VNone → to_python attr v = Ok v)
  ∧ (w ← to_python attr v; to_python attr w) = to_python attr v
  ∧ (is_datetime v = false ∨ v = VNone → from_python attr v = Ok v)
  ∧ (∀ help, to_python (Attribute help) v = Ok v
             ∧ from_python (Attribute help) v = Ok v).
Proof.
  split_and!.
  - intros [H | ->]; apply to_python_native; auto.
  - destruct (to_python attr v) as [w|e] eqn:E; [|reflexivity]. simpl.
    destruct (to_python_result _ _ _ E) as [-> | Hw]; [exact E|].
    apply to_python_native. by left.
  - intros H. destruct attr as [help|help format]; [reflexivity|].
    destruct H as [H | ->]; [|reflexivity].
    destruct v; try reflexivity. discriminate H.
  - intros help. split; reflexivity.
Qed.

(** ** Record types *)

Lemma not_empty_spec (k : string) (v : value) : not_empty (k, v) = true ↔ v ≠ VNone.
Proof. unfold not_empty. simpl. destruct v; split; congruence. Qed.

Lemma elem_of_iterate (self : gmap string value) (k : string) (v : value) :
  (k, v) ∈ iterate self ↔ self !! k = Some v ∧ v ≠ VNone.
Proof.
  unfold iterate. rewrite list_elem_of_In, filter_In, <- list_elem_of_In.
  by rewrite elem_of_map_to_list, not_empty_spec.
Qed.

Lemma NoDup_iterate (self : gmap string value) : NoDup (iterate self).*1.
Proof.
  unfold iterate.
  assert (H : ∀ l : list (string * value), NoDup l.*1 → NoDup (List.filter not_empty l).*1).
  { induction l as [|x l IH]; [done|]. simpl. intros [Hx Hl]%NoDup_cons.
    destruct (not_empty x); [|by apply IH]. simpl. apply NoDup_cons. split; [|by apply IH].
    intros Hin. apply Hx. apply list_elem_of_fmap in Hin as [y [-> Hy]].
    apply list_elem_of_fmap. exists y. split; [done|].
    apply list_elem_of_In, filter_In in Hy as [Hy _]. by apply list_elem_of_In in Hy. }
  apply H, NoDup_fst_map_to_list.
Qed.

Lemma field_name_plain (s : string) : field_name s = true → machinery_name s = false.
Proof.
  intros H. unfold machinery_name, machinery. apply bool_decide_eq_false.
  rewrite !elem_of_cons, elem_of_nil. intros [-> | [-> | [-> | [-> | []]]]]; discriminate H.
Qed.

Lemma machinery_name_false (s : string) :
  machinery_name s = false →
  s ≠ "_meta" ∧ s ≠ "__class__" ∧ s ≠ "__dict__" ∧ s ≠ "__weakref__".
Proof.
  unfold machinery_name, machinery. intros H%bool_decide_eq_false.
  rewrite !elem_of_cons, elem_of_nil in H. split_and!; intros ->; apply H; auto.
Qed.

Lemma reserved_name_false (s : string) :
  reserved_name s = false → s ≠ "self" ∧ machinery_name s = false.
Proof.
  unfold reserved_name. intros [H1 H2]%orb_false_iff.
  by apply bool_decide_eq_false in H1.
Qed.

(** The call of the constructor comes to the loop when no keyword is
    [self]. *)
Lemma constructor_ok (cls : record_type) (items : list (string * value))
    (inst : gmap string value) :
  constructor cls items = Ok inst ↔
  ("self" ∉ items.*1) ∧ constructor_go cls ∅ items = Ok inst.
Proof.
  unfold constructor. case_bool_decide; [|tauto].
  split; [discriminate | tauto].
Qed.

Lemma constructor_loop (cls : record_type) (items : list (string * value)) :
  "self" ∉ items.*1 → constructor cls items = constructor_go cls ∅ items.
Proof. intros H. unfold constructor. by rewrite bool_decide_eq_false_2. Qed.

Lemma plain_class_meta (cls : record_type) :
  plain_class cls → class_meta cls = Some (_meta cls).
Proof.
  intros H. unfold class_meta. destruct (_meta cls !! "_meta") as [a|] eqn:E; [|done].
  discriminate (H "_meta"). left. by exists a.
Qed.

Lemma plain_class_new (attrs : gmap string member) :
  (∀ k, is_Some (attrs !! k) → field_name k = true) →
  plain_class (BaseDataType_new attrs).
Proof.
  intros H k [[a Ha] | [m Hm]]; apply H; simpl in *.
  - rewrite lookup_omap in Ha. destruct (attrs !! k); [done | discriminate].
  - rewrite lookup_fmap in Hm. destruct (attrs !! k); [done | discriminate].
Qed.

(** ** The turns of the loop of the constructor *)

Lemma setattr_plain (self : gmap string value) (n : string) (v : value) :
  machinery_name n = false → setattr self n v = Ok (<[n := v]> self).
Proof.
  intros (_ & Hc & Hd & Hw)%machinery_name_false. unfold setattr.
  by rewrite !bool_decide_eq_false_2.
Qed.

(** A name other than [__dict__] that [setattr] takes is a key of the
    dictionary afterwards. *)
Lemma setattr_insert (self self' : gmap string value) (n : string) (v : value) :
  n ≠ "__dict__" → setattr self n v = Ok self' → self' = <[n := v]> self.
Proof.
  intros Hd. unfold setattr. repeat case_bool_decide; try discriminate; [done|].
  by intros [= <-].
Qed.

(** Under [__dict__], [setattr] takes a dictionary, which is the
    instance afterwards. *)
Lemma setattr_dict (self self' : gmap string value) (v : value) :
  setattr self "__dict__" v = Ok self' → v = VDict self'.
Proof. unfold setattr. simpl. destruct v; try discriminate. by intros [= ->]. Qed.

(** A turn of the loop assigns the value given, or a timestamp made of
    it. *)
Lemma constructor_step_assigns (cls : record_type) (self self' : gmap string value)
    (n : string) (x : value) :
  constructor_step cls self n x = Ok self' →
  ∃ w, setattr self n w = Ok self' ∧ (w = x ∨ is_datetime w = true).
Proof.
  unfold constructor_step. destruct (meta_get cls self n) as [[a|y]|e]; simpl; [| |done].
  - destruct (to_python a x) as [w|e] eqn:E; simpl; [|done].
    intros H. exists w. split; [done|]. by apply (to_python_result a).
  - destruct (truthy y); [done|]. intros H. exists x. auto.
Qed.

(** On an instance without an attribute [_meta] of its own, a turn for a
    field reads the schema of the class. *)
Lemma constructor_step_field (cls : record_type) (self : gmap string value)
    (n : string) (x : value) :
  machinery_name n = false → self !! "_meta" = None →
  constructor_step cls self n x
  = match class_meta cls with
    | Some schema =>
        match schema !! n with
        | Some attr => v ← to_python attr x; Ok (<[n := v]> self)
        | None => Ok (<[n := x]> self)
        end
    | None => Raise AttributeError
    end.
Proof.
  intros Hn Hself. unfold constructor_step, meta_get. rewrite Hself.
  destruct (class_meta cls) as [schema|]; [|done]. simpl.
  destruct (schema !! n) as [attr|]; simpl.
  - destruct (to_python attr x) as [v|e]; simpl; [|done]. by apply setattr_plain.
  - by apply setattr_plain.
Qed.

Lemma class_meta_schema (cls : record_type) (schema : gmap string attribute) :
  class_meta cls = Some schema → schema = _meta cls.
Proof. unfold class_meta. destruct (_meta cls !! "_meta"); congruence. Qed.

(** What the loop of the constructor leaves in the dictionary, for keys
    that are all different and are names of fields. *)
Lemma constructor_go_lookup (cls : record_type) (items : list (string * value)) :
  ∀ self inst : gmap string value,
    NoDup items.*1 →
    (∀ k, k ∈ items.*1 → machinery_name k = false) →
    self !! "_meta" = None →
    constructor_go cls self items = Ok inst →
    ∀ k,
      (∀ v, (k, v) ∈ items →
         match _meta cls !! k with
         | Some attr => ∃ w, to_python attr v = Ok w ∧ inst !! k = Some w
         | None => inst !! k = Some v
         end)
      ∧ (k ∉ items.*1 → inst !! k = self !! k).
Proof.
  induction items as [|[n x] items IH]; intros self inst Hnd Hnames Hself Hgo k.
  - simpl in Hgo. injection Hgo as <-. split; [|done].
    intros v Hv. by apply elem_of_nil in Hv.
  - apply NoDup_cons in Hnd as [Hn Hnd]. simpl in Hgo.
    assert (Hname : machinery_name n = false) by (apply Hnames; by left).
    rewrite (constructor_step_field cls self n x Hname Hself) in Hgo.
    destruct (class_meta cls) as [schema|] eqn:Hschema; [|discriminate].
    apply class_meta_schema in Hschema as ->.
    assert (∃ w, (match _meta cls !! n with
                  | Some attr => to_python attr x = Ok w
                  | None => w = x
                  end)
                 ∧ constructor_go cls (<[n:=w]> self) items = Ok inst) as (w & Hw & Hrest).
    { destruct (_meta cls !! n) as [attr|]; [|by exists x].
      destruct (to_python attr x) as [w|e]; [|discriminate]. by exists w. }
    assert (Hself' : <[n:=w]> self !! "_meta" = None).
    { rewrite lookup_insert_ne; [done|]. intros ->. discriminate Hname. }
    assert (Hnames' : ∀ k, k ∈ items.*1 → machinery_name k = false).
    { intros k' Hk'. apply Hnames. by right. }
    destruct (IH _ _ Hnd Hnames' Hself' Hrest k) as [Hin Hout]. split.
    + intros v [[= -> ->] | Hv]%elem_of_cons.
      * destruct (IH _ _ Hnd Hnames' Hself' Hrest n) as [_ Hout'].
        rewrite (Hout' Hn), lookup_insert_eq.
        destruct (_meta cls !! n) as [attr|]; [by exists w | by subst].
      * by apply Hin.
    + intros Hk. simpl in Hk. apply not_elem_of_cons in Hk as [Hkn Hk].
      rewrite (Hout Hk). by rewrite lookup_insert_ne.
Qed.

(** The loop ends without an exception when every conversion does. *)
Lemma constructor_go_total (cls : record_type) (items : list (string * value)) :
  ∀ self : gmap string value,
    class_meta cls = Some (_meta cls) →
    (∀ k, k ∈ items.*1 → machinery_name k = false) →
    self !! "_meta" = None →
    (∀ k v attr, (k, v) ∈ items → _meta cls !! k = Some attr →
                 ∃ w, to_python attr v = Ok w) →
    ∃ inst, constructor_go cls self items = Ok inst.
Proof.
  induction items as [|[n x] items IH]; intros self Hcls Hnames Hself Hconv; [by eexists|].
  simpl.
  assert (Hname : machinery_name n = false) by (apply Hnames; by left).
  assert (Hself' : ∀ w, <[n:=w]> self !! "_meta" = None).
  { intros w. rewrite lookup_insert_ne; [done|]. intros ->. discriminate Hname. }
  assert (Hnames' : ∀ k, k ∈ items.*1 → machinery_name k = false).
  { intros k' Hk'. apply Hnames. by right. }
  rewrite (constructor_step_field cls self n x Hname Hself), Hcls.
  destruct (_meta cls !! n) as [attr|] eqn:E.
  - destruct (Hconv n x attr) as [w ->]; [by left | done |]. simpl.
    apply IH; auto. intros k v a Hin. apply Hconv. by right.
  - simpl. apply IH; auto. intros k v a Hin. apply Hconv. by right.
Qed.

(** Without the key [__dict__], the keys of the instance after the loop
    are those it had and those of the items. *)
Lemma constructor_go_dom (cls : record_type) (items : list (string * value)) :
  ∀ self inst : gmap string value,
    "__dict__" ∉ items.*1 →
    constructor_go cls self items = Ok inst →
    ∀ k, is_Some (inst !! k) ↔ is_Some (self !! k) ∨ k ∈ items.*1.
Proof.
  induction items as [|[n x] items IH]; intros self inst Hd Hgo k.
  - simpl in Hgo. injection Hgo as <-. rewrite elem_of_nil. tauto.
  - simpl in Hd. apply not_elem_of_cons in Hd as [Hn Hd]. simpl in Hgo.
    destruct (constructor_step cls self n x) as [self'|e] eqn:Hstep; [|discriminate].
    simpl in Hgo. rewrite (IH _ _ Hd Hgo k).
    destruct (constructor_step_assigns _ _ _ _ _ Hstep) as (w & Hset & _).
    apply setattr_insert in Hset as ->; [|done].
    simpl. rewrite elem_of_cons, lookup_insert_is_Some.
    destruct (decide (n = k)); intuition congruence.
Qed.

(** In general, a key of the instance after the loop is one it had, one
    of the items, or one of a dictionary given under [__dict__]. *)
Lemma constructor_go_keys (cls : record_type) (items : list (string * value)) :
  ∀ self inst : gmap string value,
    constructor_go cls self items = Ok inst →
    ∀ k, is_Some (inst !! k) →
         is_Some (self !! k) ∨ k ∈ items.*1
         ∨ ∃ d, ("__dict__", VDict d) ∈ items ∧ is_Some (d !! k).
Proof.
  induction items as [|[n x] items IH]; intros self inst Hgo k Hk.
  - simpl in Hgo. injection Hgo as <-. by left.
  - simpl in Hgo.
    destruct (constructor_step cls self n x) as [self'|e] eqn:Hstep; [|discriminate].
    simpl in Hgo.
    destruct (IH _ _ Hgo k Hk) as [Hself' | [Hin | (d & Hd & Hdk)]].
    + destruct (constructor_step_assigns _ _ _ _ _ Hstep) as (w & Hset & Hw).
      destruct (decide (n = "__dict__")) as [-> | Hn].
      * apply setattr_dict in Hset as ->. right. right. exists self'. split; [|done].
        destruct Hw as [<- | Hw]; [by left | discriminate Hw].
      * apply setattr_insert in Hset as ->; [|done].
        apply lookup_insert_is_Some in Hself' as [-> | [_ Hself]].
        -- right. left. by left.
        -- by left.
    + right. left. by right.
    + right. right. exists d. split; [by right | done].
Qed.

Lemma items_of_kwargs (kwargs : gmap string value) (items : list (string * value)) :
  items ≡ₚ map_to_list kwargs →
  NoDup items.*1
  ∧ (∀ k v, (k, v) ∈ items ↔ kwargs !! k = Some v)
  ∧ (∀ k, k ∈ items.*1 ↔ is_Some (kwargs !! k)).
Proof.
  intros Hp. split_and!.
  - rewrite Hp. apply NoDup_fst_map_to_list.
  - intros k v. rewrite Hp. apply elem_of_map_to_list.
  - intros k. rewrite Hp, list_elem_of_fmap. split.
    + intros [[k' v] [-> Hin]]. apply elem_of_map_to_list in Hin. by exists v.
    + intros [v Hv]. exists (k, v). split; [done|]. by apply elem_of_map_to_list.
Qed.

(** The sample class is made of fields, and so are the sample
    arguments. *)
Lemma sample_repository_plain : plain_class Sample.repository.
Proof.
  apply plain_class_new. intros k [m Hm].
  apply lookup_insert_Some in Hm as [[<- _] | [_ Hm]]; [reflexivity|].
  apply lookup_singleton_Some in Hm as [<- _]. reflexivity.
Qed.

Lemma sample_repository_fields (k : string) :
  is_Some (Sample.repository_kwargs !! k) → reserved_name k = false.
Proof.
  intros [v Hv]. unfold Sample.repository_kwargs in Hv.
  apply lookup_insert_Some in Hv as [[<- _] | [_ Hv]]; [reflexivity|].
  apply lookup_singleton_Some in Hv as [<- _]. reflexivity.
Qed.

(** The items of a mapping without reserved keys. *)
Lemma items_not_reserved (kwargs : gmap string value) (items : list (string * value)) :
  items ≡ₚ map_to_list kwargs →
  (∀ k, is_Some (kwargs !! k) → reserved_name k = false) →
  ("self" ∉ items.*1) ∧ ∀ k, k ∈ items.*1 → machinery_name k = false.
Proof.
  intros Hp Hfields. destruct (items_of_kwargs _ _ Hp) as (_ & _ & Hkeys). split.
  - intros H%Hkeys%Hfields. discriminate H.
  - intros k H%Hkeys%Hfields. by apply reserved_name_false in H as [_ H].
Qed.

(** C7, amended: for a class made of fields and a mapping whose keys are
    none of [self], [_meta], [__class__], [__dict__] and [__weakref__],
    the constructor stores, under each key of the mapping that the schema
    declares, what the [to_python] of its descriptor makes of the value,
    and under each other key the value as it is.  A text given for a
    declared date field is stored as a native timestamp.  The construction
    succeeds when every conversion does. *)
Theorem constructor_stores (cls : record_type) (kwargs : gmap string value)
    (items : list (string * value)) :
  plain_class cls →
  (∀ k, is_Some (kwargs !! k) → reserved_name k = false) →
  items ≡ₚ map_to_list kwargs →
  ((∀ k v attr, kwargs !! k = Some v → _meta cls !! k = Some attr →
                ∃ w, to_python attr v = Ok w) →
   ∃ inst, constructor cls items = Ok inst)
  ∧ (∀ inst, constructor cls items = Ok inst →
     ∀ k v, kwargs !! k = Some v →
       (∀ attr, _meta cls !! k = Some attr →
          ∃ w, to_python attr v = Ok w ∧ inst !! k = Some w)
       ∧ (∀ help format text, _meta cls !! k = Some (DateAttribute help format) →
          v = VStr text → text ≠ "" →
          ∃ d, inst !! k = Some (VDatetime d))
       ∧ (_meta cls !! k = None → inst !! k = Some v)).
Proof.
  intros Hcls Hfields Hp. destruct (items_of_kwargs _ _ Hp) as (Hnd & Hin & Hkeys).
  destruct (items_not_reserved _ _ Hp Hfields) as [Hself Hnames].
  rewrite (constructor_loop cls items Hself). split.
  - intros Hconv. apply constructor_go_total; [by apply plain_class_meta | done | done |].
    intros k v attr Hkv. apply Hconv. by apply Hin.
  - intros inst Hc k v Hkv. apply Hin in Hkv.
    destruct (constructor_go_lookup cls items ∅ inst Hnd Hnames (lookup_empty _) Hc k)
      as [Hstored _].
    specialize (Hstored v Hkv). split_and!.
    + intros attr E. by rewrite E in Hstored.
    + intros help format text E -> Htext. rewrite E in Hstored.
      destruct Hstored as (w & Hw & Hlook). rewrite Hlook.
      simpl in Hw. destruct text; [done|]. simpl in Hw.
      destruct (converter_for_format !! format) as [c|]; [|discriminate].
      destruct (conv_to c _) as [d|e]; [|discriminate].
      injection Hw as <-. by exists d.
    + intros E. by rewrite E in Hstored.
Qed.

(** C7, as stated, fails.  A key [_meta] that comes before a declared
    date field hides the schema, and the text is stored as it is; the keys
    [__class__] and [self] make the construction raise a [TypeError], and
    nothing is stored.  A class that declares a field [_meta] has lost its
    schema, and its construction raises an [AttributeError]. *)
Lemma constructor_stores_counterexample :
  constructor Sample.commit
    [("_meta", VDict ∅); ("committed_date", VStr "2009-03-21T18:01:48-07:00")]
  = Ok {[ "_meta" := VDict ∅;
          "committed_date" := VStr "2009-03-21T18:01:48-07:00" ]}
  ∧ constructor Sample.commit [("__class__", VInt 1)] = Raise TypeError
  ∧ constructor Sample.commit [("self", VInt 1)] = Raise TypeError
  ∧ constructor (BaseDataType_new {[ "_meta" := MAttribute (Attribute "Schema") ]})
      [("forks", VInt 3)]
    = Raise AttributeError
  ∧ ¬ (∀ (cls : record_type) (kwargs : gmap string value)
         (items : list (string * value)),
         items ≡ₚ map_to_list kwargs →
         ∀ inst, constructor cls items = Ok inst →
         ∀ k v, kwargs !! k = Some v →
           (∀ attr, _meta cls !! k = Some attr →
              ∃ w, to_python attr v = Ok w ∧ inst !! k = Some w)
           ∧ (_meta cls !! k = None → inst !! k = Some v)).
Proof.
  split_and!; [vm_compute; reflexivity..|].
  intros H.
  destruct (H Sample.commit
              {[ "_meta" := VDict ∅;
                 "committed_date" := VStr "2009-03-21T18:01:48-07:00" ]}
              [("_meta", VDict ∅); ("committed_date", VStr "2009-03-21T18:01:48-07:00")])
    with (inst := ({[ "_meta" := VDict ∅;
                      "committed_date" := VStr "2009-03-21T18:01:48-07:00" ]}
                   : gmap string value))
         (k := "committed_date") (v := VStr "2009-03-21T18:01:48-07:00")
    as [Hdeclared _].
  - assert (map_to_list ({[ "_meta" := VDict ∅;
                            "committed_date" := VStr "2009-03-21T18:01:48-07:00" ]}
                         : gmap string value)
            = [("_meta", VDict ∅); ("committed_date", VStr "2009-03-21T18:01:48-07:00")])
      as -> by (vm_compute; reflexivity).
    reflexivity.
  - vm_compute. reflexivity.
  - reflexivity.
  - destruct (Hdeclared (DateAttribute "Commit date" "commit") eq_refl)
      as (w & Hw & Hlook).
    vm_compute in Hw. injection Hw as <-. vm_compute in Hlook. discriminate Hlook.
Qed.

(** C6, amended: the enumeration of a record gives exactly the entries
    of its dictionary, which holds the fields that were assigned, whose
    value is not [None], each once and with its value.  After a
    construction without the key [__dict__] these are fields of the
    mapping.  A declared field that the mapping leaves out, under its name
    and in a dictionary given under [__dict__], is not enumerated. *)
Theorem iterate_assigned (self : gmap string value) :
  (∀ k v, (k, v) ∈ iterate self ↔ self !! k = Some v ∧ v ≠ VNone)
  ∧ NoDup (iterate self).*1
  ∧ (∀ (cls : record_type) (kwargs : gmap string value)
       (items : list (string * value)),
       plain_class cls →
       items ≡ₚ map_to_list kwargs →
       constructor cls items = Ok self →
       (kwargs !! "__dict__" = None →
        ∀ k, is_Some (self !! k) ↔ is_Some (kwargs !! k))
       ∧ (∀ field, is_Some (_meta cls !! field) → kwargs !! field = None →
            (∀ d, kwargs !! "__dict__" = Some (VDict d) → d !! field = None) →
            ∀ v, (field, v) ∉ iterate self)).
Proof.
  split_and!.
  - apply elem_of_iterate.
  - apply NoDup_iterate.
  - intros cls kwargs items _ Hp [_ Hc]%constructor_ok.
    destruct (items_of_kwargs _ _ Hp) as (Hnd & Hin & Hkeys). split.
    + intros Hd k. rewrite (constructor_go_dom cls items ∅ self); [| |exact Hc].
      * rewrite <- Hkeys, lookup_empty. split; [intros [[? [=]] | ?]; done | by right].
      * intros Hmem. apply Hkeys in Hmem as [x Hx]. congruence.
    + intros field _ Hnone Hdict v [Hv _]%elem_of_iterate.
      destruct (constructor_go_keys cls items ∅ self Hc field) as [He | [Hmem | (d & Hd & Hdk)]].
      * by exists v.
      * rewrite lookup_empty in He. by destruct He.
      * apply Hkeys in Hmem as [x Hx]. congruence.
      * apply Hin in Hd. rewrite (Hdict d Hd) in Hdk. by destruct Hdk.
Qed.

(** C6, as stated, fails: a dictionary given under [__dict__] becomes
    the dictionary of the instance, and a declared field in it is
    enumerated though the mapping leaves it unset. *)
Lemma iterate_assigned_counterexample :
  constructor Sample.repository [("__dict__", VDict {[ "created_at" := VInt 5 ]})]
  = Ok {[ "created_at" := VInt 5 ]}
  ∧ ¬ (∀ (cls : record_type) (kwargs self : gmap string value)
         (items : list (string * value)),
         items ≡ₚ map_to_list kwargs →
         constructor cls items = Ok self →
         ∀ field, is_Some (_meta cls !! field) → kwargs !! field = None →
                  ∀ v, (field, v) ∉ iterate self).
Proof.
  split; [vm_compute; reflexivity|].
  intros H.
  apply (H Sample.repository {[ "__dict__" := VDict {[ "created_at" := VInt 5 ]} ]}
           {[ "created_at" := VInt 5 ]}
           [("__dict__", VDict {[ "created_at" := VInt 5 ]})]
           ltac:(by rewrite map_to_list_singleton) ltac:(vm_compute; reflexivity)
           "created_at" ltac:(by eexists) eq_refl (VInt 5)).
  apply elem_of_iterate. split; [reflexivity | discriminate].
Qed.

(** ** Digits and blanks *)

Lemma is_digit_cases (c : ascii) :
  Str.is_digit c = true →
  c ∈ ["0"; "1"; "2"; "3"; "4"; "5"; "6"; "7"; "8"; "9"]%char.
Proof.
  destruct c as [[] [] [] [] [] [] [] []]; intros H; try discriminate H;
    repeat (first [apply list_elem_of_here | apply list_elem_of_further]).
Qed.

Ltac digit_cases H :=
  apply is_digit_cases in H;
  repeat (apply elem_of_cons in H as [-> | H]); [..| by apply elem_of_nil in H].

Lemma digit_not_space (c : ascii) : Str.is_digit c = true → Str.is_space c = false.
Proof. intros H. digit_cases H; reflexivity. Qed.

Lemma digit_val_char (n : Z) :
  (0 ≤ n ≤ 9)%Z →
  Str.is_digit (Str.digit_char n) = true ∧ Str.digit_val (Str.digit_char n) = n.
Proof.
  intros H.
  assert (n ∈ [0; 1; 2; 3; 4; 5; 6; 7; 8; 9]%Z) as Hn.
  { rewrite !elem_of_cons. lia. }
  repeat (apply elem_of_cons in Hn as [-> | Hn]); [..| by apply elem_of_nil in Hn];
    split; reflexivity.
Qed.

Lemma digit_char_val (c : ascii) :
  Str.is_digit c = true →
  Str.digit_char (Str.digit_val c) = c ∧ (0 ≤ Str.digit_val c ≤ 9)%Z.
Proof. intros H. digit_cases H; split; (reflexivity || (vm_compute; split; discriminate)). Qed.

Lemma all_digits_nonblank (s : string) : all_digits s = true → nonblank s = true.
Proof.
  induction s as [|c s IH]; [done|]. simpl.
  intros [Hc Hs]%andb_true_iff. by rewrite (digit_not_space c Hc), IH.
Qed.

(** ** Stripping and splitting *)

Lemma lstrip_nonblank (c : ascii) (s : string) :
  Str.is_space c = false → Str.lstrip (String c s) = String c s.
Proof. intros H. simpl. by rewrite H. Qed.

Lemma rstrip_nonblank (s : string) : nonblank s = true → Str.rstrip s = s.
Proof.
  induction s as [|c s IH]; [done|]. simpl.
  intros [Hc Hs]%andb_true_iff. rewrite (IH Hs).
  apply negb_true_iff in Hc. rewrite Hc. by destruct s.
Qed.

Lemma split_lstrip (s : string) : Str.split (Str.lstrip s) = Str.split s.
Proof.
  unfold Str.split. induction s as [|c s IH]; [done|]. simpl.
  destruct (Str.is_space c) eqn:E; [exact IH|]. simpl. by rewrite E.
Qed.

Lemma split_go_rstrip (s : string) :
  ∀ cur, Str.split_go cur (Str.rstrip s) = Str.split_go cur s.
Proof.
  induction s as [|c s IH]; intros cur; [done|]. simpl.
  destruct (Str.rstrip s) as [|c' r] eqn:E.
  - destruct (Str.is_space c) eqn:Ec; simpl.
    + rewrite <- (IH EmptyString). simpl. by destruct (Str.is_empty cur).
    + rewrite Ec. rewrite <- IH. reflexivity.
  - simpl. destruct (Str.is_space c); rewrite <- !IH; reflexivity.
Qed.

(** The [strip] before [split] changes nothing. *)
Lemma split_strip (s : string) : Str.split (Str.strip s) = Str.split s.
Proof.
  unfold Str.strip. rewrite <- (split_lstrip s). apply split_go_rstrip.
Qed.

Lemma app_cons (c : ascii) (s t : string) : String c s +:+ t = String c (s +:+ t).
Proof. reflexivity. Qed.

Lemma app_nil (t : string) : "" +:+ t = t.
Proof. reflexivity. Qed.

Lemma app_assoc_string (a b c : string) : (a +:+ b) +:+ c = a +:+ (b +:+ c).
Proof. induction a as [|x a IH]; [done|]. by rewrite !app_cons, IH. Qed.

Lemma app_empty_r (a : string) : a +:+ "" = a.
Proof. induction a as [|x a IH]; [done|]. by rewrite app_cons, IH. Qed.

Lemma split_go_token (s : string) :
  ∀ cur rest, nonblank s = true →
    Str.split_go cur (s +:+ rest) = Str.split_go (cur +:+ s) rest.
Proof.
  induction s as [|c s IH]; intros cur rest.
  - intros _. by rewrite app_empty_r.
  - simpl. intros [Hc Hs]%andb_true_iff. apply negb_true_iff in Hc.
    rewrite Hc, (IH _ _ Hs), app_assoc_string. reflexivity.
Qed.

Lemma split_token_blank (s rest : string) :
  nonblank s = true → s ≠ "" →
  Str.split (s +:+ String " " rest) = s :: Str.split rest.
Proof.
  intros Hs Hne. unfold Str.split. rewrite (split_go_token s _ _ Hs). simpl.
  by destruct s.
Qed.

Lemma split_token_end (s : string) :
  nonblank s = true → s ≠ "" → Str.split s = [s].
Proof.
  intros Hs Hne. unfold Str.split.
  rewrite <- (app_empty_r s) at 1. rewrite (split_go_token s _ _ Hs). simpl.
  by destruct s.
Qed.

(** ** First matches of the expressions of [time.strptime] *)

Lemma hd_eps (s : string) : hd_match REps s [] "" s.
Proof. by eexists. Qed.

Lemma hd_set (p : cset) (c : ascii) (rest : string) :
  cset_mem p c = true → hd_match (RSet p) (String c rest) [] (String c "") rest.
Proof. intros H. exists []. simpl. by rewrite H. Qed.

Lemma hd_lit (c : ascii) (rest : string) :
  hd_match (RSet (CLit c)) (String c "" +:+ rest) [] (String c "") rest.
Proof. apply hd_set. simpl. by apply bool_decide_eq_true. Qed.

Lemma hd_blank (c : ascii) (rest : string) :
  Str.is_space c = false →
  hd_match (RPlus CSpace) (" " +:+ String c rest) [] " " (String c rest).
Proof. intros H. exists []. simpl. rewrite H. reflexivity. Qed.

Lemma hd_seq (r1 r2 : regex) (s s1 s2 m1 m2 : string) (f1 f2 : captures) :
  hd_match r1 s f1 m1 s1 → hd_match r2 s1 f2 m2 s2 →
  hd_match (RSeq r1 r2) s (f1 ++ f2) (m1 +:+ m2) s2.
Proof.
  intros [tl1 H1] [tl2 H2]. unfold hd_match. simpl.
  rewrite H1, bind_cons. simpl. rewrite H2, bind_cons. simpl. by eexists.
Qed.

Lemma hd_group (g : group) (r : regex) (s m rest : string) (f : captures) :
  hd_match r s f m rest → hd_match (RGroup g r) s (f ++ [(g, m)]) m rest.
Proof. intros [tl H]. unfold hd_match. simpl. rewrite H. simpl. by eexists. Qed.

(** A property of the numbers of a range holds when it holds of each. *)
Lemma Z_range_cases (P : Z → Prop) (lo : Z) (n : nat) :
  Forall P ((λ i, lo + Z.of_nat i)%Z <$> seq 0 n) →
  ∀ v, (lo ≤ v < lo + Z.of_nat n)%Z → P v.
Proof.
  intros HF v Hv. rewrite Forall_forall in HF. apply HF.
  apply list_elem_of_fmap. exists (Z.to_nat (v - lo)). split; [lia|].
  apply elem_of_seq. lia.
Qed.

Ltac each_of_range lo n :=
  match goal with
  | |- ∀ v : Z, _ → @?P v =>
      intros v Hv; apply (Z_range_cases P lo n); [|lia]; clear v Hv;
      let l := eval vm_compute in ((λ i, lo + Z.of_nat i)%Z <$> seq 0 n) in
      change (Forall P l);
      repeat (apply Forall_cons; split); [..| by constructor]; cbv beta
  end.

Ltac first_match := intros rest; vm_compute; by eexists.


Lemma hd_m : ∀ v, (1 ≤ v ≤ 12)%Z → ∀ rest,
  hd_match TimeRE.re_m (Str.fmt02 v +:+ rest) [(Gm, Str.fmt02 v)] (Str.fmt02 v) rest.
Proof. each_of_range 1%Z 12%nat; first_match. Qed.

Lemma hd_d : ∀ v, (1 ≤ v ≤ 31)%Z → ∀ rest,
  hd_match TimeRE.re_d (Str.fmt02 v +:+ rest) [(Gd, Str.fmt02 v)] (Str.fmt02 v) rest.
Proof. each_of_range 1%Z 31%nat; first_match. Qed.

Lemma hd_H : ∀ v, (0 ≤ v ≤ 23)%Z → ∀ rest,
  hd_match TimeRE.re_H (Str.fmt02 v +:+ rest) [(GH, Str.fmt02 v)] (Str.fmt02 v) rest.
Proof. each_of_range 0%Z 24%nat; first_match. Qed.

Lemma hd_M : ∀ v, (0 ≤ v ≤ 59)%Z → ∀ rest,
  hd_match TimeRE.re_M (Str.fmt02 v +:+ rest) [(GM, Str.fmt02 v)] (Str.fmt02 v) rest.
Proof. each_of_range 0%Z 60%nat; first_match. Qed.

Lemma hd_S : ∀ v, (0 ≤ v ≤ 59)%Z → ∀ rest,
  hd_match TimeRE.re_S (Str.fmt02 v +:+ rest) [(GS, Str.fmt02 v)] (Str.fmt02 v) rest.
Proof. each_of_range 0%Z 60%nat; first_match. Qed.

Lemma to_int_fmt02 : ∀ v, (0 ≤ v ≤ 99)%Z → Str.to_int (Str.fmt02 v) = Some v.
Proof. each_of_range 0%Z 100%nat; reflexivity. Qed.

(** ** The year *)

Lemma fmt04_digits (v : Z) :
  ∃ a b c d,
    Str.fmt04 v = String a (String b (String c (String d "")))
    ∧ Str.is_digit a = true ∧ Str.is_digit b = true
    ∧ Str.is_digit c = true ∧ Str.is_digit d = true
    ∧ ((0 ≤ v ≤ 9999)%Z →
       (10 * (10 * (10 * (10 * 0 + Str.digit_val a) + Str.digit_val b)
              + Str.digit_val c) + Str.digit_val d)%Z = v).
Proof.
  assert (H : ∀ x, (0 ≤ x mod 10 ≤ 9)%Z).
  { intros x. pose proof (Z.mod_pos_bound x 10). lia. }
  do 4 eexists. split; [reflexivity|].
  destruct (digit_val_char _ (H (v / 1000)%Z)) as [-> ->].
  destruct (digit_val_char _ (H (v / 100)%Z)) as [-> ->].
  destruct (digit_val_char _ (H (v / 10)%Z)) as [-> ->].
  destruct (digit_val_char _ (H v)) as [-> ->].
  split_and!; try reflexivity. intros Hv. Z.div_mod_to_equations. lia.
Qed.

Lemma hd_Y (v : Z) (rest : string) :
  hd_match TimeRE.re_Y (Str.fmt04 v +:+ rest) [(GY, Str.fmt04 v)] (Str.fmt04 v) rest.
Proof.
  destruct (fmt04_digits v) as (a & b & c & d & -> & Ha & Hb & Hc & Hd & _).
  unfold hd_match, TimeRE.re_Y, TimeRE.digit. rewrite !app_cons, app_nil.
  simpl. rewrite Ha. simpl. rewrite Hb. simpl. rewrite Hc. simpl. rewrite Hd.
  simpl. by eexists.
Qed.

Lemma to_int_fmt04 (v : Z) : (0 ≤ v ≤ 9999)%Z → Str.to_int (Str.fmt04 v) = Some v.
Proof.
  intros Hv.
  destruct (fmt04_digits v) as (a & b & c & d & -> & Ha & Hb & Hc & Hd & Hval).
  unfold Str.to_int, Str.strip.
  rewrite lstrip_nonblank by by apply digit_not_space.
  rewrite rstrip_nonblank.
  - simpl. rewrite Ha, Hb, Hc, Hd. f_equal. by apply Hval.
  - apply all_digits_nonblank. simpl. by rewrite Ha, Hb, Hc, Hd.
Qed.

(** ** Parsing what was formatted *)

(** What [time.strptime] returns once the first match of the pattern is
    known and takes the whole data. *)
Lemma time_strptime_found (fmt data m ty tm td tH tM tS : string) (re : regex)
    (Y M D h mi s : Z) :
  TimeRE.pattern fmt = Some re →
  hd_match re data [(GY, ty); (Gm, tm); (Gd, td); (GH, tH); (GM, tM); (GS, tS)] m "" →
  Str.to_int ty = Some Y → Str.to_int tm = Some M → Str.to_int td = Some D →
  Str.to_int tH = Some h → Str.to_int tM = Some mi → Str.to_int tS = Some s →
  time_strptime data fmt
  = if valid_date Y M D then Ok (mk_tm Y M D h mi s) else Raise ValueError.
Proof.
  intros Hre [tl Hm] HY HM HD Hh Hmi Hs. unfold time_strptime.
  rewrite Hre, Hm. unfold found_int. simpl.
  rewrite HY, HM, HD, Hh, Hmi, Hs. reflexivity.
Qed.

Lemma valid_date_month_day (Y M D : Z) :
  valid_date Y M D = true → (1 ≤ Y ≤ 9999 ∧ 1 ≤ M ≤ 12 ∧ 1 ≤ D ≤ 31)%Z.
Proof.
  unfold valid_date, days_in_month. intros H.
  repeat (apply andb_true_iff in H as [H ?]).
  repeat match goal with
         | |- context [if ?b then _ else _] => destruct b
         | H : context [if ?b then _ else _] |- _ => destruct b
         end; lia.
Qed.

Lemma valid_time_bounds (h mi s : Z) :
  valid_time h mi s = true → (0 ≤ h ≤ 23 ∧ 0 ≤ mi ≤ 59 ∧ 0 ≤ s ≤ 59)%Z.
Proof.
  unfold valid_time. intros H. repeat (apply andb_true_iff in H as [H ?]). lia.
Qed.

Lemma hd_blank_fmt02 (v : Z) (rest : string) :
  hd_match (RPlus CSpace) (" " +:+ Str.fmt02 v +:+ rest) [] " " (Str.fmt02 v +:+ rest).
Proof.
  apply (hd_blank (Str.digit_char ((v / 10) mod 10))).
  apply digit_not_space, digit_val_char.
  pose proof (Z.mod_pos_bound (v / 10) 10). lia.
Qed.

(** The first match of a whole pattern, piece by piece. *)
Ltac chain_matches :=
  repeat first
    [ apply hd_eps
    | apply hd_lit
    | apply hd_blank_fmt02
    | apply hd_Y
    | apply hd_m; lia
    | apply hd_d; lia
    | apply hd_H; lia
    | apply hd_M; lia
    | apply hd_S; lia
    | eapply hd_seq ].

Section ParseFormatted.

Variable d : datetime.
Hypothesis d_ok : datetime_ok d = true.

Lemma datetime_ok_bounds :
  (1 ≤ year d ≤ 9999 ∧ 1 ≤ month d ≤ 12 ∧ 1 ≤ day d ≤ 31
   ∧ 0 ≤ hour d ≤ 23 ∧ 0 ≤ minute d ≤ 59 ∧ 0 ≤ second d ≤ 59)%Z
  ∧ valid_date (year d) (month d) (day d) = true
  ∧ valid_time (hour d) (minute d) (second d) = true
  ∧ d = mk_datetime (year d) (month d) (day d) (hour d) (minute d) (second d) 0.
Proof.
  unfold datetime_ok in d_ok.
  apply andb_true_iff in d_ok as [[Hd Ht]%andb_true_iff Hus].
  pose proof (valid_date_month_day _ _ _ Hd).
  pose proof (valid_time_bounds _ _ _ Ht).
  split_and!; try lia; try done.
  destruct d; simpl in *. f_equal. lia.
Qed.

Lemma strptime_fields (fmt data m : string) (re : regex) (found : captures) :
  TimeRE.pattern fmt = Some re →
  hd_match re data found m "" →
  found
  = [(GY, Str.fmt04 (year d)); (Gm, Str.fmt02 (month d)); (Gd, Str.fmt02 (day d));
     (GH, Str.fmt02 (hour d)); (GM, Str.fmt02 (minute d)); (GS, Str.fmt02 (second d))] →
  strptime data fmt = Ok d.
Proof.
  intros Hre Hm ->.
  destruct datetime_ok_bounds as (Hb & Hd & Ht & Heq).
  unfold strptime.
  rewrite (time_strptime_found fmt data m _ _ _ _ _ _ re
             (year d) (month d) (day d) (hour d) (minute d) (second d) Hre Hm)
    by (first [apply to_int_fmt04 | apply to_int_fmt02]; lia).
  rewrite Hd. simpl. unfold datetime_new. rewrite Hd, Ht. simpl. by rewrite <- Heq.
Qed.

(** [strptime] reads back what [strftime] writes with the format of
    commit dates. *)
Lemma strptime_commit :
  strptime (strftime_go d COMMIT_DATE_FORMAT) COMMIT_DATE_FORMAT = Ok d.
Proof.
  destruct datetime_ok_bounds as (Hb & _).
  eapply strptime_fields; [vm_compute; reflexivity| |]; cycle 1; [shelve|].
  change (strftime_go d COMMIT_DATE_FORMAT)
    with (Str.fmt04 (year d) +:+ "-" +:+ Str.fmt02 (month d) +:+ "-"
          +:+ Str.fmt02 (day d) +:+ "T" +:+ Str.fmt02 (hour d) +:+ ":"
          +:+ Str.fmt02 (minute d) +:+ ":" +:+ Str.fmt02 (second d) +:+ "").
  chain_matches. Unshelve. reflexivity.
Qed.

(** The same with the format of Github dates. *)
Lemma strptime_github :
  strptime (strftime_go d GITHUB_DATE_FORMAT) GITHUB_DATE_FORMAT = Ok d.
Proof.
  destruct datetime_ok_bounds as (Hb & _).
  eapply strptime_fields; [vm_compute; reflexivity| |]; cycle 1; [shelve|].
  change (strftime_go d GITHUB_DATE_FORMAT)
    with (Str.fmt04 (year d) +:+ "/" +:+ Str.fmt02 (month d) +:+ "/"
          +:+ Str.fmt02 (day d) +:+ " " +:+ Str.fmt02 (hour d) +:+ ":"
          +:+ Str.fmt02 (minute d) +:+ ":" +:+ Str.fmt02 (second d) +:+ "").
  chain_matches. Unshelve. reflexivity.
Qed.

(** And the second grammar of user dates, with its [Z]. *)
Lemma strptime_zulu :
  strptime (strftime_go d COMMIT_DATE_FORMAT +:+ "Z") "%Y-%m-%dT%H:%M:%SZ" = Ok d.
Proof.
  destruct datetime_ok_bounds as (Hb & _).
  eapply strptime_fields; [vm_compute; reflexivity| |]; cycle 1; [shelve|].
  change (strftime_go d COMMIT_DATE_FORMAT +:+ "Z")
    with (Str.fmt04 (year d) +:+ "-" +:+ Str.fmt02 (month d) +:+ "-"
          +:+ Str.fmt02 (day d) +:+ "T" +:+ Str.fmt02 (hour d) +:+ ":"
          +:+ Str.fmt02 (minute d) +:+ ":" +:+ Str.fmt02 (second d) +:+ "Z" +:+ "").
  chain_matches. Unshelve. reflexivity.
Qed.

End ParseFormatted.

(** ** Wire texts *)

Lemma has_shape_cons (t : ascii) (tpl s : string) :
  has_shape (String t tpl) s = true →
  ∃ c s', s = String c s' ∧ shape_char t c = true ∧ has_shape tpl s' = true.
Proof.
  destruct s as [|c s']; [discriminate|]. simpl.
  intros [Hc Hs]%andb_true_iff. by exists c, s'.
Qed.

Lemma has_shape_nil (s : string) : has_shape "" s = true → s = "".
Proof. by destruct s. Qed.

Lemma shape_digit (c : ascii) : shape_char "9" c = true → Str.is_digit c = true.
Proof. done. Qed.

Lemma shape_sign (c : ascii) :
  shape_char "+" c = true → c = "+"%char ∨ c = "-"%char.
Proof.
  unfold shape_char. simpl.
  intros [H|H]%orb_true_iff; apply bool_decide_eq_true in H; auto.
Qed.

Lemma shape_lit (t c : ascii) :
  t ≠ "9"%char → t ≠ "+"%char → shape_char t c = true → c = t.
Proof.
  intros H9 Hs. unfold shape_char.
  rewrite !bool_decide_eq_false_2 by done. by intros ?%bool_decide_eq_true.
Qed.

(** Reads the characters of a text off its shape. *)
Ltac open_shape H :=
  repeat (let c := fresh "c" in
          let s := fresh "s" in
          let Hc := fresh "Hc" in
          apply has_shape_cons in H as (c & s & -> & Hc & H);
          first [ apply shape_digit in Hc
                | apply shape_sign in Hc
                | apply shape_lit in Hc; [subst c | discriminate | discriminate] ]);
  try (apply has_shape_nil in H as ->).

Lemma digits_value_2 (a b : ascii) :
  Str.is_digit a = true → Str.is_digit b = true →
  Str.fmt02 (default 0%Z (Str.digits_value 0 (String a (String b "")))) 
  = String a (String b "").
Proof. intros Ha Hb. digit_cases Ha; digit_cases Hb; reflexivity. Qed.

Lemma digits_value_4 (a b c d : ascii) :
  Str.is_digit a = true → Str.is_digit b = true →
  Str.is_digit c = true → Str.is_digit d = true →
  Str.fmt04 (default 0%Z (Str.digits_value 0
               (String a (String b (String c (String d ""))))))
  = String a (String b (String c (String d ""))).
Proof.
  intros Ha Hb Hc Hd. simpl. rewrite Ha, Hb, Hc, Hd. simpl.
  destruct (digit_char_val a Ha) as [Ea Ba], (digit_char_val b Hb) as [Eb Bb],
           (digit_char_val c Hc) as [Ec Bc], (digit_char_val d Hd) as [Ed Bd].
  unfold Str.fmt04, Str.fmt02.
  set (v := (10 * (10 * (10 * (10 * 0 + Str.digit_val a) + Str.digit_val b)
                   + Str.digit_val c) + Str.digit_val d)%Z).
  assert (((v / 1000) mod 10 = Str.digit_val a ∧ (v / 100) mod 10 = Str.digit_val b
           ∧ (v / 10) mod 10 = Str.digit_val c ∧ v mod 10 = Str.digit_val d)%Z)
    as (-> & -> & -> & ->).
  { subst v. Z.div_mod_to_equations. lia. }
  by rewrite Ea, Eb, Ec, Ed.
Qed.

(** The fields of the timestamp that a text writes, formatted, are the
    digits of the text, whatever separates them. *)
Lemma datetime_at_fields (y1 y2 y3 y4 m1 m2 d1 d2 h1 h2 i1 i2 s1 s2 : ascii)
    (p1 p2 p3 p4 p5 : ascii) (sfx : string) :
  all_digits (String y1 (String y2 (String y3 (String y4 (String m1 (String m2
             (String d1 (String d2 (String h1 (String h2 (String i1 (String i2
             (String s1 (String s2 "")))))))))))))) = true →
  let d := datetime_at
             (String y1 (String y2 (String y3 (String y4 (String p1
             (String m1 (String m2 (String p2 (String d1 (String d2 (String p3
             (String h1 (String h2 (String p4 (String i1 (String i2 (String p5
             (String s1 (String s2 sfx))))))))))))))))))) in
  Str.fmt04 (year d) = String y1 (String y2 (String y3 (String y4 "")))
  ∧ Str.fmt02 (month d) = String m1 (String m2 "")
  ∧ Str.fmt02 (day d) = String d1 (String d2 "")
  ∧ Str.fmt02 (hour d) = String h1 (String h2 "")
  ∧ Str.fmt02 (minute d) = String i1 (String i2 "")
  ∧ Str.fmt02 (second d) = String s1 (String s2 "")
  ∧ microsecond d = 0%Z.
Proof.
  intros H. simpl in H. repeat (apply andb_true_iff in H as [? H]).
  unfold datetime_at, num_at. cbn [substring year month day hour minute second microsecond].
  replace (substring 0 0 sfx) with "" by by destruct sfx.
  split_and!; first [by apply digits_value_4 | by apply digits_value_2 | done].
Qed.

(** ** Round trips *)

Lemma denotes_datetime_ok (text : string) :
  denotes_datetime text = true → datetime_ok (datetime_at text) = true.
Proof.
  unfold denotes_datetime, datetime_ok, datetime_at. simpl. intros ->. reflexivity.
Qed.

Ltac use_fields :=
  match goal with
  | |- context [datetime_at ?t] =>
      let Hf := fresh "Hf" in
      lazymatch t with
      | String ?y1 (String ?y2 (String ?y3 (String ?y4 (String ?p1
        (String ?m1 (String ?m2 (String ?p2 (String ?d1 (String ?d2 (String ?p3
        (String ?h1 (String ?h2 (String ?p4 (String ?i1 (String ?i2 (String ?p5
        (String ?s1 (String ?s2 ?sfx)))))))))))))))))) =>
          pose proof (datetime_at_fields y1 y2 y3 y4 m1 m2 d1 d2 h1 h2 i1 i2 s1 s2
                        p1 p2 p3 p4 p5 sfx) as Hf;
          cbv zeta in Hf;
          destruct Hf as (? & ? & ? & ? & ? & ? & ?);
          [simpl; repeat (rewrite_digit); reflexivity|]
      end
  end
with rewrite_digit :=
  match goal with
  | H : Str.is_digit ?c = true |- context [Str.is_digit ?c] => rewrite H
  end.

Lemma substring_0_0 (s : string) : substring 0 0 s = "".
Proof. by destruct s. Qed.

Ltac rewrite_fields :=
  repeat match goal with
         | E : Str.fmt04 _ = _ |- _ => rewrite E; clear E
         | E : Str.fmt02 _ = _ |- _ => rewrite E; clear E
         | E : microsecond _ = _ |- _ => rewrite E; clear E
         end.

(** Formatting the timestamp of a dashed text gives its first 19
    characters, with [strftime] as with [isoformat]. *)
Lemma dashed_text (text sfx : string) :
  has_shape ("9999-99-99T99:99:99" +:+ sfx) text = true →
  strftime_go (datetime_at text) COMMIT_DATE_FORMAT = Str.take 19 text
  ∧ isoformat (datetime_at text) = Str.take 19 text
  ∧ strftime_go (datetime_at text) GITHUB_DATE_FORMAT = github_prefix text
  ∧ nonblank (Str.take 19 text) = true
  ∧ ∃ rest, text = Str.take 19 text +:+ rest ∧ has_shape sfx rest = true.
Proof.
  intros H. rewrite !app_cons, app_nil in H. open_shape H.
  use_fields.
  set (d := datetime_at _) in *.
  split_and!.
  - change (strftime_go d COMMIT_DATE_FORMAT)
      with (Str.fmt04 (year d) +:+ "-" +:+ Str.fmt02 (month d) +:+ "-"
            +:+ Str.fmt02 (day d) +:+ "T" +:+ Str.fmt02 (hour d) +:+ ":"
            +:+ Str.fmt02 (minute d) +:+ ":" +:+ Str.fmt02 (second d)).
    rewrite_fields. reflexivity.
  - unfold isoformat. rewrite_fields. reflexivity.
  - change (strftime_go d GITHUB_DATE_FORMAT)
      with (Str.fmt04 (year d) +:+ "/" +:+ Str.fmt02 (month d) +:+ "/"
            +:+ Str.fmt02 (day d) +:+ " " +:+ Str.fmt02 (hour d) +:+ ":"
            +:+ Str.fmt02 (minute d) +:+ ":" +:+ Str.fmt02 (second d)).
    rewrite_fields. unfold github_prefix. cbn [substring].
    rewrite substring_0_0. reflexivity.
  - simpl.
    repeat match goal with
           | E : Str.is_digit ?c = true |- context [Str.is_space ?c] =>
               rewrite (digit_not_space c E)
           end; reflexivity.
  - eexists. split; [|eassumption]. reflexivity.
Qed.

(** The same for a text with slashes and a blank. *)
Lemma slashed_text (text sfx : string) :
  has_shape ("9999/99/99 99:99:99" +:+ sfx) text = true →
  strftime_go (datetime_at text) GITHUB_DATE_FORMAT = Str.take 19 text
  ∧ github_prefix text = Str.take 19 text
  ∧ ∃ date time rest,
      text = date +:+ String " " (time +:+ rest)
      ∧ Str.take 19 text = date +:+ String " " time
      ∧ nonblank date = true ∧ nonblank time = true
      ∧ date ≠ "" ∧ time ≠ "" ∧ has_shape sfx rest = true.
Proof.
  intros H. rewrite !app_cons, app_nil in H. open_shape H.
  use_fields.
  set (d := datetime_at _) in *.
  split_and!.
  - change (strftime_go d GITHUB_DATE_FORMAT)
      with (Str.fmt04 (year d) +:+ "/" +:+ Str.fmt02 (month d) +:+ "/"
            +:+ Str.fmt02 (day d) +:+ " " +:+ Str.fmt02 (hour d) +:+ ":"
            +:+ Str.fmt02 (minute d) +:+ ":" +:+ Str.fmt02 (second d)).
    rewrite_fields. reflexivity.
  - unfold github_prefix. cbn [substring]. rewrite substring_0_0. reflexivity.
  - match goal with
    | |- context [String ?y1 (String ?y2 (String ?y3 (String ?y4 (String "/"
           (String ?m1 (String ?m2 (String "/" (String ?d1 (String ?d2 (String " "
           (String ?h1 (String ?h2 (String ":" (String ?i1 (String ?i2 (String ":"
           (String ?s1 (String ?s2 ?s))))))))))))))))))] =>
        exists (String y1 (String y2 (String y3 (String y4 (String "/"
                 (String m1 (String m2 (String "/" (String d1 (String d2 "")))))))))),
               (String h1 (String h2 (String ":" (String i1 (String i2 (String ":"
                 (String s1 (String s2 "")))))))), s
    end.
    split_and!; try done; simpl;
      repeat match goal with
             | E : Str.is_digit ?c = true |- context [Str.is_space ?c] =>
                 rewrite (digit_not_space c E)
             end; reflexivity.
Qed.

Lemma ghdate_tokens (date time rest : string) :
  nonblank date = true → nonblank time = true → date ≠ "" → time ≠ "" →
  rest = "" ∨ (∃ r, rest = String " " r) →
  Str.join " " (take 2 (Str.split (Str.strip (date +:+ String " " (time +:+ rest)))))
  = date +:+ String " " time.
Proof.
  intros Hd Ht Hdn Htn Hrest.
  rewrite split_strip, (split_token_blank _ _ Hd Hdn).
  destruct Hrest as [-> | [r ->]].
  - rewrite app_empty_r, (split_token_end _ Ht Htn). reflexivity.
  - rewrite (split_token_blank _ _ Ht Htn). reflexivity.
Qed.

(** Parsing a Github date: the timestamp that its first 19 characters
    write, with or without what follows them. *)
Lemma ghdate_parse (text sfx : string) :
  has_shape ("9999/99/99 99:99:99" +:+ sfx) text = true →
  sfx = "" ∨ (∃ t, sfx = String " " t) →
  denotes_datetime text = true →
  ghdate_to_datetime (VStr text) = Ok (datetime_at text)
  ∧ ghdate_to_datetime (VStr (Str.take 19 text)) = Ok (datetime_at text).
Proof.
  intros Hshape Hsfx Hdt.
  destruct (slashed_text _ _ Hshape)
    as (Hfmt & _ & date & time & rest & Htext & Hpre & Hd & Ht & Hdn & Htn & Hrest).
  assert (Hr : rest = "" ∨ (∃ r, rest = String " " r)).
  { destruct Hsfx as [-> | [t ->]].
    - left. by apply has_shape_nil.
    - right. apply has_shape_cons in Hrest as (c & r & -> & Hc & _).
      apply shape_lit in Hc as ->; [by exists r | done | done]. }
  pose proof (strptime_github _ (denotes_datetime_ok _ Hdt)) as Hparse.
  rewrite Hfmt, Hpre in Hparse.
  unfold ghdate_to_datetime. split.
  - rewrite Htext at 1. rewrite (ghdate_tokens _ _ _ Hd Ht Hdn Htn Hr). exact Hparse.
  - rewrite Hpre at 1. rewrite <- (app_empty_r time) at 1.
    rewrite (ghdate_tokens date time "" Hd Ht Hdn Htn); auto.
Qed.

Lemma has_shape_length (tpl s : string) :
  has_shape tpl s = true → String.length s = String.length tpl.
Proof.
  revert s. induction tpl as [|t tpl IH]; intros [|c s]; try done. simpl.
  intros [_ H]%andb_true_iff. by rewrite (IH _ H).
Qed.

Lemma strftime_from_1900 (text fmt : string) :
  strftime_year text = true →
  strftime (datetime_at text) fmt = Ok (strftime_go (datetime_at text) fmt).
Proof.
  unfold strftime_year, strftime. simpl. intros H%Z.leb_le.
  by rewrite (proj2 (Z.ltb_ge _ _) H).
Qed.

Lemma rmatch_Y_only (a b c d : ascii) (rest : string) :
  Str.is_digit a = true → Str.is_digit b = true →
  Str.is_digit c = true → Str.is_digit d = true →
  rmatch TimeRE.re_Y (String a (String b (String c (String d rest))))
  = [([(GY, String a (String b (String c (String d ""))))],
      String a (String b (String c (String d ""))), rest)].
Proof.
  intros Ha Hb Hc Hd. unfold TimeRE.re_Y, TimeRE.digit. simpl.
  rewrite Ha. simpl. rewrite Hb. simpl. rewrite Hc. simpl. rewrite Hd. reflexivity.
Qed.

Lemma rmatch_seq_one (r1 r2 : regex) (s : string) (x : captures * string * string) :
  rmatch r1 s = [x] → rmatch r2 x.2 = [] → rmatch (RSeq r1 r2) s = [].
Proof.
  destruct x as [[f m] rest]. simpl. intros H1 H2.
  rewrite H1, bind_cons. simpl. rewrite H2. reflexivity.
Qed.

(** A dashed text is no Github date. *)
Lemma ghdate_refuses_dashed (text sfx : string) :
  has_shape ("9999-99-99T99:99:99" +:+ sfx) text = true → nonblank text = true →
  ghdate_to_datetime (VStr text) = Raise ValueError.
Proof.
  intros H Hnb. unfold ghdate_to_datetime.
  rewrite split_strip, (split_token_end _ Hnb).
  2:{ intros ->. discriminate H. }
  rewrite !app_cons, app_nil in H. open_shape H.
  unfold strptime, time_strptime.
  set (p := TimeRE.pattern _). vm_compute in p. subst p. cbv beta iota.
  erewrite rmatch_seq_one; [reflexivity | by apply rmatch_Y_only | reflexivity].
Qed.

Lemma nonblank_app (a b : string) :
  nonblank a = true → nonblank b = true → nonblank (a +:+ b) = true.
Proof.
  intros Ha Hb. induction a as [|c a IH]; [done|].
  rewrite app_cons. simpl in *. apply andb_true_iff in Ha as [-> Ha]. by apply IH.
Qed.

Lemma bind_ok {A B} (a : A) (k : A → result B) : (Ok a ≫= k) = k a.
Proof. reflexivity. Qed.

(** The round trip of an iso date gives the text back. *)
Lemma iso_round_trip (text : string) :
  valid_isodate text = true →
  isodate_to_datetime (VStr text) = Ok (datetime_at text)
  ∧ format_parse isodate_to_datetime datetime_to_isodate text = Ok text.
Proof.
  unfold valid_isodate. intros [Hs Hdt]%andb_true_iff.
  pose proof (has_shape_length _ _ Hs) as Hlen.
  destruct (dashed_text text "Z" Hs) as (Hfmt & Hiso & _ & _ & rest & Htext & Hrest).
  open_shape Hrest.
  assert (Hparse : isodate_to_datetime (VStr text) = Ok (datetime_at text)).
  { unfold isodate_to_datetime, Str.drop_last. rewrite Hlen.
    change (String.length iso_shape - 1) with 19. rewrite <- Hfmt.
    apply strptime_commit. by apply denotes_datetime_ok. }
  split; [exact Hparse|].
  unfold format_parse. rewrite Hparse, bind_ok.
  unfold datetime_to_isodate. rewrite Hiso. by rewrite <- Htext.
Qed.

(** The round trip of a commit date replaces its offset by the
    constant. *)
Lemma commit_round_trip (text : string) :
  valid_commitdate text = true →
  commitdate_to_datetime (VStr text) = Ok (datetime_at text)
  ∧ format_parse commitdate_to_datetime datetime_to_commitdate text
    = Ok (date_time_prefix text +:+ COMMIT_TIMEZONE).
Proof.
  unfold valid_commitdate. intros [[Hs Hdt]%andb_true_iff Hy]%andb_true_iff.
  pose proof (has_shape_length _ _ Hs) as Hlen.
  destruct (dashed_text text "+99:99" Hs) as (Hfmt & _).
  assert (Hparse : commitdate_to_datetime (VStr text) = Ok (datetime_at text)).
  { unfold commitdate_to_datetime, Str.drop_last. rewrite Hlen.
    change (String.length commit_shape - 6) with 19. rewrite <- Hfmt.
    apply strptime_commit. by apply denotes_datetime_ok. }
  split; [exact Hparse|].
  unfold format_parse. rewrite Hparse, bind_ok.
  unfold datetime_to_commitdate. rewrite (strftime_from_1900 _ _ Hy), bind_ok, Hfmt.
  reflexivity.
Qed.

(** A user date in either grammar is parsed to the timestamp it writes. *)
Lemma userdate_parse (text : string) :
  has_shape github_shape text || has_shape iso_shape text = true →
  denotes_datetime text = true →
  userdate_to_datetime (VStr text) = Ok (datetime_at text).
Proof.
  intros [Hs|Hs]%orb_true_iff Hdt; unfold userdate_to_datetime.
  - destruct (ghdate_parse text " +9999" Hs) as [-> _]; eauto.
  - destruct (dashed_text text "Z" Hs) as (Hfmt & _ & _ & Hnb & rest & Htext & Hrest).
    open_shape Hrest.
    rewrite (ghdate_refuses_dashed text "Z" Hs).
    + rewrite Htext at 1. rewrite <- Hfmt.
      apply strptime_zulu. by apply denotes_datetime_ok.
    + rewrite Htext. by apply nonblank_app.
Qed.

(** Formatting a user date always writes the Github grammar. *)
Lemma user_round_trip (text : string) :
  valid_userdate text = true →
  format_parse userdate_to_datetime datetime_to_ghdate text
  = Ok (github_prefix text +:+ " " +:+ GITHUB_TIMEZONE).
Proof.
  unfold valid_userdate. intros [[Hs Hdt]%andb_true_iff Hy]%andb_true_iff.
  unfold format_parse. rewrite (userdate_parse _ Hs Hdt), bind_ok.
  unfold datetime_to_ghdate. rewrite (strftime_from_1900 _ _ Hy), bind_ok.
  apply orb_true_iff in Hs as [Hs|Hs].
  - destruct (slashed_text text " +9999" Hs) as (-> & -> & _). reflexivity.
  - destruct (dashed_text text "Z" Hs) as (_ & _ & -> & _). reflexivity.
Qed.

(** ** The date codec *)

(** C4: for a valid Github date, formatting what was parsed gives the
    first 19 characters of the text, the date and the time, then a blank
    and the constant offset [-0700].  The offset of the text is dropped by
    the parse, which reads the prefix alone to the same timestamp, so the
    text comes back only when its offset was the constant. *)
Theorem ghdate_round_trip (text : string) :
  valid_ghdate text = true →
  ∃ d, ghdate_to_datetime (VStr text) = Ok d
       ∧ ghdate_to_datetime (VStr (date_time_prefix text)) = Ok d
       ∧ datetime_to_ghdate d = Ok (date_time_prefix text +:+ " " +:+ "-0700")
       ∧ format_parse ghdate_to_datetime datetime_to_ghdate text
         = Ok (date_time_prefix text +:+ " " +:+ "-0700")
       ∧ (format_parse ghdate_to_datetime datetime_to_ghdate text = Ok text
          ↔ text = date_time_prefix text +:+ " " +:+ "-0700").
Proof.
  unfold valid_ghdate. intros [[Hs Hdt]%andb_true_iff Hy]%andb_true_iff.
  destruct (ghdate_parse text " +9999" Hs) as [Hparse Hprefix]; eauto.
  destruct (slashed_text text " +9999" Hs) as (Hfmt & _).
  assert (Hformat : datetime_to_ghdate (datetime_at text)
                    = Ok (date_time_prefix text +:+ " " +:+ "-0700")).
  { unfold datetime_to_ghdate. rewrite (strftime_from_1900 _ _ Hy), bind_ok, Hfmt.
    reflexivity. }
  assert (Htrip : format_parse ghdate_to_datetime datetime_to_ghdate text
                  = Ok (date_time_prefix text +:+ " " +:+ "-0700")).
  { unfold format_parse. by rewrite Hparse, bind_ok. }
  exists (datetime_at text). split_and!; try done.
  rewrite Htrip. split; [intros [= H]; by symmetry | intros H; by rewrite <- H].
Qed.

Lemma ghdate_round_trip_witness :
  valid_ghdate "2011/06/07 08:09:10 +0100" = true
  ∧ format_parse ghdate_to_datetime datetime_to_ghdate "2011/06/07 08:09:10 +0100"
    = Ok "2011/06/07 08:09:10 -0700".
Proof.
  split; [reflexivity|].
  destruct (ghdate_round_trip "2011/06/07 08:09:10 +0100" eq_refl)
    as (d & _ & _ & _ & H & _).
  exact H.
Defined.

(** C5: the parse of user dates takes both grammars:
    ["2012/01/01 00:00:00 -0700"] and ["2012-01-01T00:00:00Z"] are parsed,
    to the same timestamp, and ["not-a-date"] raises the [ValueError] of a
    malformed date; so is every text of either grammar parsed, to the
    timestamp its digits write. *)
Theorem userdate_both_grammars :
  userdate_to_datetime (VStr "2012/01/01 00:00:00 -0700")
  = Ok (mk_datetime 2012 1 1 0 0 0 0)
  ∧ userdate_to_datetime (VStr "2012-01-01T00:00:00Z")
    = Ok (mk_datetime 2012 1 1 0 0 0 0)
  ∧ userdate_to_datetime (VStr "not-a-date") = Raise ValueError
  ∧ (∀ text, has_shape github_shape text || has_shape iso_shape text = true →
             denotes_datetime text = true →
             userdate_to_datetime (VStr text) = Ok (datetime_at text)).
Proof.
  split_and!; [reflexivity | reflexivity | reflexivity | apply userdate_parse].
Qed.

Lemma userdate_both_grammars_witness :
  userdate_to_datetime (VStr "2010-02-28T23:59:59Z")
  = Ok (mk_datetime 2010 2 28 23 59 59 0).
Proof.
  exact (proj2 (proj2 (proj2 userdate_both_grammars))
           "2010-02-28T23:59:59Z" eq_refl eq_refl).
Defined.

(** C1, as stated, fails: a commit date with another offset than the
    constant, and a user date of the second grammar, do not come back. *)
Lemma date_round_trip_counterexample :
  valid_commitdate "2009-03-21T18:01:48+01:00" = true
  ∧ format_parse commitdate_to_datetime datetime_to_commitdate
      "2009-03-21T18:01:48+01:00" = Ok "2009-03-21T18:01:48-07:00"
  ∧ valid_userdate "2012-01-01T00:00:00Z" = true
  ∧ format_parse userdate_to_datetime datetime_to_ghdate "2012-01-01T00:00:00Z"
    = Ok "2012/01/01 00:00:00 -0700"
  ∧ ¬ (round_trips valid_commitdate commitdate_to_datetime datetime_to_commitdate
       ∧ round_trips valid_userdate userdate_to_datetime datetime_to_ghdate
       ∧ round_trips valid_isodate isodate_to_datetime datetime_to_isodate).
Proof.
  split_and!; try reflexivity.
  intros (Hcommit & _ & _).
  specialize (Hcommit "2009-03-21T18:01:48+01:00" eq_refl).
  vm_compute in Hcommit. discriminate Hcommit.
Qed.

(** C1, amended: a valid iso date comes back unchanged; a valid commit
    date comes back with its offset replaced by the constant [-07:00]; a
    valid user date, of either grammar, comes back as the Github date of
    the same date and time with the offset [-0700]. *)
Theorem date_round_trips :
  round_trips valid_isodate isodate_to_datetime datetime_to_isodate
  ∧ (∀ text, valid_commitdate text = true →
       format_parse commitdate_to_datetime datetime_to_commitdate text
       = Ok (date_time_prefix text +:+ "-07:00"))
  ∧ (∀ text, valid_userdate text = true →
       format_parse userdate_to_datetime datetime_to_ghdate text
       = Ok (github_prefix text +:+ " " +:+ "-0700")).
Proof.
  split_and!.
  - intros text H. by apply iso_round_trip.
  - intros text H. by apply commit_round_trip.
  - apply user_round_trip.
Qed.

Lemma date_round_trips_witness :
  format_parse isodate_to_datetime datetime_to_isodate "2008-02-29T01:02:03Z"
  = Ok "2008-02-29T01:02:03Z"
  ∧ format_parse commitdate_to_datetime datetime_to_commitdate
      "2009-03-21T18:01:48+01:00" = Ok "2009-03-21T18:01:48-07:00"
  ∧ format_parse userdate_to_datetime datetime_to_ghdate "2012-01-01T00:00:00Z"
    = Ok "2012/01/01 00:00:00 -0700".
Proof.
  destruct date_round_trips as (Hiso & Hcommit & Huser).
  split_and!.
  - exact (Hiso "2008-02-29T01:02:03Z" eq_refl).
  - exact (Hcommit "2009-03-21T18:01:48+01:00" eq_refl).
  - exact (Huser "2012-01-01T00:00:00Z" eq_refl).
Defined.

(** ** Witnesses *)

Lemma requires_auth_guard_witness :
  ∃ g, requires_auth Sample.add_key = Ok g
       ∧ func_call g Sample.anonymous [] ∅ []
         = (Raise (AuthError "'add_key' requires an authenticated session"), [])
       ∧ func_call g Sample.with_token [] ∅ [] = (Ok (VStr "added"), []).
Proof.
  eexists. split; [reflexivity|]. split.
  - exact (proj1 (proj1 (requires_auth_guard Sample.add_key _ Sample.anonymous
                           [] ∅ [] eq_refl) eq_refl eq_refl)).
  - exact (proj2 (requires_auth_guard Sample.add_key _ Sample.with_token
                    [] ∅ [] eq_refl) (or_intror eq_refl)).
Defined.

Lemma requires_auth_truthiness_witness :
  ∃ g, requires_auth Sample.add_key = Ok g
       ∧ (∃ msg, func_call g (mk_command (mk_session (VStr "") VNone) "user") [] ∅ []
                 = (Raise (AuthError msg), []))
       ∧ func_call g (mk_command (mk_session (VStr "") (VInt 1)) "user") [] ∅ []
         = (Ok (VStr "added"), []).
Proof.
  eexists. split; [reflexivity|].
  destruct (requires_auth_truthiness Sample.add_key _ "user" [] ∅ [] eq_refl)
    as [Hfalsy Htruthy].
  split.
  - apply (Hfalsy (VStr "") VNone).
    + apply list_elem_of_further, list_elem_of_here.
    + apply list_elem_of_here.
  - exact (Htruthy (VStr "") (VInt 1) (or_intror eq_refl)).
Defined.

Lemma make_request_verb_witness :
  (make_request Sample.respond Sample.issues_cmd (VStr "open") []
     Sample.post_kwargs []).2
  = [mk_call POST "issues" (VStr "open") [] {[ "title" := VStr "Bug" ]}]
  ∧ (make_request Sample.respond Sample.issues_cmd (VStr "edit") [VInt 7]
       Sample.put_kwargs []).2
    = [mk_call PUT "issues" (VStr "edit") [VInt 7] {[ "title" := VStr "Bug" ]}]
  ∧ (make_request Sample.respond Sample.issues_cmd (VStr "close") [VInt 7]
       Sample.delete_kwargs []).2
    = [mk_call DELETE "issues" (VStr "close") [VInt 7] ∅]
  ∧ (make_request Sample.respond Sample.issues_cmd (VStr "list") [] ∅ []).2
    = [mk_call GET "issues" (VStr "list") [] ∅].
Proof.
  split_and!.
  - refine (proj1 (make_request_verb Sample.respond Sample.issues_cmd (VStr "open") []
                     Sample.post_kwargs "get" {[ "title" := VStr "Bug" ]} []
                     (or_introl eq_refl) (or_introl eq_refl)) _).
    split; [by right|]. apply truthy_dict. reflexivity.
  - refine (proj1 (proj2 (make_request_verb Sample.respond Sample.issues_cmd
                            (VStr "edit") [VInt 7] Sample.put_kwargs "put"
                            {[ "title" := VStr "Bug" ]} []
                            (or_introl eq_refl) (or_introl eq_refl))) _ eq_refl).
    intros [[H | H] _]; discriminate H.
  - refine (proj1 (proj2 (proj2 (make_request_verb Sample.respond Sample.issues_cmd
                                   (VStr "close") [VInt 7] Sample.delete_kwargs "Delete"
                                   ∅ [] (or_introl eq_refl) (or_introl eq_refl))))
              _ _ eq_refl).
    + intros [[H | H] _]; discriminate H.
    + discriminate.
  - refine (proj1 (proj2 (proj2 (proj2 (make_request_verb Sample.respond
              Sample.issues_cmd (VStr "list") [] ∅ "GET" ∅ []
              (or_intror (conj eq_refl eq_refl))
              (or_intror (conj eq_refl (or_introl eq_refl)))))))
              _ _ _).
    + intros [_ H]. by apply H.
    + discriminate.
    + discriminate.
Defined.

Lemma make_request_filter_witness :
  make_request Sample.respond Sample.issues_cmd (VStr "list") []
    Sample.filter_kwargs []
  = (Ok (VInt 7), [mk_call GET "issues" (VStr "list") [] ∅]).
Proof.
  destruct (make_request_filter Sample.respond Sample.issues_cmd (VStr "list") []
              Sample.filter_kwargs [] [mk_call GET "issues" (VStr "list") [] ∅]
              (VDict {[ "items" := VInt 7 ]}) eq_refl) as (_ & Hkey & _).
  destruct (Hkey "items" {[ "items" := VInt 7 ]} eq_refl) as [Hfound _];
    [discriminate | reflexivity |].
  exact (Hfound (VInt 7) eq_refl).
Defined.

Lemma date_conversions_guarded_witness :
  to_python (DateAttribute "Creation date" "github")
    (VDatetime (mk_datetime 2009 5 20 12 30 45 0))
  = Ok (VDatetime (mk_datetime 2009 5 20 12 30 45 0))
  ∧ from_python (DateAttribute "Creation date" "github") (VStr "2009/05/20")
    = Ok (VStr "2009/05/20").
Proof.
  split.
  - apply (proj1 (date_conversions_guarded (DateAttribute "Creation date" "github")
                    (VDatetime (mk_datetime 2009 5 20 12 30 45 0)))).
    left. reflexivity.
  - apply (proj1 (proj2 (proj2 (date_conversions_guarded
                                  (DateAttribute "Creation date" "github")
                                  (VStr "2009/05/20"))))).
    left. reflexivity.
Defined.

Lemma constructor_stores_witness :
  constructor Sample.repository (map_to_list Sample.repository_kwargs)
  = Ok Sample.repository_instance
  ∧ (∃ d, Sample.repository_instance !! "created_at" = Some (VDatetime d))
  ∧ Sample.repository_instance !! "forks" = Some (VInt 3).
Proof.
  assert (Hc : constructor Sample.repository (map_to_list Sample.repository_kwargs)
               = Ok Sample.repository_instance) by (vm_compute; reflexivity).
  split; [exact Hc|].
  destruct (constructor_stores Sample.repository Sample.repository_kwargs
              (map_to_list Sample.repository_kwargs) sample_repository_plain
              sample_repository_fields (reflexivity _)) as [_ Hst].
  split.
  - destruct (Hst _ Hc "created_at" (VStr "2009/05/20 12:30:45 -0700") eq_refl)
      as (_ & Hdate & _).
    apply (Hdate "Creation date" "github" "2009/05/20 12:30:45 -0700");
      [reflexivity | reflexivity | discriminate].
  - destruct (Hst _ Hc "forks" (VInt 3) eq_refl) as (_ & _ & Hraw).
    apply Hraw. reflexivity.
Defined.

Lemma iterate_assigned_witness :
  (∀ v, ("name", v) ∉ iterate Sample.repository_instance)
  ∧ ("forks", VInt 3) ∈ iterate Sample.repository_instance.
Proof.
  destruct (iterate_assigned Sample.repository_instance) as (Hiter & _ & Hfresh).
  split.
  - refine (proj2 (Hfresh Sample.repository Sample.repository_kwargs
                     (map_to_list Sample.repository_kwargs) sample_repository_plain
                     (reflexivity _) _)
              "name" _ _ _).
    + vm_compute. reflexivity.
    + eexists. reflexivity.
    + reflexivity.
    + intros d Hd. discriminate Hd.
  - apply Hiter. split; [reflexivity | discriminate].
Defined.

(** * Further properties *)

(** ** [repr_string] *)

Lemma length_take (n : nat) (s : string) :
  String.length (Str.take n s) = n `min` String.length s.
Proof.
  revert s. induction n as [|n IH]; intros [|c s]; simpl; try done.
  by rewrite IH.
Qed.

Lemma length_app (a b : string) :
  String.length (a +:+ b) = String.length a + String.length b.
Proof. induction a as [|c a IH]; [done|]. rewrite app_cons. simpl. by rewrite IH. Qed.

(** X1: whatever the interpreter, a string that [repr_string] returns has
    at most 20 characters: the string itself when it has no more, else its
    first 17 characters and three dots, 20 in all; shortening again changes
    nothing.  Under Python 3, where nothing is decoded, it always
    returns. *)
Theorem repr_string_bound (PY3K : bool) (decodes : string → bool) (s : string) :
  (PY3K = true → ∃ r, repr_string PY3K decodes s = Ok r)
  ∧ (∀ r, repr_string PY3K decodes s = Ok r →
       String.length r ≤ 20
       ∧ (String.length s ≤ 20 → r = s)
       ∧ (20 < String.length s →
          r = Str.take 17 s +:+ "..." ∧ String.length r = 20)
       ∧ repr_string PY3K decodes r = Ok r).
Proof.
  unfold repr_string. split.
  - intros ->. simpl. by eexists.
  - intros r.
    assert (Hlong : 20 < String.length s →
                    String.length (Str.take 17 s +:+ "...") = 20).
    { intros H. rewrite length_app, length_take, Nat.min_l by lia. reflexivity. }
    destruct (20 <? String.length s) eqn:E.
    + apply Nat.ltb_lt in E. specialize (Hlong E).
      set (t := Str.take 17 s +:+ "...") in *.
      destruct (negb PY3K && negb (decodes t)) eqn:D; [discriminate|].
      intros Hr. assert (r = t) as -> by congruence. split_and!.
      * lia.
      * intros H. exfalso. lia.
      * done.
      * rewrite Hlong. change (20 <? 20) with false. cbv iota. by rewrite D.
    + apply Nat.ltb_ge in E.
      destruct (negb PY3K && negb (decodes s)) eqn:D; [discriminate|].
      intros Hr. assert (r = s) as -> by congruence. split_and!.
      * lia.
      * done.
      * intros H. exfalso. lia.
      * rewrite (proj2 (Nat.ltb_ge _ _) E). by rewrite D.
Qed.

Lemma repr_string_bound_witness :
  repr_string false (λ _, true) "a-rather-long-repository-name"
  = Ok "a-rather-long-rep..."
  ∧ String.length "a-rather-long-rep..." = 20.
Proof.
  destruct (proj2 (repr_string_bound false (λ _, true) "a-rather-long-repository-name")
              "a-rather-long-rep..." eq_refl) as (_ & _ & Hlong & _).
  split; [reflexivity|]. apply Hlong. simpl. lia.
Defined.

(** ** Stacking the guards *)

(** X2: the two guards stack in either order on a function with a
    docstring, and the call is guarded either way; but [requires_auth]
    makes a new function that carries the [requires_auth] mark alone, so
    the mark of [enhanced_by_auth] survives only when that guard is applied
    last.  The name is kept, and both notes are added to the docstring, in
    the order of application.  A function without a docstring cannot be
    decorated: adding the note raises a [TypeError]. *)
Theorem guards_stack (f : pyfunc) :
  (func_doc f = None →
   requires_auth f = Raise TypeError ∧ enhanced_by_auth f = Raise TypeError)
  ∧ (∀ doc, func_doc f = Some doc →
     ∃ g1 g2,
       (e ← enhanced_by_auth f; requires_auth e) = Ok g1
       ∧ (r ← requires_auth f; enhanced_by_auth r) = Ok g2
       ∧ func_call g1 = wrapper f ∧ func_call g2 = wrapper f
       ∧ func_name g1 = func_name f ∧ func_name g2 = func_name f
       ∧ func_requires_auth g1 = true ∧ func_enhanced_by_auth g1 = false
       ∧ func_requires_auth g2 = true ∧ func_enhanced_by_auth g2 = true
       ∧ func_doc g1
         = Some (doc +:+ newline
                 +:+ ".. note:: This call is enhanced with authentication"
                 +:+ newline +:+ ".. warning:: Requires authentication")
       ∧ func_doc g2
         = Some (doc +:+ newline +:+ ".. warning:: Requires authentication"
                 +:+ newline
                 +:+ ".. note:: This call is enhanced with authentication")).
Proof.
  unfold requires_auth, enhanced_by_auth. split.
  - intros ->. done.
  - intros doc ->. simpl. do 2 eexists. split_and!; try reflexivity.
    + simpl. by rewrite !app_assoc_string.
    + simpl. by rewrite !app_assoc_string.
Qed.

Lemma guards_stack_witness :
  ∃ g1 g2,
    (e ← enhanced_by_auth Sample.add_key; requires_auth e) = Ok g1
    ∧ (r ← requires_auth Sample.add_key; enhanced_by_auth r) = Ok g2
    ∧ func_enhanced_by_auth g1 = false ∧ func_enhanced_by_auth g2 = true.
Proof.
  destruct (proj2 (guards_stack Sample.add_key) "Add a public key" eq_refl)
    as (g1 & g2 & H1 & H2 & _ & _ & _ & _ & _ & E1 & _ & E2 & _).
  exists g1, g2. auto.
Defined.

(** ** The calls of [make_request] *)

Lemma as_mapping_not_dict (v : value) :
  (∀ d, v ≠ VDict d) → as_mapping v = Raise TypeError.
Proof. intros H. destruct v; try reflexivity. by destruct (H d). Qed.

Lemma method_upper_not_str (v : value) :
  (∀ s, v ≠ VStr s) → method_upper v = Raise AttributeError.
Proof. intros H. destruct v; try reflexivity. by destruct (H s). Qed.

(** X3: [make_request] never makes more than one call on the transport,
    and the call it makes goes to the domain of its command group, with
    the command and the positional arguments it was given.  When it makes
    none it has raised an [AttributeError] (the method is no string) or a
    [TypeError] (the post data is no mapping), and the log is as it
    was. *)
Theorem make_request_one_call (respond : list call → call → result value)
    (self : command) (cmd : value) (args : list value)
    (kwargs : gmap string value) (log : list call) :
  (make_request respond self cmd args kwargs log = (Raise AttributeError, log)
   ∨ make_request respond self cmd args kwargs log = (Raise TypeError, log))
  ∨ (∃ v fields,
       (make_request respond self cmd args kwargs log).2
       = log ++ [mk_call v (domain self) cmd args fields]).
Proof.
  rewrite make_request_log, make_request_unfold.
  unfold make_request_response, op_bind, lift, transport, issues.
  destruct (kw_method kwargs) as [| | |m| | |]; simpl; try (by left; left).
  destruct (kw_post_data kwargs) as [| | | | | |pd]; simpl;
    repeat (match goal with |- context [if ?b then _ else _] => destruct b end;
            simpl; try (by left; right); try (by right; eauto)).
Qed.

(** X4: the errors of [make_request].  A method that is no string raises
    an [AttributeError], and post data that is true and no mapping raises a
    [TypeError] under the verbs POST, GET, PUT and DELETE, both before any
    call; under any other verb such post data is not looked at and the GET
    is made.  An exception of the transport comes out as it is, the call
    logged and the filter not applied. *)
Theorem make_request_errors (respond : list call → call → result value)
    (self : command) (cmd : value) (args : list value)
    (kwargs : gmap string value) (log : list call) :
  ((∀ s, kw_method kwargs ≠ VStr s) →
   make_request respond self cmd args kwargs log = (Raise AttributeError, log))
  ∧ (∀ m, method_upper (kw_method kwargs) = Ok m →
          (∀ d, kw_post_data kwargs ≠ VDict d) →
          (m ∈ ["POST"; "GET"; "PUT"; "DELETE"] →
           make_request respond self cmd args kwargs log = (Raise TypeError, log))
          ∧ (m ∉ ["POST"; "GET"; "PUT"; "DELETE"] →
             (make_request respond self cmd args kwargs log).2
             = log ++ [mk_call GET (domain self) cmd args ∅]))
  ∧ (∀ e log', make_request_response respond self cmd args kwargs log
               = (Raise e, log') →
               make_request respond self cmd args kwargs log = (Raise e, log')).
Proof.
  split_and!.
  - intros H. rewrite make_request_unfold.
    unfold make_request_response, op_bind, lift.
    by rewrite (method_upper_not_str _ H).
  - intros m Hm Hpd.
    assert (Htruthy : truthy (kw_post_data kwargs) = true).
    { unfold kw_post_data in *. destruct (kwargs !! "post_data") as [v|].
      - destruct (truthy v) eqn:E; [done|]. by destruct (Hpd ∅).
      - by destruct (Hpd ∅). }
    pose proof (as_mapping_not_dict _ Hpd) as Hmap.
    split.
    + intros Hin. rewrite make_request_unfold.
      unfold make_request_response, op_bind, lift.
      rewrite Hm, Htruthy, Hmap. simpl.
      repeat (apply elem_of_cons in Hin as [-> | Hin]; [reflexivity|]).
      by apply elem_of_nil in Hin.
    + intros Hout. rewrite make_request_log.
      unfold make_request_response, op_bind, lift.
      rewrite Hm, Htruthy. rewrite !not_elem_of_cons in Hout.
      destruct Hout as (H1 & H2 & H3 & H4 & _).
      rewrite !bool_decide_eq_false_2 by done. reflexivity.
  - intros e log' H. by rewrite make_request_unfold, H.
Qed.

Lemma make_request_errors_witness :
  (make_request Sample.respond Sample.issues_cmd (VStr "list") []
     Sample.odd_kwargs []).2
  = [mk_call GET "issues" (VStr "list") [] ∅]
  ∧ make_request Sample.respond Sample.issues_cmd (VStr "list") []
      {[ "method" := VNone ]} []
    = (Raise AttributeError, []).
Proof.
  split.
  - refine (proj2 (proj1 (proj2 (make_request_errors Sample.respond Sample.issues_cmd
                                    (VStr "list") [] Sample.odd_kwargs []))
                     "PATCH" eq_refl _) _).
    + intros d. discriminate.
    + rewrite !not_elem_of_cons. split_and!; try discriminate. apply not_elem_of_nil.
  - apply (proj1 (make_request_errors Sample.respond Sample.issues_cmd
                    (VStr "list") [] {[ "method" := VNone ]} [])).
    intros s. discriminate.
Defined.

(** ** Typed retrieval *)

(** Without the key [__dict__], the keys of a constructed instance are
    those of the mapping. *)
Lemma constructor_keys (cls : record_type) (kwargs inst : gmap string value)
    (its : list (string * value)) :
  kwargs !! "__dict__" = None →
  its ≡ₚ map_to_list kwargs → constructor cls its = Ok inst →
  ∀ k, is_Some (inst !! k) ↔ is_Some (kwargs !! k).
Proof.
  intros Hd Hp [_ Hc]%constructor_ok k.
  destruct (items_of_kwargs _ _ Hp) as (Hnd & Hin & Hkeys).
  rewrite (constructor_go_dom cls its ∅ inst); [| |exact Hc].
  - rewrite <- Hkeys, lookup_empty. split; [intros [[? [=]] | ?]; done | by right].
  - intros Hmem. apply Hkeys in Hmem as [x Hx]. congruence.
Qed.

Lemma fields_no_dict (kwargs : gmap string value) :
  (∀ k, is_Some (kwargs !! k) → reserved_name k = false) →
  kwargs !! "__dict__" = None.
Proof.
  intros H. destruct (kwargs !! "__dict__") as [v|] eqn:E; [|done].
  discriminate (H "__dict__"). by exists v.
Qed.

Section RetrievalProps.

Variable respond : list call → call → result value.
Variable items : gmap string value → list (string * value).
Hypothesis items_perm : ∀ d, items d ≡ₚ map_to_list d.

Variables (self : command) (args : list value) (kwargs : gmap string value).

Lemma get_value_unfold (datatype : option record_type) (log : list call) :
  get_value respond items self args kwargs datatype log
  = match call_make_request respond self args kwargs log with
    | (Ok v, log') =>
        (match datatype with
         | Some cls => inst ← build items cls v; Ok (inr inst)
         | None => Ok (inl v)
         end, log')
    | (Raise e, log') => (Raise e, log')
    end.
Proof.
  unfold get_value, op_bind.
  destruct (call_make_request _ _ _ _ _) as [[v|e] log']; [|done].
  by destruct datatype.
Qed.

Lemma get_values_unfold (datatype : option record_type) (log : list call) :
  get_values respond items self args kwargs datatype log
  = match call_make_request respond self args kwargs log with
    | (Ok v, log') =>
        (match datatype with
         | Some cls =>
             l ← iter_values items v; insts ← build_all items cls l; Ok (inr insts)
         | None => Ok (inl v)
         end, log')
    | (Raise e, log') => (Raise e, log')
    end.
Proof.
  unfold get_values, op_bind.
  destruct (call_make_request _ _ _ _ _) as [[v|e] log']; [|done].
  by destruct datatype.
Qed.

(** What [build] makes of a mapping whose keys are names of fields. *)
Lemma build_mapping (cls : record_type) (d : gmap string value) :
  plain_class cls →
  (∀ k, is_Some (d !! k) → reserved_name k = false) →
  (∀ k v attr, d !! k = Some v → _meta cls !! k = Some attr →
               ∃ w, to_python attr v = Ok w) →
  ∃ inst,
    build items cls (VDict d) = Ok inst
    ∧ (∀ k, is_Some (inst !! k) ↔ is_Some (d !! k))
    ∧ (∀ k v, d !! k = Some v →
         match _meta cls !! k with
         | Some attr => ∃ w, to_python attr v = Ok w ∧ inst !! k = Some w
         | None => inst !! k = Some v
         end).
Proof.
  intros Hcls Hfields Hconv. simpl.
  destruct (items_of_kwargs _ _ (items_perm d)) as (Hnd & Hin & Hkeys).
  destruct (items_not_reserved _ _ (items_perm d) Hfields) as [Hself Hnames].
  destruct (constructor_go_total cls (items d) ∅) as [inst Hinst];
    [by apply plain_class_meta | done | done | |].
  { intros k v attr Hkv. apply Hconv. by apply Hin. }
  assert (Hc : constructor cls (items d) = Ok inst) by by apply constructor_ok.
  exists inst. split_and!; [exact Hc | |].
  - apply (constructor_keys cls d inst (items d)); [by apply fields_no_dict | done..].
  - intros k v Hkv.
    destruct (constructor_go_lookup cls (items d) ∅ inst Hnd Hnames (lookup_empty _)
                Hinst k) as [Hst _].
    apply Hst. by apply Hin.
Qed.

End RetrievalProps.

(** X5: typed retrieval of one record.  When the request answers with a
    mapping whose keys are names of fields (none is [self], which the
    call of the constructor binds, or a name of the machinery) and whose
    declared fields all convert, [get_value] with a datatype made of
    fields returns an instance of it and makes no call beyond the one of
    the request: the instance has exactly the keys of the mapping, a
    declared field holds what [to_python] of its descriptor makes of the
    value, any other field the value as it is. *)
Theorem get_value_typed (respond : list call → call → result value)
    (items : gmap string value → list (string * value))
    (self : command) (args : list value) (kwargs : gmap string value)
    (cls : record_type) (d : gmap string value) (log log' : list call) :
  (∀ m, items m ≡ₚ map_to_list m) →
  call_make_request respond self args kwargs log = (Ok (VDict d), log') →
  plain_class cls →
  (∀ k, is_Some (d !! k) → reserved_name k = false) →
  (∀ k v attr, d !! k = Some v → _meta cls !! k = Some attr →
               ∃ w, to_python attr v = Ok w) →
  ∃ inst,
    get_value respond items self args kwargs (Some cls) log = (Ok (inr inst), log')
    ∧ (∀ k, is_Some (inst !! k) ↔ is_Some (d !! k))
    ∧ (∀ k v, d !! k = Some v →
         match _meta cls !! k with
         | Some attr => ∃ w, to_python attr v = Ok w ∧ inst !! k = Some w
         | None => inst !! k = Some v
         end).
Proof.
  intros Hperm Hcall Hcls Hfields Hconv.
  destruct (build_mapping items Hperm cls d Hcls Hfields Hconv)
    as (inst & Hb & Hkeys & Hst).
  exists inst. split_and!; [|done..].
  rewrite get_value_unfold, Hcall, Hb. reflexivity.
Qed.

(** X6: the edges of [get_value].  The command is the first of the
    positional arguments, or the keyword [command] when there is none:
    given neither way, or both ways, the call raises a [TypeError] and
    nothing is sent; given by keyword, the call is the one with the
    command in the first place.  [get_value] makes the calls of the
    request and no other.  An exception of the request comes out as it
    is.  Without a datatype the response is returned as it is; with one,
    a response that is no mapping raises an [AttributeError], a mapping
    with the key [self] a [TypeError], and an exception of the
    construction comes out, all three after the call was made. *)
Theorem get_value_edges (respond : list call → call → result value)
    (items : gmap string value → list (string * value))
    (self : command) (args : list value) (kwargs : gmap string value)
    (datatype : option record_type) (log : list call) :
  (args = [] → kwargs !! "command" = None →
   get_value respond items self args kwargs datatype log = (Raise TypeError, log))
  ∧ (args ≠ [] → is_Some (kwargs !! "command") →
     get_value respond items self args kwargs datatype log = (Raise TypeError, log))
  ∧ (∀ cmd, args = [] → kwargs !! "command" = Some cmd → kwargs !! "self" = None →
       get_value respond items self args kwargs datatype log
       = get_value respond items self [cmd] (delete "command" kwargs) datatype log)
  ∧ (get_value respond items self args kwargs datatype log).2
    = (call_make_request respond self args kwargs log).2
  ∧ (∀ e log', call_make_request respond self args kwargs log = (Raise e, log') →
       get_value respond items self args kwargs datatype log = (Raise e, log'))
  ∧ (∀ v log', call_make_request respond self args kwargs log = (Ok v, log') →
       get_value respond items self args kwargs None log = (Ok (inl v), log')
       ∧ (∀ cls, (∀ d, v ≠ VDict d) →
            get_value respond items self args kwargs (Some cls) log
            = (Raise AttributeError, log'))
       ∧ (∀ cls d, v = VDict d → items d ≡ₚ map_to_list d →
            is_Some (d !! "self") →
            get_value respond items self args kwargs (Some cls) log
            = (Raise TypeError, log'))
       ∧ (∀ cls d e, v = VDict d → constructor cls (items d) = Raise e →
            get_value respond items self args kwargs (Some cls) log
            = (Raise e, log'))).
Proof.
  split_and!.
  - intros -> Hcmd. rewrite get_value_unfold. unfold call_make_request.
    rewrite Hcmd. by destruct (kwargs !! "self").
  - intros Hargs [cmd Hcmd]. rewrite get_value_unfold. unfold call_make_request.
    rewrite Hcmd. destruct args; [done|]. by destruct (kwargs !! "self").
  - intros cmd -> Hcmd Hself. rewrite !get_value_unfold. unfold call_make_request.
    by rewrite Hself, Hcmd, lookup_delete_ne, Hself, lookup_delete_eq.
  - rewrite get_value_unfold.
    by destruct (call_make_request _ _ _ _ _) as [[v|e] log'].
  - intros e log' H. by rewrite get_value_unfold, H.
  - intros v log' H. split_and!.
    + by rewrite get_value_unfold, H.
    + intros cls Hv. rewrite get_value_unfold, H.
      destruct v; try reflexivity. by destruct (Hv d).
    + intros cls d -> Hp Hself. rewrite get_value_unfold, H. simpl.
      destruct (items_of_kwargs _ _ Hp) as (_ & _ & Hkeys). apply Hkeys in Hself.
      unfold constructor. by rewrite bool_decide_eq_true_2.
    + intros cls d e -> Hc. rewrite get_value_unfold, H. simpl. by rewrite Hc.
Qed.

Lemma build_all_Forall2 (items : gmap string value → list (string * value))
    (cls : record_type) (l : list value) :
  Forall (λ v, ∃ inst, build items cls v = Ok inst) l →
  ∃ insts, build_all items cls l = Ok insts
           ∧ Forall2 (λ v inst, build items cls v = Ok inst) l insts.
Proof.
  induction 1 as [|v l [inst Hv] _ (insts & Hl & HF)]; [by exists []|].
  exists (inst :: insts). simpl. rewrite Hv. simpl. rewrite Hl. split; [done|].
  by constructor.
Qed.

Lemma build_all_fails (items : gmap string value → list (string * value))
    (cls : record_type) (l1 l2 : list value) (v : value) (e : exn) :
  Forall (λ v, ∃ inst, build items cls v = Ok inst) l1 →
  build items cls v = Raise e →
  build_all items cls (l1 ++ v :: l2) = Raise e.
Proof.
  intros H Hv. induction H as [|x l [inst Hx] _ IH]; simpl.
  - by rewrite Hv.
  - rewrite Hx. simpl. by rewrite IH.
Qed.

(** X7: typed retrieval of a list.  When the request answers with a list
    of mappings whose keys are names of fields (none is [self] or a name
    of the machinery) and whose declared fields all convert, [get_values]
    with a datatype made of fields returns one instance for each element,
    in the order of the list, each with the keys and the values that the
    construction from its mapping gives; no call is made beyond the one of
    the request. *)
Theorem get_values_typed (respond : list call → call → result value)
    (items : gmap string value → list (string * value))
    (self : command) (args : list value) (kwargs : gmap string value)
    (cls : record_type) (l : list value) (log log' : list call) :
  (∀ m, items m ≡ₚ map_to_list m) →
  call_make_request respond self args kwargs log = (Ok (VList l), log') →
  plain_class cls →
  Forall (λ v, ∃ d, v = VDict d
               ∧ (∀ k, is_Some (d !! k) → reserved_name k = false)
               ∧ ∀ k x attr, d !! k = Some x → _meta cls !! k = Some attr →
                             ∃ w, to_python attr x = Ok w) l →
  ∃ insts,
    get_values respond items self args kwargs (Some cls) log = (Ok (inr insts), log')
    ∧ Forall2 (λ v inst,
         ∃ d, v = VDict d
              ∧ (∀ k, is_Some (inst !! k) ↔ is_Some (d !! k))
              ∧ (∀ k x, d !! k = Some x →
                   match _meta cls !! k with
                   | Some attr => ∃ w, to_python attr x = Ok w ∧ inst !! k = Some w
                   | None => inst !! k = Some x
                   end)) l insts.
Proof.
  intros Hperm Hcall Hcls Hl.
  assert (Hbuild : ∃ insts,
             build_all items cls l = Ok insts
             ∧ Forall2 (λ v inst,
                 ∃ d, v = VDict d
                      ∧ (∀ k, is_Some (inst !! k) ↔ is_Some (d !! k))
                      ∧ (∀ k x, d !! k = Some x →
                           match _meta cls !! k with
                           | Some attr => ∃ w, to_python attr x = Ok w ∧ inst !! k = Some w
                           | None => inst !! k = Some x
                           end)) l insts).
  { clear Hcall. induction Hl as [|v l Hv _ IH]; [by exists []|].
    destruct Hv as (d & -> & Hfields & Hconv). destruct IH as (insts & Hall & HF).
    destruct (build_mapping items Hperm cls d Hcls Hfields Hconv)
      as (inst & Hb & Hkeys & Hst).
    exists (inst :: insts). split.
    - change (build_all items cls (VDict d :: l))
        with (i ← build items cls (VDict d); r ← build_all items cls l; Ok (i :: r)).
      rewrite Hb. simpl. by rewrite Hall.
    - constructor; [|done]. by exists d. }
  destruct Hbuild as (insts & Hall & HF). exists insts. split; [|done].
  rewrite get_values_unfold, Hcall. simpl. by rewrite Hall.
Qed.

(** X8: the edges of [get_values] with a datatype.  An empty list, an
    empty mapping and an empty string give no instance at all; a mapping
    that is not empty raises an [AttributeError], since the loop goes
    through its keys; [None] and numbers raise a [TypeError].  The first
    element of a list that cannot be built ends the loop with its
    exception.  Without a datatype the response is returned as it is. *)
Theorem get_values_edges (respond : list call → call → result value)
    (items : gmap string value → list (string * value))
    (self : command) (args : list value) (kwargs : gmap string value)
    (cls : record_type) (v : value) (log log' : list call) :
  (∀ m, items m ≡ₚ map_to_list m) →
  call_make_request respond self args kwargs log = (Ok v, log') →
  get_values respond items self args kwargs None log = (Ok (inl v), log')
  ∧ (v = VList [] ∨ v = VDict ∅ ∨ v = VStr "" →
     get_values respond items self args kwargs (Some cls) log = (Ok (inr []), log'))
  ∧ (∀ d, v = VDict d → d ≠ ∅ →
     get_values respond items self args kwargs (Some cls) log
     = (Raise AttributeError, log'))
  ∧ (v = VNone ∨ (∃ n, v = VInt n) ∨ (∃ b, v = VBool b) →
     get_values respond items self args kwargs (Some cls) log
     = (Raise TypeError, log'))
  ∧ (∀ l1 x l2 e, v = VList (l1 ++ x :: l2) →
       Forall (λ y, ∃ inst, build items cls y = Ok inst) l1 →
       build items cls x = Raise e →
       get_values respond items self args kwargs (Some cls) log = (Raise e, log')).
Proof.
  intros Hperm Hcall. rewrite !get_values_unfold, Hcall. split_and!.
  - reflexivity.
  - intros [-> | [-> | ->]]; try reflexivity.
    simpl. pose proof (Hperm ∅) as H. rewrite map_to_list_empty in H.
    apply Permutation_nil_r in H. by rewrite H.
  - intros d -> Hd. simpl.
    destruct (items d) as [|[k x] its] eqn:E; [|reflexivity].
    destruct Hd. apply map_to_list_empty_iff.
    pose proof (Hperm d) as H. rewrite E in H. by apply Permutation_nil in H.
  - intros [-> | [[n ->] | [b ->]]]; reflexivity.
  - intros l1 x l2 e -> Hl1 Hx. simpl.
    by rewrite (build_all_fails items cls l1 l2 x e Hl1 Hx).
Qed.

Lemma sample_repository_converts (k : string) (v : value) (attr : attribute) :
  Sample.repository_kwargs !! k = Some v →
  _meta Sample.repository !! k = Some attr →
  ∃ w, to_python attr v = Ok w.
Proof.
  unfold Sample.repository_kwargs. intros Hk Hm.
  apply lookup_insert_Some in Hk as [[<- <-] | [_ Hk]].
  - vm_compute in Hm. injection Hm as <-. eexists. vm_compute. reflexivity.
  - apply lookup_singleton_Some in Hk as [<- <-]. vm_compute in Hm. discriminate Hm.
Qed.

Lemma get_value_typed_witness :
  ∃ inst,
    get_value Sample2.respond map_to_list Sample.issues_cmd [VStr "show"]
      Sample2.show_kwargs (Some Sample.repository) []
    = (Ok (inr inst), [Sample2.show_call])
    ∧ inst !! "forks" = Some (VInt 3)
    ∧ ∃ w, to_python (DateAttribute "Creation date" "github")
             (VStr "2009/05/20 12:30:45 -0700") = Ok w
           ∧ inst !! "created_at" = Some w.
Proof.
  destruct (get_value_typed Sample2.respond map_to_list Sample.issues_cmd
              [VStr "show"] Sample2.show_kwargs Sample.repository
              Sample.repository_kwargs [] [Sample2.show_call]
              (λ m, reflexivity _) eq_refl sample_repository_plain
              sample_repository_fields sample_repository_converts)
    as (inst & Hget & _ & Hst).
  exists inst. split_and!.
  - exact Hget.
  - exact (Hst "forks" (VInt 3) eq_refl).
  - exact (Hst "created_at" (VStr "2009/05/20 12:30:45 -0700") eq_refl).
Defined.

Lemma get_value_edges_witness :
  get_value Sample2.respond map_to_list Sample.issues_cmd [] Sample2.show_kwargs
    (Some Sample.repository) []
  = (Raise TypeError, [])
  ∧ get_value Sample2.respond map_to_list Sample.issues_cmd []
      (<["command" := VStr "show"]> Sample2.list_kwargs) None []
    = get_value Sample2.respond map_to_list Sample.issues_cmd [VStr "show"]
        (delete "command" (<["command" := VStr "show"]> Sample2.list_kwargs)) None []
  ∧ get_value Sample2.respond map_to_list Sample.issues_cmd [VStr "show"]
      (<["command" := VStr "show"]> Sample2.list_kwargs) None []
    = (Raise TypeError, [])
  ∧ get_value Sample2.respond map_to_list Sample.issues_cmd [VStr "show"]
      Sample2.list_kwargs (Some Sample.repository) []
    = (Raise AttributeError, [Sample2.show_call]).
Proof.
  split_and!.
  - exact (proj1 (get_value_edges Sample2.respond map_to_list Sample.issues_cmd []
                    Sample2.show_kwargs (Some Sample.repository) []) eq_refl eq_refl).
  - exact (proj1 (proj2 (proj2 (get_value_edges Sample2.respond map_to_list
                                  Sample.issues_cmd []
                                  (<["command" := VStr "show"]> Sample2.list_kwargs)
                                  None [])))
             (VStr "show") eq_refl eq_refl eq_refl).
  - apply (proj1 (proj2 (get_value_edges Sample2.respond map_to_list Sample.issues_cmd
                           [VStr "show"]
                           (<["command" := VStr "show"]> Sample2.list_kwargs)
                           None []))).
    + discriminate.
    + eexists. reflexivity.
  - destruct (get_value_edges Sample2.respond map_to_list Sample.issues_cmd
                [VStr "show"] Sample2.list_kwargs None [])
      as (_ & _ & _ & _ & _ & Hok).
    destruct (Hok _ [Sample2.show_call] eq_refl) as (_ & Hnomap & _).
    apply Hnomap. intros d. discriminate.
Defined.

Lemma get_values_typed_witness :
  ∃ insts,
    get_values Sample2.respond map_to_list Sample.issues_cmd [VStr "show"]
      Sample2.list_kwargs (Some Sample.repository) []
    = (Ok (inr insts), [Sample2.show_call])
    ∧ length insts = 2.
Proof.
  destruct (get_values_typed Sample2.respond map_to_list Sample.issues_cmd
              [VStr "show"] Sample2.list_kwargs Sample.repository
              [VDict Sample.repository_kwargs; VDict ∅] [] [Sample2.show_call]
              (λ m, reflexivity _) eq_refl sample_repository_plain)
    as (insts & Hget & HF).
  - repeat constructor.
    + exists Sample.repository_kwargs. split_and!; [done | |].
      * apply sample_repository_fields.
      * intros k x attr. apply sample_repository_converts.
    + exists ∅. split_and!; [done | |].
      * intros k [x Hk]. by rewrite lookup_empty in Hk.
      * intros k x attr Hk. by rewrite lookup_empty in Hk.
  - exists insts. split; [exact Hget|].
    symmetry. exact (Forall2_length _ _ _ HF).
Defined.

Lemma get_values_edges_witness :
  get_values Sample2.respond map_to_list Sample.issues_cmd [VStr "show"]
    Sample2.show_kwargs (Some Sample.repository) []
  = (Raise AttributeError, [Sample2.show_call]).
Proof.
  destruct (get_values_edges Sample2.respond map_to_list Sample.issues_cmd
              [VStr "show"] Sample2.show_kwargs Sample.repository
              (VDict Sample.repository_kwargs) [] [Sample2.show_call]
              (λ m, reflexivity _) eq_refl) as (_ & _ & Hdict & _).
  apply (Hdict Sample.repository_kwargs eq_refl).
  unfold Sample.repository_kwargs. apply insert_non_empty.
Defined.

(** ** From a native timestamp to the wire and back *)

Lemma converter_lookup :
  converter_for_format !! "github"
  = Some (mk_converter ghdate_to_datetime datetime_to_ghdate)
  ∧ converter_for_format !! "commit"
    = Some (mk_converter commitdate_to_datetime datetime_to_commitdate)
  ∧ converter_for_format !! "user"
    = Some (mk_converter userdate_to_datetime datetime_to_ghdate)
  ∧ converter_for_format !! "iso"
    = Some (mk_converter isodate_to_datetime datetime_to_isodate).
Proof. split_and!; reflexivity. Qed.

Lemma converter_unknown (format : string) :
  format ∉ known_formats → converter_for_format !! format = None.
Proof.
  unfold known_formats, converter_for_format. rewrite !not_elem_of_cons.
  intros (H1 & H2 & H3 & H4 & _).
  rewrite !lookup_insert_ne by done. by apply lookup_singleton_ne.
Qed.

Lemma nonblank_fmt02 (v : Z) : nonblank (Str.fmt02 v) = true.
Proof.
  assert (H : ∀ x, Str.is_space (Str.digit_char (x mod 10)) = false).
  { intros x. apply digit_not_space, digit_val_char.
    pose proof (Z.mod_pos_bound x 10). lia. }
  unfold Str.fmt02. simpl. by rewrite !H.
Qed.

Lemma nonblank_fmt04 (v : Z) : nonblank (Str.fmt04 v) = true.
Proof.
  assert (H : ∀ x, Str.is_space (Str.digit_char (x mod 10)) = false).
  { intros x. apply digit_not_space, digit_val_char.
    pose proof (Z.mod_pos_bound x 10). lia. }
  unfold Str.fmt04, Str.fmt02. simpl. by rewrite !H.
Qed.

Lemma nonblank_github_date (d : datetime) :
  nonblank (github_date d) = true ∧ github_date d ≠ "".
Proof.
  unfold github_date. split; [|done].
  repeat (apply nonblank_app; [first [apply nonblank_fmt04 | apply nonblank_fmt02 | done]|]).
  apply nonblank_fmt02.
Qed.

Lemma nonblank_clock (d : datetime) : nonblank (clock d) = true ∧ clock d ≠ "".
Proof.
  unfold clock. split; [|done].
  repeat (apply nonblank_app; [first [apply nonblank_fmt02 | done]|]).
  apply nonblank_fmt02.
Qed.

Lemma strftime_github_parts (d : datetime) :
  strftime_go d GITHUB_DATE_FORMAT = github_date d +:+ String " " (clock d).
Proof. unfold github_date, clock. by rewrite !app_assoc_string. Qed.

Lemma whole_second_ok (d : datetime) :
  valid_date (year d) (month d) (day d) = true →
  valid_time (hour d) (minute d) (second d) = true →
  datetime_ok (whole_second d) = true.
Proof. intros Hd Ht. unfold datetime_ok. simpl. by rewrite Hd, Ht. Qed.

Lemma strftime_whole_second (d : datetime) :
  strftime_go (whole_second d) GITHUB_DATE_FORMAT = strftime_go d GITHUB_DATE_FORMAT
  ∧ strftime_go (whole_second d) COMMIT_DATE_FORMAT = strftime_go d COMMIT_DATE_FORMAT.
Proof. by destruct d. Qed.

Lemma drop_last_app (x sfx : string) :
  Str.drop_last (String.length sfx) (x +:+ sfx) = x.
Proof.
  unfold Str.drop_last. rewrite length_app.
  replace (String.length x + String.length sfx - String.length sfx)
    with (String.length x) by lia.
  induction x as [|c x IH]; [by destruct sfx|].
  rewrite app_cons. simpl. by rewrite IH.
Qed.

Lemma drop_last_short (n : nat) (s : string) :
  String.length s ≤ n → Str.drop_last n s = "".
Proof.
  intros H. unfold Str.drop_last.
  replace (String.length s - n) with 0 by lia. by destruct s.
Qed.

(** A Github date written from a timestamp is parsed to it, whatever the
    offset that follows. *)
Lemma ghdate_parse_written (d : datetime) (offset : string) :
  datetime_ok d = true →
  ghdate_to_datetime (VStr (Str.join " " [strftime_go d GITHUB_DATE_FORMAT; offset]))
  = Ok d.
Proof.
  intros Hok. unfold ghdate_to_datetime.
  destruct (nonblank_github_date d) as [Hd Hdn], (nonblank_clock d) as [Ht Htn].
  change (Str.join " " [strftime_go d GITHUB_DATE_FORMAT; offset])
    with (strftime_go d GITHUB_DATE_FORMAT +:+ String " " offset).
  rewrite strftime_github_parts.
  replace ((github_date d +:+ String " " (clock d)) +:+ String " " offset)
    with (github_date d +:+ String " " (clock d +:+ String " " offset))
    by (by rewrite !app_assoc_string).
  rewrite (ghdate_tokens _ _ _ Hd Ht Hdn Htn) by eauto.
  rewrite <- strftime_github_parts. by apply strptime_github.
Qed.

Lemma strftime_ok (d : datetime) (fmt : string) :
  (1900 ≤ year d)%Z → strftime d fmt = Ok (strftime_go d fmt).
Proof. intros H. unfold strftime. by rewrite (proj2 (Z.ltb_ge _ _) H). Qed.

Lemma isoformat_whole (d : datetime) :
  microsecond d = 0%Z → isoformat d = strftime_go d COMMIT_DATE_FORMAT.
Proof.
  intros H. unfold isoformat. rewrite H. reflexivity.
Qed.

(** X9: what a date descriptor writes for a native timestamp, it reads
    back to that timestamp, for each of the four formats.  The formats
    written with [strftime] ([github], [commit], [user]) need a year from
    1900 on and drop the microseconds; the [iso] format is exact for a
    timestamp without microseconds. *)
Theorem native_round_trip (help format : string) (d : datetime) :
  format ∈ known_formats →
  valid_date (year d) (month d) (day d) = true →
  valid_time (hour d) (minute d) (second d) = true →
  (if bool_decide (format = "iso") then microsecond d = 0 else 1900 ≤ year d)%Z →
  (w ← from_python (DateAttribute help format) (VDatetime d);
   to_python (DateAttribute help format) w)
  = Ok (VDatetime (whole_second d)).
Proof.
  intros Hin Hd Ht Hy.
  pose proof (whole_second_ok d Hd Ht) as Hok.
  destruct (strftime_whole_second d) as [Hg Hc].
  destruct converter_lookup as (Lg & Lc & Lu & Li).
  unfold known_formats in Hin.
  repeat (apply elem_of_cons in Hin as [-> | Hin]); [..| by apply elem_of_nil in Hin];
    simpl in Hy; unfold from_python, to_python; simpl truthy; cbv iota.
  - rewrite Lg. simpl conv_from. simpl conv_to.
    unfold datetime_to_ghdate. rewrite (strftime_ok _ _ Hy), !bind_ok.
    change (truthy (VStr (Str.join " " [strftime_go d GITHUB_DATE_FORMAT;
                                         GITHUB_TIMEZONE]))) with true.
    simpl is_datetime. cbv iota beta. simpl andb. cbv iota.
    rewrite <- Hg, (ghdate_parse_written _ _ Hok). reflexivity.
  - rewrite Lc. simpl conv_from. simpl conv_to.
    unfold datetime_to_commitdate. rewrite (strftime_ok _ _ Hy), !bind_ok.
    change (truthy (VStr (Str.join "" [strftime_go d COMMIT_DATE_FORMAT;
                                        COMMIT_TIMEZONE]))) with true.
    simpl is_datetime. simpl andb. cbv iota.
    unfold commitdate_to_datetime.
    change (Str.drop_last 6 (Str.join "" [strftime_go d COMMIT_DATE_FORMAT;
                                          COMMIT_TIMEZONE]))
      with (Str.drop_last (String.length COMMIT_TIMEZONE)
              (strftime_go d COMMIT_DATE_FORMAT +:+ COMMIT_TIMEZONE)).
    rewrite (drop_last_app (strftime_go d COMMIT_DATE_FORMAT) COMMIT_TIMEZONE).
    rewrite <- Hc, (strptime_commit _ Hok). reflexivity.
  - rewrite Lu. simpl conv_from. simpl conv_to.
    unfold datetime_to_ghdate. rewrite (strftime_ok _ _ Hy), !bind_ok.
    change (truthy (VStr (Str.join " " [strftime_go d GITHUB_DATE_FORMAT;
                                         GITHUB_TIMEZONE]))) with true.
    simpl is_datetime. simpl andb. cbv iota.
    unfold userdate_to_datetime.
    rewrite <- Hg, (ghdate_parse_written _ _ Hok). reflexivity.
  - rewrite Li. simpl conv_from. simpl conv_to.
    unfold datetime_to_isodate. rewrite !bind_ok.
    rewrite (isoformat_whole _ Hy).
    change (truthy (VStr (strftime_go d COMMIT_DATE_FORMAT +:+ "Z"))) with true.
    simpl is_datetime. simpl andb. cbv iota.
    unfold isodate_to_datetime.
    change (Str.drop_last 1 (strftime_go d COMMIT_DATE_FORMAT +:+ "Z"))
      with (Str.drop_last (String.length "Z")
              (strftime_go d COMMIT_DATE_FORMAT +:+ "Z")).
    rewrite (drop_last_app (strftime_go d COMMIT_DATE_FORMAT) "Z").
    rewrite <- Hc, (strptime_commit _ Hok). reflexivity.
Qed.

Lemma native_round_trip_witness :
  (w ← from_python (DateAttribute "Pushed" "commit")
         (VDatetime (mk_datetime 2010 12 31 23 59 58 123456));
   to_python (DateAttribute "Pushed" "commit") w)
  = Ok (VDatetime (mk_datetime 2010 12 31 23 59 58 0)).
Proof.
  apply (native_round_trip "Pushed" "commit" (mk_datetime 2010 12 31 23 59 58 123456)).
  - apply list_elem_of_further, list_elem_of_here.
  - reflexivity.
  - reflexivity.
  - simpl. lia.
Defined.

(** ** What the parsers do not read *)

(** X10: the commit and iso parsers cut the end of the text off without
    reading it: after the date and time of a timestamp, any six
    characters make a commit date, and any one character an iso date, of
    that timestamp.  A text that has no more than the characters cut off
    raises a [ValueError]. *)
Theorem cut_suffix_unread (d : datetime) (sfx : string) :
  datetime_ok d = true →
  (String.length sfx = 6 →
   commitdate_to_datetime (VStr (strftime_go d COMMIT_DATE_FORMAT +:+ sfx)) = Ok d)
  ∧ (String.length sfx = 1 →
     isodate_to_datetime (VStr (strftime_go d COMMIT_DATE_FORMAT +:+ sfx)) = Ok d)
  ∧ (String.length sfx ≤ 6 → commitdate_to_datetime (VStr sfx) = Raise ValueError)
  ∧ (String.length sfx ≤ 1 → isodate_to_datetime (VStr sfx) = Raise ValueError).
Proof.
  intros Hok. unfold commitdate_to_datetime, isodate_to_datetime. split_and!.
  - intros <-. rewrite drop_last_app. by apply strptime_commit.
  - intros <-. rewrite drop_last_app. by apply strptime_commit.
  - intros H. by rewrite (drop_last_short _ _ H).
  - intros H. by rewrite (drop_last_short _ _ H).
Qed.

Lemma cut_suffix_unread_witness :
  commitdate_to_datetime (VStr "2010-12-31T23:59:58 bogus")
  = Ok (mk_datetime 2010 12 31 23 59 58 0)
  ∧ isodate_to_datetime (VStr "Z") = Raise ValueError.
Proof.
  split.
  - exact (proj1 (cut_suffix_unread (mk_datetime 2010 12 31 23 59 58 0) " bogus" eq_refl)
             eq_refl).
  - apply (cut_suffix_unread (mk_datetime 2010 12 31 23 59 58 0) "Z" eq_refl).
    simpl. lia.
Defined.

Lemma time_strptime_remains (fmt data m rest : string) (re : regex)
    (found : captures) (c : ascii) :
  TimeRE.pattern fmt = Some re →
  hd_match re data found m (String c rest) →
  time_strptime data fmt = Raise ValueError.
Proof. intros Hre [tl Hm]. unfold time_strptime. by rewrite Hre, Hm. Qed.

(** X11: the iso format does not read back a timestamp that has
    microseconds: [datetime_to_isodate] writes them after the seconds, and
    [isodate_to_datetime] raises a [ValueError] on the text. *)
Theorem iso_microseconds_refused (d : datetime) :
  valid_date (year d) (month d) (day d) = true →
  valid_time (hour d) (minute d) (second d) = true →
  microsecond d ≠ 0%Z →
  datetime_to_isodate d
  = Ok (strftime_go d COMMIT_DATE_FORMAT +:+ "." +:+ fmt06 (microsecond d) +:+ "Z")
  ∧ isodate_to_datetime
      (VStr (strftime_go d COMMIT_DATE_FORMAT +:+ "." +:+ fmt06 (microsecond d) +:+ "Z"))
    = Raise ValueError.
Proof.
  intros Hd Ht Hus.
  pose proof (valid_date_month_day _ _ _ Hd) as Hb1.
  pose proof (valid_time_bounds _ _ _ Ht) as Hb2.
  split.
  - unfold datetime_to_isodate, isoformat.
    rewrite (proj2 (Z.eqb_neq _ _) Hus). reflexivity.
  - unfold isodate_to_datetime.
    replace (strftime_go d COMMIT_DATE_FORMAT +:+ "." +:+ fmt06 (microsecond d) +:+ "Z")
      with ((strftime_go d COMMIT_DATE_FORMAT +:+ "." +:+ fmt06 (microsecond d)) +:+ "Z")
      by (by rewrite !app_assoc_string).
    change 1 with (String.length "Z"). rewrite drop_last_app.
    unfold strptime.
    erewrite time_strptime_remains; [reflexivity | vm_compute; reflexivity |].
    change (strftime_go d COMMIT_DATE_FORMAT +:+ "." +:+ fmt06 (microsecond d))
      with (Str.fmt04 (year d) +:+ "-" +:+ Str.fmt02 (month d) +:+ "-"
            +:+ Str.fmt02 (day d) +:+ "T" +:+ Str.fmt02 (hour d) +:+ ":"
            +:+ Str.fmt02 (minute d) +:+ ":" +:+ Str.fmt02 (second d)
            +:+ String "." (fmt06 (microsecond d))).
    chain_matches.
Qed.

Lemma iso_microseconds_refused_witness :
  datetime_to_isodate (mk_datetime 2011 3 4 5 6 7 890)
  = Ok "2011-03-04T05:06:07.000890Z"
  ∧ isodate_to_datetime (VStr "2011-03-04T05:06:07.000890Z") = Raise ValueError.
Proof.
  apply (iso_microseconds_refused (mk_datetime 2011 3 4 5 6 7 890));
    [reflexivity | reflexivity | discriminate].
Defined.

(** ** Blanks in a Github date *)

Lemma split_go_blanks (b rest : string) :
  all_blank b = true → Str.split_go "" (b +:+ rest) = Str.split_go "" rest.
Proof.
  intros H. induction b as [|c b IH]; [done|].
  simpl in H. apply andb_true_iff in H as [Hc Hb].
  rewrite app_cons. simpl. rewrite Hc. simpl. by apply IH.
Qed.

Lemma split_go_end_token (cur b rest : string) :
  all_blank b = true → b ≠ "" → cur ≠ "" →
  Str.split_go cur (b +:+ rest) = cur :: Str.split_go "" rest.
Proof.
  intros H Hb Hcur. destruct b as [|c b]; [done|].
  simpl in H. apply andb_true_iff in H as [Hc Hbl].
  rewrite app_cons. simpl. rewrite Hc.
  destruct cur; [done|]. simpl. f_equal. by apply split_go_blanks.
Qed.

(** X12: [ghdate_to_datetime] reads the first two words of the text and
    nothing else: blanks before the date, any run of blanks between the
    date and the time, and whatever follows the time after a blank (an
    offset or none) do not change the timestamp. *)
Theorem ghdate_blanks (d : datetime) (b1 b2 tail : string) :
  datetime_ok d = true →
  all_blank b1 = true → all_blank b2 = true → b2 ≠ "" →
  tail = "" ∨ (∃ c t, tail = String c t ∧ Str.is_space c = true) →
  ghdate_to_datetime
    (VStr (b1 +:+ github_date d +:+ b2 +:+ clock d +:+ tail))
  = Ok d.
Proof.
  intros Hok Hb1 Hb2 Hne Htail. unfold ghdate_to_datetime.
  destruct (nonblank_github_date d) as [Hd Hdn], (nonblank_clock d) as [Ht Htn].
  assert (Hsplit : take 2 (Str.split (b1 +:+ github_date d +:+ b2 +:+ clock d +:+ tail))
                   = [github_date d; clock d]).
  { unfold Str.split.
    rewrite (split_go_blanks _ _ Hb1), (split_go_token _ _ _ Hd), app_nil.
    rewrite (split_go_end_token _ _ _ Hb2 Hne Hdn), (split_go_token _ _ _ Ht), app_nil.
    destruct Htail as [-> | (c & t & -> & Hc)]; simpl.
    - by destruct (clock d).
    - rewrite Hc. by destruct (clock d). }
  rewrite split_strip, Hsplit.
  change (Str.join " " [github_date d; clock d])
    with (github_date d +:+ String " " (clock d)).
  rewrite <- strftime_github_parts. by apply strptime_github.
Qed.

Lemma ghdate_blanks_witness :
  ghdate_to_datetime (VStr "  2011/03/04   05:06:07") = Ok (mk_datetime 2011 3 4 5 6 7 0).
Proof.
  apply (ghdate_blanks (mk_datetime 2011 3 4 5 6 7 0) "  " "   " "");
    [reflexivity | reflexivity | reflexivity | discriminate | by left].
Defined.

(** ** The errors of a date descriptor *)

(** X13: a date descriptor given a true value that is neither a text nor
    a timestamp raises an [AttributeError] under the formats [github] and
    [user], whose parser starts with [strip], and a [TypeError] under
    [commit] and [iso], whose parser starts with a slice.  A descriptor
    whose format is none of the four is made without complaint and raises
    a [KeyError] at the first value it has to convert, be it a text. *)
Theorem to_python_errors (help format : string) (v : value) :
  truthy v = true → is_datetime v = false →
  ((∀ s, v ≠ VStr s) →
   (format ∈ ["github"; "user"] →
    to_python (DateAttribute help format) v = Raise AttributeError)
   ∧ (format ∈ ["commit"; "iso"] →
      to_python (DateAttribute help format) v = Raise TypeError))
  ∧ (format ∉ known_formats →
     new_DateAttribute help (Some format) = DateAttribute help format
     ∧ to_python (DateAttribute help format) v = Raise KeyError).
Proof.
  intros Htrue Hdt. destruct converter_lookup as (Lg & Lc & Lu & Li).
  unfold to_python. rewrite Htrue, Hdt. simpl. split.
  - intros Hv. split; intros Hin;
      repeat (apply elem_of_cons in Hin as [-> | Hin]);
      try (by apply elem_of_nil in Hin).
    + rewrite Lg. simpl. destruct v; try done. by destruct (Hv s).
    + rewrite Lu. simpl. destruct v; try done. by destruct (Hv s).
    + rewrite Lc. simpl. destruct v; try done. by destruct (Hv s).
    + rewrite Li. simpl. destruct v; try done. by destruct (Hv s).
  - intros Hf. split; [reflexivity|]. by rewrite (converter_unknown _ Hf).
Qed.

Lemma to_python_errors_witness :
  to_python (DateAttribute "Created" "github") (VInt 1294000000) = Raise AttributeError
  ∧ to_python (DateAttribute "Created" "rfc822") (VStr "Mon, 03 Jan 2011") = Raise KeyError.
Proof.
  split.
  - apply (proj1 (to_python_errors "Created" "github" (VInt 1294000000) eq_refl eq_refl)).
    + intros s. discriminate.
    + apply list_elem_of_here.
  - apply (proj2 (to_python_errors "Created" "rfc822" (VStr "Mon, 03 Jan 2011")
                    eq_refl eq_refl)).
    unfold known_formats. rewrite !not_elem_of_cons.
    split_and!; try discriminate. apply not_elem_of_nil.
Defined.

(** ** Declared fields *)

(** X14: a record type made from a class body whose names are field
    names has the descriptors of the body as its schema, and [None] in
    their place: a declared field reads as [None] on an instance that was
    not given it, and as the converted value on one that was; a member
    that is no descriptor is no part of the schema and reads as it is. *)
Theorem declared_fields_default (attrs : gmap string member) (name : string) :
  (∀ k, is_Some (attrs !! k) → field_name k = true) →
  let cls := BaseDataType_new attrs in
  (∀ a, attrs !! name = Some (MAttribute a) →
     _meta cls !! name = Some a
     ∧ getattr cls ∅ name = Ok VNone
     ∧ ∀ (kwargs inst : gmap string value) (its : list (string * value)),
         (∀ k, is_Some (kwargs !! k) → field_name k = true) →
         its ≡ₚ map_to_list kwargs → constructor cls its = Ok inst →
         (kwargs !! name = None → getattr cls inst name = Ok VNone)
         ∧ (∀ v, kwargs !! name = Some v →
              ∃ w, to_python a v = Ok w ∧ getattr cls inst name = Ok w))
  ∧ (∀ v, attrs !! name = Some (MOther v) →
       _meta cls !! name = None ∧ getattr cls ∅ name = Ok v).
Proof.
  intros Hbody cls. split.
  - intros a Ha.
    assert (Hm : _meta cls !! name = Some a).
    { unfold cls. simpl. by rewrite lookup_omap, Ha. }
    assert (Hc : cls_dict cls !! name = Some (MOther VNone)).
    { unfold cls. simpl. by rewrite lookup_fmap, Ha. }
    split_and!; [done | |].
    + unfold getattr. by rewrite lookup_empty, Hc.
    + intros kwargs inst its Hfields Hp [_ Hcons]%constructor_ok.
      destruct (items_of_kwargs _ _ Hp) as (Hnd & Hin & Hkeys).
      assert (Hnames : ∀ k, k ∈ its.*1 → machinery_name k = false).
      { intros k Hk. by apply field_name_plain, Hfields, Hkeys. }
      destruct (constructor_go_lookup cls its ∅ inst Hnd Hnames (lookup_empty _)
                  Hcons name) as [Hst Hout].
      split.
      * intros Hnone. unfold getattr. rewrite Hout, lookup_empty, Hc; [done|].
        rewrite Hkeys, Hnone. by intros [? ?].
      * intros v Hv. apply Hin in Hv. specialize (Hst v Hv). rewrite Hm in Hst.
        destruct Hst as (w & Hw & Hlook). exists w. split; [done|].
        unfold getattr. by rewrite Hlook.
  - intros v Hv. split.
    + unfold cls. simpl. by rewrite lookup_omap, Hv.
    + unfold getattr, cls. simpl. by rewrite lookup_empty, lookup_fmap, Hv.
Qed.

Lemma declared_fields_default_witness :
  getattr Sample.repository ∅ "name" = Ok VNone
  ∧ getattr Sample.repository Sample.repository_instance "name" = Ok VNone.
Proof.
  assert (Hnames : ∀ k, is_Some ((({[ "created_at" := MAttribute (new_DateAttribute "Creation date" None);
                                      "name" := MAttribute (Attribute "Name") ]}
                                    : gmap string member)) !! k) → field_name k = true).
  { intros k [m Hk].
    apply lookup_insert_Some in Hk as [[<- _] | [_ Hk]]; [reflexivity|].
    apply lookup_singleton_Some in Hk as [<- _]. reflexivity. }
  destruct (proj1 (declared_fields_default _ "name" Hnames) (Attribute "Name") eq_refl)
    as (_ & Hfresh & Hcons).
  split; [exact Hfresh|].
  refine (proj1 (Hcons Sample.repository_kwargs Sample.repository_instance
                   (map_to_list Sample.repository_kwargs) _ (reflexivity _) _) eq_refl).
  - intros k [v Hk]. unfold Sample.repository_kwargs in Hk.
    apply lookup_insert_Some in Hk as [[<- _] | [_ Hk]]; [reflexivity|].
    apply lookup_singleton_Some in Hk as [<- _]. reflexivity.
  - vm_compute. reflexivity.
Defined.

(** ** Documentation *)

Lemma holds_refl_app (a part b : string) : holds (a +:+ part +:+ b) part.
Proof. by exists a, b. Qed.

Lemma holds_in_join (sep : string) (l : list string) (x : string) :
  x ∈ l → holds (Str.join sep l) x.
Proof.
  induction l as [|y l IH]; [by intros ?%elem_of_nil|].
  intros [-> | Hx]%elem_of_cons.
  - destruct l as [|z l].
    + exists "", "". simpl. by rewrite app_empty_r.
    + exists "", (sep +:+ Str.join sep (z :: l)). reflexivity.
  - destruct l as [|z l]; [by apply elem_of_nil in Hx|].
    destruct (IH Hx) as (before & after & E).
    exists (y +:+ sep +:+ before), after.
    change (Str.join sep (y :: z :: l)) with (y +:+ sep +:+ Str.join sep (z :: l)).
    rewrite E. by rewrite !app_assoc_string.
Qed.

(** X15: the documentation that [doc_generator] writes starts with the
    docstring of the class, or with nothing when it has none, followed by
    an empty line, and holds the bullet of every attribute it was given,
    with its name and its help text. *)
Theorem doc_lists_attributes (docstring : option string)
    (attributes : list (string * attribute)) :
  (∃ rest, doc_generator docstring attributes
           = default "" docstring +:+ newline +:+ newline +:+ rest)
  ∧ (attributes = [] →
     doc_generator docstring attributes = default "" docstring +:+ newline +:+ newline)
  ∧ (∀ name attr, (name, attr) ∈ attributes →
       holds (doc_generator docstring attributes) (bullet name (help_of attr))).
Proof.
  unfold doc_generator.
  set (b := Str.join newline ((λ e, bullet e.1 (help_of e.2)) <$> attributes)).
  change (Str.join (newline +:+ newline) [default "" docstring; b])
    with (default "" docstring +:+ (newline +:+ newline) +:+ b).
  split_and!.
  - exists b. by rewrite !app_assoc_string.
  - intros ->. subst b. simpl. by rewrite !app_assoc_string.
  - intros name attr Hin.
    assert (Hb : holds b (bullet name (help_of attr))).
    { apply holds_in_join. apply list_elem_of_fmap. by exists (name, attr). }
    destruct Hb as (before & after & ->).
    exists (default "" docstring +:+ (newline +:+ newline) +:+ before), after.
    by rewrite !app_assoc_string.
Qed.

Lemma doc_lists_attributes_witness :
  holds (doc_generator (Some "A repository.")
           [("name", Attribute "Name"); ("created_at", DateAttribute "Creation date" "github")])
    (bullet "created_at" "Creation date").
Proof.
  apply (proj2 (proj2 (doc_lists_attributes (Some "A repository.")
                         [("name", Attribute "Name");
                          ("created_at", DateAttribute "Creation date" "github")]))
           "created_at" (DateAttribute "Creation date" "github")).
  apply list_elem_of_further, list_elem_of_here.
Defined.


(** ** Canonical texts *)

Lemma strptime_gives_ok (s fmt : string) (d : datetime) :
  strptime s fmt = Ok d → datetime_ok d = true.
Proof.
  unfold strptime. destruct (time_strptime s fmt) as [t|e]; [|discriminate].
  simpl. unfold datetime_new.
  destruct (valid_date _ _ _ && valid_time _ _ _) eqn:E; [|discriminate].
  intros [= <-]. unfold datetime_ok. simpl. by rewrite E.
Qed.

Lemma parsers_give_ok (v : value) (d : datetime) :
  ghdate_to_datetime v = Ok d ∨ commitdate_to_datetime v = Ok d
  ∨ userdate_to_datetime v = Ok d ∨ isodate_to_datetime v = Ok d →
  datetime_ok d = true.
Proof.
  assert (Hgh : ghdate_to_datetime v = Ok d → datetime_ok d = true).
  { destruct v; try discriminate. apply strptime_gives_ok. }
  intros [H | [H | [H | H]]]; [by apply Hgh | | |].
  - destruct v; try discriminate. by apply strptime_gives_ok in H.
  - unfold userdate_to_datetime in H.
    destruct (ghdate_to_datetime v) as [d'|e] eqn:E.
    + injection H as ->. by apply Hgh.
    + destruct e; try discriminate. destruct v; try discriminate.
      by apply strptime_gives_ok in H.
  - destruct v; try discriminate. by apply strptime_gives_ok in H.
Qed.

Lemma datetime_ok_whole (d : datetime) : datetime_ok d = true → microsecond d = 0%Z.
Proof.
  unfold datetime_ok. intros [_ H]%andb_true_iff. by apply Z.eqb_eq in H.
Qed.

Lemma strftime_inv (d : datetime) (fmt r : string) :
  strftime d fmt = Ok r → r = strftime_go d fmt.
Proof. unfold strftime. destruct (_ <? _)%Z; [discriminate|]. by intros [= <-]. Qed.

(** X16: for each of the four formats and for any text at all, when
    formatting what was parsed returns a text, that text is canonical:
    parsing and formatting it again returns it unchanged. *)
Theorem format_parse_canonical (format : string) (conv : converter) (text r : string) :
  converter_for_format !! format = Some conv →
  format_parse (conv_to conv) (conv_from conv) text = Ok r →
  format_parse (conv_to conv) (conv_from conv) r = Ok r.
Proof.
  intros Hconv. destruct converter_lookup as (Lg & Lc & Lu & Li).
  assert (Hin : format ∈ known_formats).
  { destruct (decide (format ∈ known_formats)) as [|Hn]; [done|].
    by rewrite (converter_unknown _ Hn) in Hconv. }
  unfold known_formats in Hin. unfold format_parse.
  repeat (apply elem_of_cons in Hin as [-> | Hin]); [..| by apply elem_of_nil in Hin].
  - rewrite Lg in Hconv. injection Hconv as <-. cbn [conv_to conv_from].
    destruct (ghdate_to_datetime (VStr text)) as [d|e] eqn:E; [|by intros ?].
    rewrite bind_ok. intros Hf.
    assert (Hok : datetime_ok d = true) by (apply (parsers_give_ok (VStr text)); auto).
    assert (Hr : r = Str.join " " [strftime_go d GITHUB_DATE_FORMAT; GITHUB_TIMEZONE]).
    { unfold datetime_to_ghdate in Hf.
      destruct (strftime d GITHUB_DATE_FORMAT) as [s|] eqn:Es; [|discriminate].
      apply strftime_inv in Es as ->. rewrite bind_ok in Hf. by injection Hf as <-. }
    rewrite Hr at 1. by rewrite (ghdate_parse_written _ _ Hok), bind_ok.
  - rewrite Lc in Hconv. injection Hconv as <-. cbn [conv_to conv_from].
    destruct (commitdate_to_datetime (VStr text)) as [d|e] eqn:E; [|by intros ?].
    rewrite bind_ok. intros Hf.
    assert (Hok : datetime_ok d = true) by (apply (parsers_give_ok (VStr text)); auto).
    assert (Hr : r = strftime_go d COMMIT_DATE_FORMAT +:+ COMMIT_TIMEZONE).
    { unfold datetime_to_commitdate in Hf.
      destruct (strftime d COMMIT_DATE_FORMAT) as [s|] eqn:Es; [|discriminate].
      apply strftime_inv in Es as ->. rewrite bind_ok in Hf. by injection Hf as <-. }
    rewrite Hr at 1. unfold commitdate_to_datetime.
    change 6 with (String.length COMMIT_TIMEZONE).
    by rewrite drop_last_app, (strptime_commit _ Hok), bind_ok.
  - rewrite Lu in Hconv. injection Hconv as <-. cbn [conv_to conv_from].
    destruct (userdate_to_datetime (VStr text)) as [d|e] eqn:E; [|by intros ?].
    rewrite bind_ok. intros Hf.
    assert (Hok : datetime_ok d = true) by (apply (parsers_give_ok (VStr text)); auto).
    assert (Hr : r = Str.join " " [strftime_go d GITHUB_DATE_FORMAT; GITHUB_TIMEZONE]).
    { unfold datetime_to_ghdate in Hf.
      destruct (strftime d GITHUB_DATE_FORMAT) as [s|] eqn:Es; [|discriminate].
      apply strftime_inv in Es as ->. rewrite bind_ok in Hf. by injection Hf as <-. }
    rewrite Hr at 1. unfold userdate_to_datetime.
    by rewrite (ghdate_parse_written _ _ Hok), bind_ok.
  - rewrite Li in Hconv. injection Hconv as <-. cbn [conv_to conv_from].
    destruct (isodate_to_datetime (VStr text)) as [d|e] eqn:E; [|by intros ?].
    rewrite bind_ok. intros Hf.
    assert (Hok : datetime_ok d = true) by (apply (parsers_give_ok (VStr text)); auto).
    assert (Hr : r = strftime_go d COMMIT_DATE_FORMAT +:+ "Z").
    { unfold datetime_to_isodate in Hf. injection Hf as <-.
      by rewrite (isoformat_whole _ (datetime_ok_whole _ Hok)). }
    rewrite Hr at 1. unfold isodate_to_datetime.
    change 1 with (String.length "Z").
    by rewrite drop_last_app, (strptime_commit _ Hok), bind_ok.
Qed.

Lemma format_parse_canonical_witness :
  format_parse ghdate_to_datetime datetime_to_ghdate "2011/3/4 5:6:7"
  = Ok "2011/03/04 05:06:07 -0700"
  ∧ format_parse ghdate_to_datetime datetime_to_ghdate "2011/03/04 05:06:07 -0700"
    = Ok "2011/03/04 05:06:07 -0700".
Proof.
  split; [reflexivity|].
  exact (format_parse_canonical "github"
           (mk_converter ghdate_to_datetime datetime_to_ghdate)
           "2011/3/4 5:6:7" "2011/03/04 05:06:07 -0700" eq_refl eq_refl).
Defined.


(** ** Building a record again from its enumeration *)

(** What the constructor stored is not changed by a second conversion. *)
Lemma constructed_converted (cls : record_type) (kwargs inst : gmap string value)
    (its : list (string * value)) :
  (∀ k, is_Some (kwargs !! k) → reserved_name k = false) →
  its ≡ₚ map_to_list kwargs → constructor cls its = Ok inst →
  ∀ k w attr, inst !! k = Some w → _meta cls !! k = Some attr →
              to_python attr w = Ok w.
Proof.
  intros Hfields Hp Hc k w attr Hw Hattr.
  destruct (items_of_kwargs _ _ Hp) as (Hnd & Hin & Hkeys).
  destruct (items_not_reserved _ _ Hp Hfields) as [Hself Hnames].
  assert (is_Some (kwargs !! k)) as [v Hv].
  { apply (constructor_keys cls kwargs inst its (fields_no_dict _ Hfields) Hp Hc).
    by exists w. }
  apply constructor_ok in Hc as [_ Hc].
  destruct (constructor_go_lookup cls its ∅ inst Hnd Hnames (lookup_empty _) Hc k)
    as [Hst _].
  apply Hin in Hv. specialize (Hst v Hv). rewrite Hattr in Hst.
  destruct Hst as (w' & Hconv & Hlook). assert (w' = w) as -> by congruence.
  destruct (to_python_result _ _ _ Hconv) as [-> | Hd]; [done|].
  apply to_python_native. by left.
Qed.

(** X17: the enumeration of a record constructed from a mapping whose
    keys are names of fields builds the record again: given to the
    constructor of its class, a class made of fields, in any order, it
    gives an instance with the entries of the first that are not [None],
    whose enumeration is that of the first. *)
Theorem rebuild_from_iterate (cls : record_type) (kwargs inst : gmap string value)
    (its order : list (string * value)) :
  plain_class cls →
  (∀ k, is_Some (kwargs !! k) → reserved_name k = false) →
  its ≡ₚ map_to_list kwargs → constructor cls its = Ok inst →
  order ≡ₚ iterate inst →
  ∃ inst',
    constructor cls order = Ok inst'
    ∧ (∀ k v, inst' !! k = Some v ↔ inst !! k = Some v ∧ v ≠ VNone)
    ∧ iterate inst' ≡ₚ iterate inst.
Proof.
  intros Hcls Hfields Hp Hc Horder.
  pose proof (constructed_converted cls kwargs inst its Hfields Hp Hc) as Hfix.
  pose proof (constructor_keys cls kwargs inst its (fields_no_dict _ Hfields) Hp Hc)
    as Hdom.
  assert (Hin : ∀ k v, (k, v) ∈ order ↔ inst !! k = Some v ∧ v ≠ VNone).
  { intros k v. rewrite Horder. apply elem_of_iterate. }
  assert (Hnd : NoDup order.*1).
  { rewrite Horder. apply NoDup_iterate. }
  assert (Hnames : ∀ k, k ∈ order.*1 → reserved_name k = false).
  { intros k [[k' v] [-> [Hk _]%Hin]]%list_elem_of_fmap. simpl.
    apply Hfields, Hdom. by exists v. }
  assert (Hself : "self" ∉ order.*1).
  { intros H%Hnames. discriminate H. }
  assert (Hmach : ∀ k, k ∈ order.*1 → machinery_name k = false).
  { intros k H%Hnames. by apply reserved_name_false in H as [_ H]. }
  clear Hnames. rename Hmach into Hnames.
  rewrite (constructor_loop cls order Hself).
  destruct (constructor_go_total cls order ∅) as [inst' Hinst'];
    [by apply plain_class_meta | done | done | |].
  { intros k v attr [Hk _]%Hin Hattr. exists v. by apply (Hfix k). }
  assert (Hstored : ∀ k v, (k, v) ∈ order → inst' !! k = Some v).
  { intros k v Hkv.
    destruct (constructor_go_lookup cls order ∅ inst' Hnd Hnames (lookup_empty _)
                Hinst' k) as [Hst _].
    specialize (Hst v Hkv). destruct (_meta cls !! k) as [attr|] eqn:E; [|done].
    destruct Hst as (w & Hw & ->). apply Hin in Hkv as [Hk _].
    rewrite (Hfix k v attr Hk E) in Hw. by injection Hw as ->. }
  assert (Hlook : ∀ k v, inst' !! k = Some v ↔ inst !! k = Some v ∧ v ≠ VNone).
  { intros k v. rewrite <- Hin. split; [|apply Hstored].
    intros Hk. destruct (decide (k ∈ order.*1)) as [Hmem|Hout].
    - apply list_elem_of_fmap in Hmem as [[k' v'] [-> Hmem]]. simpl in *.
      rewrite (Hstored _ _ Hmem) in Hk. by injection Hk as <-.
    - destruct (constructor_go_lookup cls order ∅ inst' Hnd Hnames (lookup_empty _)
                  Hinst' k) as [_ Hnone].
      by rewrite (Hnone Hout), lookup_empty in Hk. }
  exists inst'. split_and!; [done | done |].
  apply NoDup_Permutation.
  - eapply NoDup_fmap_1, NoDup_iterate.
  - eapply NoDup_fmap_1, NoDup_iterate.
  - intros [k v]. rewrite !elem_of_iterate, Hlook. tauto.
Qed.

Lemma rebuild_from_iterate_witness :
  ∃ inst',
    constructor Sample.repository (iterate Sample.repository_instance) = Ok inst'
    ∧ iterate inst' ≡ₚ iterate Sample.repository_instance.
Proof.
  pose proof (rebuild_from_iterate Sample.repository Sample.repository_kwargs
              Sample.repository_instance (map_to_list Sample.repository_kwargs)
              (iterate Sample.repository_instance)) as H.
  destruct H as (inst' & Hc & _ & Hperm).
  - apply sample_repository_plain.
  - apply sample_repository_fields.
  - apply Permutation_refl.
  - vm_compute. reflexivity.
  - apply Permutation_refl.
  - exists inst'. split; assumption.
Defined.

(** ** The names of the machinery *)



